(** * PSUR schedule store: the SQLite record store and the bulk dispatch

    A shallow embedding of [backend/db_store.py] (the store that derives
    and reconciles the 30-day due date), of the part of
    [backend/db_convex.py] the dispatcher calls, and of the three bulk
    handlers of [backend/server.py].

    Conventions of the embedding:
    - a Python [str] is a [string] (bytes; lower-casing and white space
      are the ASCII ones), [None] is the [None] of [option];
    - a stored TEXT column holds [option string] ([None] is SQL NULL);
    - every statement commits on its own ([_execute]), so the store is
      threaded through a state-and-exception monad in which the state
      survives a raised exception;
    - [datetime.now()] is read from an explicit [clock]. *)

From Stdlib Require Import ZArith Lia Bool Ascii String DecimalString Sorted.
From Stdlib Require DecimalPos DecimalN.
From stdpp Require Import base option list gmap strings.

Local Open Scope string_scope.
Local Open Scope Z_scope.

(** ** Python string primitives *)

Module Py.

(** [str.isspace] on one ASCII character. *)
Definition is_space (c : ascii) : bool :=
  let n := Z.of_N (N_of_ascii c) in
  ((9 <=? n) && (n <=? 13)) || ((28 <=? n) && (n <=? 32)).

Definition is_digit (c : ascii) : bool :=
  let n := Z.of_N (N_of_ascii c) in (48 <=? n) && (n <=? 57).

Definition digit_val (c : ascii) : Z := Z.of_N (N_of_ascii c) - 48.

Definition lower_char (c : ascii) : ascii :=
  let n := N_of_ascii c in
  if ((65 <=? n) && (n <=? 90))%N then ascii_of_N (n + 32) else c.

(** [s.lower()] *)
Fixpoint lower (s : string) : string :=
  match s with
  | EmptyString => EmptyString
  | String c s' => String (lower_char c) (lower s')
  end.

Fixpoint lstrip (s : string) : string :=
  match s with
  | EmptyString => EmptyString
  | String c s' => if is_space c then lstrip s' else s
  end.

Fixpoint rstrip (s : string) : string :=
  match s with
  | EmptyString => EmptyString
  | String c s' =>
      match rstrip s' with
      | EmptyString => if is_space c then EmptyString else String c EmptyString
      | t => String c t
      end
  end.

(** [s.strip()] *)
Definition strip (s : string) : string := rstrip (lstrip s).

Fixpoint startswith (p s : string) : bool :=
  match p, s with
  | EmptyString, _ => true
  | String a p', String b s' => Ascii.eqb a b && startswith p' s'
  | String _ _, EmptyString => false
  end.

(** [needle in hay] *)
Fixpoint contains (needle hay : string) : bool :=
  startswith needle hay ||
  match hay with
  | EmptyString => false
  | String _ hay' => contains needle hay'
  end.

(** [s[n:]] for [n >= 0] *)
Fixpoint drop (n : nat) (s : string) : string :=
  match n, s with
  | O, _ => s
  | S n', String _ s' => drop n' s'
  | S _, EmptyString => EmptyString
  end.

(** Truthiness of an optional string: [None] and [""] are falsy. *)
Definition truthy (v : option string) : bool :=
  match v with
  | None | Some EmptyString => false
  | Some _ => true
  end.

(** [v or ""] *)
Definition or_empty (v : option string) : string := default EmptyString v.

(** The decimal digits of a natural number. *)
Definition dec (n : Z) : string := NilZero.string_of_uint (N.to_uint (Z.to_N n)).

Fixpoint zeros (k : nat) : string :=
  match k with O => EmptyString | S k' => String "0" (zeros k') end.

(** [format(n, "0{w}d")]: sign-aware zero padding to width [w]. *)
Definition zfill (w : nat) (n : Z) : string :=
  if n <? 0 then
    let d := dec (- n) in
    String "-" (zeros (w - 1 - String.length d) +:+ d)
  else
    let d := dec n in zeros (w - String.length d) +:+ d.

(** A run of digits in which single underscores may separate digits,
    as [int] reads it; [acc] is the value so far, [prev] tells that
    the previous character was a digit. *)
Fixpoint int_digits (s : string) (acc : Z) (prev : bool) : option Z :=
  match s with
  | EmptyString => if prev then Some acc else None
  | String c s' =>
      if is_digit c then int_digits s' (10 * acc + digit_val c) true
      else if Ascii.eqb c "_" && prev then
        match s' with
        | String d _ => if is_digit d then int_digits s' acc false else None
        | EmptyString => None
        end
      else None
  end.

(** [int(s)] in base 10; [None] stands for [ValueError]. *)
Definition int (s : string) : option Z :=
  match strip s with
  | String "+" t => int_digits t 0 false
  | String "-" t => Z.opp <$> int_digits t 0 false
  | t => int_digits t 0 false
  end.

End Py.

(** ** Calendar dates, after [datetime.date] *)

Record date := mkdate { year : Z; month : Z; day : Z }.

Module Date.

Definition _MAXORDINAL : Z := 3652059.

Definition _is_leap (y : Z) : bool :=
  (y mod 4 =? 0) && (negb (y mod 100 =? 0) || (y mod 400 =? 0)).

Definition _DAYS_IN_MONTH (m : Z) : Z :=
  match m with
  | 1 => 31 | 2 => 28 | 3 => 31 | 4 => 30 | 5 => 31 | 6 => 30
  | 7 => 31 | 8 => 31 | 9 => 30 | 10 => 31 | 11 => 30 | 12 => 31
  | _ => -1
  end.

Definition _DAYS_BEFORE_MONTH (m : Z) : Z :=
  match m with
  | 1 => 0 | 2 => 31 | 3 => 59 | 4 => 90 | 5 => 120 | 6 => 151
  | 7 => 181 | 8 => 212 | 9 => 243 | 10 => 273 | 11 => 304 | 12 => 334
  | _ => -1
  end.

Definition _days_before_year (y : Z) : Z :=
  let y := y - 1 in y * 365 + y / 4 - y / 100 + y / 400.

Definition _days_in_month (y m : Z) : Z :=
  if (m =? 2) && _is_leap y then 29 else _DAYS_IN_MONTH m.

Definition _days_before_month (y m : Z) : Z :=
  _DAYS_BEFORE_MONTH m + (if (2 <? m) && _is_leap y then 1 else 0).

Definition _ymd2ord (y m d : Z) : Z :=
  _days_before_year y + _days_before_month y m + d.

Definition _DI400Y : Z := 146097.
Definition _DI100Y : Z := 36524.
Definition _DI4Y : Z := 1461.

Definition _ord2ymd (n : Z) : date :=
  let n := n - 1 in
  let n400 := n / _DI400Y in
  let n := n mod _DI400Y in
  let y := n400 * 400 + 1 in
  let n100 := n / _DI100Y in
  let n := n mod _DI100Y in
  let n4 := n / _DI4Y in
  let n := n mod _DI4Y in
  let n1 := n / 365 in
  let n := n mod 365 in
  let y := y + n100 * 100 + n4 * 4 + n1 in
  if (n1 =? 4) || (n100 =? 4) then mkdate (y - 1) 12 31
  else
    let leapyear := (n1 =? 3) && (negb (n4 =? 24) || (n100 =? 3)) in
    let m := Z.shiftr (n + 50) 5 in
    let preceding := _DAYS_BEFORE_MONTH m + (if (2 <? m) && leapyear then 1 else 0) in
    if n <? preceding then
      let m := m - 1 in
      let preceding :=
        preceding - (_DAYS_IN_MONTH m + (if (m =? 2) && leapyear then 1 else 0)) in
      mkdate y m (n - preceding + 1)
    else mkdate y m (n - preceding + 1).

(** [date(y, m, d)]; [None] stands for [ValueError]. *)
Definition make (y m d : Z) : option date :=
  if (1 <=? y) && (y <=? 9999) && (1 <=? m) && (m <=? 12)
     && (1 <=? d) && (d <=? _days_in_month y m)
  then Some (mkdate y m d) else None.

Definition toordinal (d : date) : Z := _ymd2ord (year d) (month d) (day d).

(** [d + timedelta(days=n)]; [None] stands for [OverflowError]. *)
Definition add_days (d : date) (n : Z) : option date :=
  let o := toordinal d + n in
  if (0 <? o) && (o <=? _MAXORDINAL) then Some (_ord2ymd o) else None.

(** [date.max] *)
Definition max : date := mkdate 9999 12 31.

(** Dates compare as the tuples (year, month, day). *)
Definition ltb (a b : date) : bool :=
  (year a <? year b) ||
  ((year a =? year b) &&
   ((month a <? month b) || ((month a =? month b) && (day a <? day b)))).

Definition eqb (a b : date) : bool :=
  (year a =? year b) && (month a =? month b) && (day a =? day b).

Definition leb (a b : date) : bool := negb (ltb b a).

(** [d.isoformat()], that is ["%04d-%02d-%02d"]. *)
Definition isoformat (d : date) : string :=
  Py.zfill 4 (year d) +:+ "-" +:+ Py.zfill 2 (month d) +:+ "-" +:+ Py.zfill 2 (day d).

End Date.

(** ** [datetime.strptime] for the three formats of [_parse_date]

    A format is a list of directives. Each directive is the regular
    expression [_strptime] compiles it to; a directive yields its
    possible matches in the order the backtracking matcher tries them. *)

Inductive directive := DY | Dm | Dd | Lit (c : ascii).

Module Strptime.

Definition in_range (lo hi : Z) (c : ascii) : bool :=
  let n := Py.digit_val c in Py.is_digit c && (lo <=? n) && (n <=? hi).

(** [%Y]: four digits *)
Definition re_Y (s : string) : list (Z * string) :=
  match s with
  | String a (String b (String c (String d rest))) =>
      if Py.is_digit a && Py.is_digit b && Py.is_digit c && Py.is_digit d
      then [(1000 * Py.digit_val a + 100 * Py.digit_val b
             + 10 * Py.digit_val c + Py.digit_val d, rest)]
      else []
  | _ => []
  end.

(** [%m]: 1[0-2] | 0[1-9] | [1-9] *)
Definition re_m (s : string) : list (Z * string) :=
  match s with
  | String a rest =>
      match rest with
      | String b rest' =>
          (if Ascii.eqb a "1" && in_range 0 2 b then [(10 + Py.digit_val b, rest')] else [])
          ++ (if Ascii.eqb a "0" && in_range 1 9 b then [(Py.digit_val b, rest')] else [])
      | EmptyString => []
      end
      ++ (if in_range 1 9 a then [(Py.digit_val a, rest)] else [])
  | EmptyString => []
  end.

(** [%d]: 3[0-1] | [1-2]\d | 0[1-9] | [1-9] | space [1-9] *)
Definition re_d (s : string) : list (Z * string) :=
  match s with
  | String a rest =>
      match rest with
      | String b rest' =>
          (if Ascii.eqb a "3" && in_range 0 1 b then [(30 + Py.digit_val b, rest')] else [])
          ++ (if in_range 1 2 a && Py.is_digit b
              then [(10 * Py.digit_val a + Py.digit_val b, rest')] else [])
          ++ (if Ascii.eqb a "0" && in_range 1 9 b then [(Py.digit_val b, rest')] else [])
      | EmptyString => []
      end
      ++ (if in_range 1 9 a then [(Py.digit_val a, rest)] else [])
      ++ match rest with
         | String b rest' =>
             if Ascii.eqb a " " && in_range 1 9 b then [(Py.digit_val b, rest')] else []
         | EmptyString => []
         end
  | EmptyString => []
  end.

(** All matches of a format at the start of [s], best first, with the
    (year, month, day) read so far and the text left over. *)
Fixpoint matches (fmt : list directive) (ymd : Z * Z * Z) (s : string)
  : list (Z * Z * Z * string) :=
  match fmt with
  | [] => [(ymd, s)]
  | DY :: fmt' =>
      '(v, rest) ← re_Y s; matches fmt' (v, ymd.1.2, ymd.2) rest
  | Dm :: fmt' =>
      '(v, rest) ← re_m s; matches fmt' (ymd.1.1, v, ymd.2) rest
  | Dd :: fmt' =>
      '(v, rest) ← re_d s; matches fmt' (ymd.1.1, ymd.1.2, v) rest
  | Lit c :: fmt' =>
      match s with
      | String c' rest => if Ascii.eqb c c' then matches fmt' ymd rest else []
      | EmptyString => []
      end
  end.

(** [datetime.strptime(text, fmt).date()]; [None] stands for
    [ValueError] (no match, unconverted data, or no such date). *)
Definition strptime (text : string) (fmt : list directive) : option date :=
  match matches fmt (1900, 1, 1) text with
  | (y, m, d, EmptyString) :: _ => Date.make y m d
  | _ => None
  end.

End Strptime.

Definition fmt_Y_m_d : list directive := [DY; Lit "-"; Dm; Lit "-"; Dd].
Definition fmt_m_d_Y : list directive := [Dm; Lit "/"; Dd; Lit "/"; DY].
Definition fmt_Ys_m_d : list directive := [DY; Lit "/"; Dm; Lit "/"; Dd].

Definition DUE_OFFSET_DAYS : Z := 30.

(** ** Checks on the calendar, computed once

    The facts about [_ord2ymd] and about the text of a year are checked
    by evaluation over one 400-year cycle and over the years 1 to 9999. *)

Definition valid_date (d : date) : Prop :=
  1 <= year d <= 9999 /\ 1 <= month d <= 12
  /\ 1 <= day d <= Date._days_in_month (year d) (month d).

Definition shift_year (k : Z) (d : date) : date :=
  mkdate (year d + k) (month d) (day d).

(** Day [r] of the cycle (counted from 0) and the date [_ord2ymd]
    gives for it. *)
Definition date_ok (r : Z) (d : date) : bool :=
  (Date._ymd2ord (year d) (month d) (day d) =? r + 1)
  && (1 <=? year d) && (year d <=? 400)
  && ((145731 <=? r) || (year d <=? 399))
  && (1 <=? month d) && (month d <=? 12)
  && (1 <=? day d) && (day d <=? Date._days_in_month (year d) (month d)).

(** The days [lo .. lo + 2^k - 1] that are below [hi]. *)
Fixpoint cycle_days_ok (k : nat) (lo hi : Z) : bool :=
  match k with
  | O => (hi <=? lo) || date_ok lo (Date._ord2ymd (lo + 1))
  | S k' => cycle_days_ok k' lo hi && cycle_days_ok k' (lo + 2 ^ Z.of_nat k') hi
  end.

(** [format(y, "04d")] is four digits that spell [y]. *)
Definition year_text_ok (y : Z) : bool :=
  match Py.zfill 4 y with
  | String a (String b (String c (String e EmptyString))) =>
      Py.is_digit a && Py.is_digit b && Py.is_digit c && Py.is_digit e
      && (1000 * Py.digit_val a + 100 * Py.digit_val b
          + 10 * Py.digit_val c + Py.digit_val e =? y)
  | _ => false
  end.

(** The years [lo .. lo + 2^k - 1] that are at most [hi]. *)
Fixpoint years_ok (k : nat) (lo hi : Z) : bool :=
  match k with
  | O => (hi <? lo) || year_text_ok lo
  | S k' => years_ok k' lo hi && years_ok k' (lo + 2 ^ Z.of_nat k') hi
  end.

(** ** The table [psur_reports] *)

(** One row; [row_id] is the column [id], [type_] the column [type] and
    [class_] the column [class]. *)
Record row := mkrow {
  row_id : Z;
  td_number : string;
  psur_number : option string;
  type_ : option string;
  product_name : option string;
  catalog_number : option string;
  writer : option string;
  email : option string;
  start_period : option string;
  end_period : option string;
  frequency : option string;
  due_date : option string;
  status : option string;
  canada_needed : option string;
  canada_status : option string;
  comments : option string;
  class_ : option string;
  created_at : option string;
  updated_at : option string;
  version : Z
}.

Definition COLUMN_LIST : list string :=
  [ "td_number"; "psur_number"; "type"; "product_name"; "catalog_number";
    "writer"; "email"; "start_period"; "end_period"; "frequency";
    "due_date"; "status"; "canada_needed"; "canada_status"; "comments";
    "class"; "created_at"; "updated_at"; "version" ].

(** The table and the counter of [AUTOINCREMENT] (the largest [id] ever
    handed out); [rows] is kept in [id] order. *)
Record db := mkdb { rows : list row; seq : Z }.

(** A Python [dict] from field names to text or [None]. *)
Abbreviation pydict := (gmap string (option string)).

(** [d.get(k)] *)
Definition dict_get (d : pydict) (k : string) : option string :=
  default None (d !! k).

(** What [datetime.now()] and SQLite's [CURRENT_TIMESTAMP] read. *)
Record clock := mkclock {
  now_iso : string;            (* datetime.now().isoformat() *)
  now_minute : string;         (* datetime.now().strftime('%Y-%m-%d %H:%M') *)
  today : date;                (* datetime.now().date() *)
  current_timestamp : string   (* CURRENT_TIMESTAMP *)
}.

(** The keyword arguments of [filter_records]. *)
Record filters := mkfilters {
  f_writer : option string;
  f_classification : option string;
  f_status : option string;
  f_within_days : option Z;
  f_overdue_only : bool
}.

(** ** SQL and sorting primitives *)

(** [text LIKE pat]: [%] matches any run, [_] one character, letters
    match without regard to ASCII case. *)
Fixpoint like (pat : string) : string -> bool :=
  match pat with
  | EmptyString => fun t => match t with EmptyString => true | _ => false end
  | String c pat' =>
      if Ascii.eqb c "%" then
        fix star (t : string) : bool :=
          like pat' t || match t with
                         | EmptyString => false
                         | String _ t' => star t'
                         end
      else if Ascii.eqb c "_" then
        fun t => match t with
                 | EmptyString => false
                 | String _ t' => like pat' t'
                 end
      else
        fun t => match t with
                 | EmptyString => false
                 | String d t' =>
                     Ascii.eqb (Py.lower_char c) (Py.lower_char d) && like pat' t'
                 end
  end.

(** [col LIKE pat] on a nullable column: NULL matches nothing. *)
Definition like_col (pat : string) (v : option string) : bool :=
  match v with
  | Some t => like pat t
  | None => false
  end.

Fixpoint insert_by {A} (le : A -> A -> bool) (x : A) (l : list A) : list A :=
  match l with
  | [] => [x]
  | y :: l' => if le x y then x :: l else y :: insert_by le x l'
  end.

(** A stable sort: equal elements keep their order, as [list.sort] and
    an index scan in [id] order do. *)
Definition sort_by {A} (le : A -> A -> bool) (l : list A) : list A :=
  foldr (insert_by le) [] l.

(** [ORDER BY td_number] *)
Definition order_by_td (l : list row) : list row :=
  sort_by (fun a b => String.leb (td_number a) (td_number b)) l.

(** The greatest string of a list, for [ORDER BY ... DESC LIMIT 1]. *)
Fixpoint max_string (l : list string) : option string :=
  match l with
  | [] => None
  | x :: l' =>
      match max_string l' with
      | None => Some x
      | Some y => if String.ltb x y then Some y else Some x
      end
  end.

(** [LIMIT n]: a negative [n] is no limit. *)
Definition limit {A} (n : Z) (l : list A) : list A :=
  if n <? 0 then l else take (Z.to_nat n) l.

Inductive exn := OverflowError | OperationalError.

Inductive outcome (A : Type) := Ret (a : A) | Raise (e : exn).
Arguments Ret {A} a.
Arguments Raise {A} e.

(** ** The store monad

    The state is the store behind the handle; it outlives an exception,
    since every statement has been committed by then. *)

Definition St (S A : Type) : Type := S -> outcome A * S.

Definition ret {S A} (a : A) : St S A := fun s => (Ret a, s).

Definition raise {S A} (e : exn) : St S A := fun s => (Raise e, s).

Definition bind {S A B} (m : St S A) (k : A -> St S B) : St S B :=
  fun s =>
    match m s with
    | (Ret a, s') => k a s'
    | (Raise e, s') => (Raise e, s')
    end.

Notation "x <~ m ;; k" := (bind m (fun x => k))
  (at level 100, m at next level, right associativity).

Definition lift {S A} (o : outcome A) : St S A := fun s => (o, s).

(** A list comprehension whose body runs in the store. *)
Fixpoint for_each {S A B} (f : A -> St S B) (l : list A) : St S (list B) :=
  match l with
  | [] => ret []
  | x :: l' => y <~ f x ;; ys <~ for_each f l' ;; ret (y :: ys)
  end.

(** The counting loop of the bulk operations:
    [for record in records: if update(record): count += 1]. *)
Fixpoint count_updates {S A} (upd : A -> St S bool) (records : list A) (count : Z)
  : St S Z :=
  match records with
  | [] => ret count
  | record :: records' =>
      ok <~ upd record ;;
      count_updates upd records' (if ok then count + 1 else count)
  end.

(** ** The store interface of the dispatcher

    [server.py] reaches the store through [get_store()] and calls
    [filter_records], [update_record] and [bulk_update_status] on it;
    [PSURDatabaseStore] and [ConvexStore] both offer them. [R] is the
    type of the records a store returns, [F] that of the filter
    criteria it takes. *)

Class StoreAPI (S R F : Type) := {
  store_filter_records : F -> St S (list R);
  store_update_record : string -> pydict -> St S bool;
  store_bulk_update_status : F -> string -> St S Z;
  record_td_number : R -> string   (* record["td_number"] *)
}.

(** *** [ConvexStore]

    The functions of the Convex deployment are not part of the Python
    sources; each is a parameter: its result is [None] when the HTTP
    call fails in any way ([_call_query] and [_call_mutation] catch
    every exception and return [None]). *)

Record convex_filter_args := mkargs {
  a_writer : option string;
  a_classification : option string;
  a_status : option string;
  a_overdue : bool;
  a_dueBefore : option string
}.

Record deployment (W : Type) := mkdeployment {
  (* psur:filter, a list of records, each with its td_number *)
  psur_filter : convex_filter_args -> W -> option (list (string * pydict)) * W;
  (* psur:update, reduced to the truth value of what it returns *)
  psur_update : string -> pydict -> W -> option bool * W;
  (* psur:bulkUpdateStatus, [Some n] when it returns the integer [n] *)
  psur_bulkUpdateStatus : filters -> string -> W -> option Z * W
}.
Arguments psur_filter {W}.
Arguments psur_update {W}.
Arguments psur_bulkUpdateStatus {W}.

Module ConvexStore.
Section ConvexStore.

Context {W : Type} (remote : deployment W) (clk : clock).

(** Drop the keys that start with an underscore. *)
Definition _clean (d : pydict) : pydict :=
  filter (fun kv => negb (Py.startswith "_" kv.1) = true) d.

Definition filter_records (f : filters) : St W (list (string * pydict)) :=
  cutoff <~
    match f_within_days f with
    | Some n =>
        if n =? 0 then ret None
        else
          match Date.add_days (today clk) n with
          | Some d => ret (Some (Date.isoformat d))
          | None => raise OverflowError
          end
    | None => ret None
    end ;;
  fun w =>
    let args :=
      mkargs (if Py.truthy (f_writer f) then f_writer f else None)
             (if Py.truthy (f_classification f) then f_classification f else None)
             (if Py.truthy (f_status f) then f_status f else None)
             (f_overdue_only f) cutoff in
    let '(results, w') := psur_filter remote args w in
    (Ret (map (fun r => (r.1, _clean r.2)) (default [] results)), w').

Definition update_record (td : string) (updates : pydict) : St W bool :=
  fun w =>
    let '(result, w') := psur_update remote td (_clean updates) w in
    (Ret (default false result), w').

Definition bulk_update_status (f : filters) (new_status : string) : St W Z :=
  fun w =>
    let '(result, w') := psur_bulkUpdateStatus remote f new_status w in
    (Ret (default 0 result), w').


End ConvexStore.
End ConvexStore.

(** ** The bulk handlers of [tool_entry] *)


Section Dispatcher.

Context {S R F : Type} (store : StoreAPI S R F).








End Dispatcher.



(** ** Python values beyond text *)

(** [sep.join(parts)] *)
Fixpoint str_join (sep : string) (parts : list string) : string :=
  match parts with
  | [] => ""
  | p :: ps =>
      match ps with
      | [] => p
      | _ :: _ => p +:+ sep +:+ str_join sep ps
      end
  end.

(** A bound of [l[lo:hi]], clamped as Python does for a list of
    length [len]: a negative index counts from the end. *)
Definition slice_index (len i : Z) : Z :=
  if i <? 0 then Z.max (i + len) 0 else Z.min i len.

(** [l[lo:hi]] *)
Definition py_slice {A} (lo hi : Z) (l : list A) : list A :=
  let len := Z.of_nat (length l) in
  take (Z.to_nat (slice_index len hi - slice_index len lo))
    (drop (Z.to_nat (slice_index len lo)) l).

(** A value of the [dict] made from a row: the columns [id] and
    [version] hold integers, the others text or [None]. *)
Inductive pyvalue := PyNone | PyStr (s : string) | PyInt (n : Z).

Definition of_text (v : option string) : pyvalue :=
  match v with
  | Some s => PyStr s
  | None => PyNone
  end.

(** Truthiness of a value. *)
Definition py_truthy (v : pyvalue) : bool :=
  match v with
  | PyNone => false
  | PyStr s => Py.truthy (Some s)
  | PyInt n => negb (n =? 0)
  end.

(** [(v or "").strip()]; [None] stands for the [AttributeError] an
    integer raises, which has no [strip]. *)
Definition or_empty_strip (v : pyvalue) : option string :=
  match v with
  | PyNone => Some ""
  | PyStr s => Some (Py.strip s)
  | PyInt n => if n =? 0 then Some "" else None
  end.

(** [dict(row).get(key)]: the keys are [id] and the column names. *)
Definition record_get (record : row) (key : string) : pyvalue :=
  if String.eqb key "id" then PyInt (row_id record)
  else if String.eqb key "td_number" then PyStr (td_number record)
  else if String.eqb key "psur_number" then of_text (psur_number record)
  else if String.eqb key "type" then of_text (type_ record)
  else if String.eqb key "product_name" then of_text (product_name record)
  else if String.eqb key "catalog_number" then of_text (catalog_number record)
  else if String.eqb key "writer" then of_text (writer record)
  else if String.eqb key "email" then of_text (email record)
  else if String.eqb key "start_period" then of_text (start_period record)
  else if String.eqb key "end_period" then of_text (end_period record)
  else if String.eqb key "frequency" then of_text (frequency record)
  else if String.eqb key "due_date" then of_text (due_date record)
  else if String.eqb key "status" then of_text (status record)
  else if String.eqb key "canada_needed" then of_text (canada_needed record)
  else if String.eqb key "canada_status" then of_text (canada_status record)
  else if String.eqb key "comments" then of_text (comments record)
  else if String.eqb key "class" then of_text (class_ record)
  else if String.eqb key "created_at" then of_text (created_at record)
  else if String.eqb key "updated_at" then of_text (updated_at record)
  else if String.eqb key "version" then PyInt (version record)
  else PyNone.

(** ** Counters kept in a [dict]

    [counts[key] = counts.get(key, 0) + 1] on a dict whose keys stay in
    insertion order; the same step builds the groups of a GROUP BY. *)

Fixpoint tally (key : string) (counts : list (string * Z)) : list (string * Z) :=
  match counts with
  | [] => [(key, 1)]
  | (k, n) :: counts' =>
      if String.eqb key k then (k, n + 1) :: counts'
      else (k, n) :: tally key counts'
  end.

(** [counts.get(key, 0)] *)
Fixpoint count_of (key : string) (counts : list (string * Z)) : Z :=
  match counts with
  | [] => 0
  | (k, n) :: counts' => if String.eqb key k then n else count_of key counts'
  end.

(** [sum(counts.values())] *)
Definition total_of (counts : list (string * Z)) : Z :=
  foldr Z.add 0 (map snd counts).

(** ** Helpers of [server.py] *)

(** [[a-z0-9]] *)
Definition is_lower_alnum (c : ascii) : bool :=
  let n := Z.of_N (N_of_ascii c) in
  ((97 <=? n) && (n <=? 122)) || Py.is_digit c.

Fixpoint keep_chars (p : ascii -> bool) (s : string) : string :=
  match s with
  | EmptyString => EmptyString
  | String c s' => if p c then String c (keep_chars p s') else keep_chars p s'
  end.

(** Every character of [s] satisfies [p]. *)
Fixpoint all_chars (p : ascii -> bool) (s : string) : bool :=
  match s with
  | EmptyString => true
  | String c s' => p c && all_chars p s'
  end.

(** [re.sub(r"[^a-z0-9]+", "", s.strip().lower())], with [None] read
    as the empty string. *)
Definition norm (s : option string) : string :=
  keep_chars is_lower_alnum (Py.lower (Py.strip (Py.or_empty s))).








(** The issues of [tool_validate_row]. *)
Definition ISSUE_ANNUAL : string :=
  "Class IIb/III should be annual; frequency mismatch.".
Definition ISSUE_BIENNIAL : string :=
  "Class IIa should be biennial; frequency mismatch.".
Definition ISSUE_DUE_DATE : string :=
  "Missing Due Date; compute from End Period & Frequency.".
Definition ISSUE_WRITER : string := "Missing Writer/owner.".

(** [tool_validate_row(row)], with [get] for [row.get]; [None] stands
    for [AttributeError]. *)
Definition tool_validate_row (get : string -> pyvalue) : option (list string) :=
  klass ← Py.lower <$> or_empty_strip (get "Class");
  freq ← Py.lower <$> or_empty_strip (get "Frequency");
  Some (
    (if (Py.contains "iii" klass || Py.contains "iib" klass)
        && (negb (Py.contains "ann" freq) && negb (Py.contains "1" freq))
     then [ISSUE_ANNUAL] else [])
    ++ (if (Py.contains "iia" klass || Py.contains "ii a" klass)
           && (negb (Py.contains "bienn" freq) && negb (Py.contains "2" freq))
        then [ISSUE_BIENNIAL] else [])
    ++ (if negb (py_truthy (get "Due Date")) then [ISSUE_DUE_DATE] else [])
    ++ (if negb (py_truthy (get "Writer")) then [ISSUE_WRITER] else []))%list.

(** [EXACT_HEADERS] of [excel_utils.py], in the order of the dict. *)
Definition EXACT_HEADERS : list (string * string) :=
  [ ("row_id", "TD Number"); ("psur_number", "PSURNumber"); ("class", "Class");
    ("type", "Type"); ("product_name", "Product Name");
    ("catalog_number", "Catalog Number"); ("writer", "Writer"); ("email", "Email");
    ("start_period", "Start Period"); ("end_period", "End Period");
    ("frequency", "Frequency"); ("due_date", "Due Date"); ("status", "Status");
    ("canada_needed", "Canada Summary Report Needed");
    ("canada_status", "Canada Summary Report Status"); ("comments", "Comments") ].

(** The inner loop of the handler [update_schedule_row]: the first
    header that the key names, by its exact text in any letter case or
    by its canonical name. *)
Fixpoint first_header (key : string) (headers : list (string * string)) : option string :=
  match headers with
  | [] => None
  | (canon, exact) :: headers' =>
      if String.eqb (Py.lower key) (Py.lower exact) || String.eqb key canon
      then Some canon
      else first_header key headers'
  end.

Definition canonical_key (key : string) : string :=
  default key (first_header key EXACT_HEADERS).

(** What the handler [list_reports] returns: [{"items", "count",
    "total"}], or the error of an exception. *)
Inductive listing (R : Type) :=
  | Page (items : list R) (count total : Z)
  | ListFailed (e : exn).
Arguments Page {R} items count total.
Arguments ListFailed {R} e.

Section Listing.

Context {S R F : Type} (store : StoreAPI S R F).

(** [offset] and [limit] are [None] when the argument is left out. *)
Definition tool_list_reports (offset limit : option Z) (filters : F)
  : S -> listing R * S :=
  fun s =>
    let offset := default 0 offset in
    let limit := default 100 limit in
    match store_filter_records filters s with
    | (Ret items, s') =>
        let paginated := py_slice offset (offset + limit) items in
        (Page paginated (Z.of_nat (length paginated)) (Z.of_nat (length items)), s')
    | (Raise e, s') => (ListFailed e, s')
    end.

End Listing.

(** ** The conversation dialog of [server.py]

    [conversation_history] is a list of entries, oldest first. *)

Definition MAX_DIALOG : nat := 100.

(** [add_dialog_entry]: append, then drop the oldest entry when the
    list has more than a hundred. *)
Definition add_dialog_entry {E} (entry : E) (history : list E) : list E :=
  let history := (history ++ [entry])%list in
  if (MAX_DIALOG <? length history)%nat then tail history else history.

(** The entry [tool_entry] logs for a call: it is appended, and nothing
    is dropped. *)
Definition log_tool_call {E} (entry : E) (history : list E) : list E :=
  (history ++ [entry])%list.

(** [clear_dialog] *)
Definition clear_dialog {E} (history : list E) : list E := [].

(** ** The identifiers [add_record] makes up

    [TD] and a number padded to three digits. That the identifiers of
    the numbers 0 to 999 are, as text, in the order of their numbers is
    checked by evaluation, one step at a time. *)

Definition id_text (k : Z) : string := "TD" +:+ Py.zfill 3 k.

Definition id_step_ok (k : Z) : bool := String.ltb (id_text k) (id_text (k + 1)).

(** The numbers [lo .. lo + 2^k - 1] that are below [hi]. *)
Fixpoint id_steps_ok (k : nat) (lo hi : Z) : bool :=
  match k with
  | O => (hi <=? lo) || id_step_ok lo
  | S k' => id_steps_ok k' lo hi && id_steps_ok k' (lo + 2 ^ Z.of_nat k') hi
  end.

(** *** Sample data *)

(** The date-only core of [fromisoformat], used where a concrete
    interpreter is needed: it reads "YYYY-MM-DD" and nothing else. *)
Definition iso_date_only (text : string) : option date :=
  match Strptime.matches [DY; Lit "-"; Dm; Lit "-"; Dd] (1900, 1, 1) text with
  | (y, m, d, EmptyString) :: _ =>
      if Nat.eqb (String.length text) 10 then Date.make y m d else None
  | _ => None
  end.

Definition noon : clock :=
  mkclock "2025-06-01T12:00:00" "2025-06-01 12:00" (mkdate 2025 6 1)
    "2025-06-01 10:00:00".

Definition later : clock :=
  mkclock "2025-06-02T09:30:00" "2025-06-02 09:30" (mkdate 2025 6 2)
    "2025-06-02 07:30:00".

(** A stored row with the identifier, writer, status, end_period and
    due_date given, at version 1. *)
Definition sample_row (i : Z) (td : string) (w st e due : option string) : row :=
  mkrow i td None None None None w None None e None due st None None None None
    (Some "2025-01-01 00:00:00") (Some "2025-01-01 00:00:00") 1.

Definition no_filter : filters := mkfilters None None None None false.

Definition empty_db : db := mkdb [] 0.

(** One row, consistent. *)
Definition one_row : db :=
  mkdb [sample_row 1 "TD001" (Some "Alice") (Some "Assigned")
          (Some "2025-01-01") (Some "2025-01-31")] 1.

(** Two rows under the identifier X1, each consistent with its own
    end_period. *)
Definition two_x1 : db :=
  mkdb [sample_row 1 "X1" (Some "Alice") (Some "Assigned")
          (Some "2025-01-01") (Some "2025-01-31");
        sample_row 2 "X1" (Some "Bob") (Some "Draft")
          (Some "2025-03-01") (Some "2025-03-31")] 2.



(** A thousand identifiers have been handed out. *)
Definition thousand : db :=
  mkdb [sample_row 999 "TD999" None None None (Some "");
        sample_row 1000 "TD1000" None None None (Some "")] 1000.

(** A row without a due date and a row due on the last day of the
    calendar. *)
Definition edge_of_calendar : db :=
  mkdb [sample_row 1 "A" None None None (Some "");
        sample_row 2 "B" None None (Some "9999-12-01") (Some "9999-12-31")] 2.

(** Three rows of class III and one of class IIa. *)
Definition classed_row (i : Z) (td : string) (cls : string) : row :=
  mkrow i td None None None None None None None (Some "2025-01-01") None
    (Some "2025-01-31") (Some "Assigned") None None None (Some cls)
    (Some "2025-01-01 00:00:00") (Some "2025-01-01 00:00:00") 1.

Definition four_classed : db :=
  mkdb [classed_row 1 "TD001" "III"; classed_row 2 "TD002" "IIa";
        classed_row 3 "TD003" "III"; classed_row 4 "TD004" "III"] 4.

(** One row due yesterday, one due tomorrow, seen from [noon]. *)
Definition around_today : db :=
  mkdb [sample_row 1 "TD001" (Some "Alice") (Some "Assigned")
          (Some "2025-05-01") (Some "2025-05-31");
        sample_row 2 "TD002" (Some "Bob") (Some "Draft")
          (Some "2025-05-03") (Some "2025-06-02")] 2.

(** A deployment that lists five records and refuses every update of
    TD003; its state is the log of the identifiers it has updated. *)
Definition refusing_remote : deployment (list string) :=
  mkdeployment (list string)
    (fun _ w =>
       (Some [("TD001", ∅); ("TD002", ∅); ("TD003", ∅); ("TD004", ∅); ("TD005", ∅)], w))
    (fun td _ w => if String.eqb td "TD003" then (None, w) else (Some true, (w ++ [td])%list))
    (fun _ _ w => (None, w)).


Section Store.

(** [datetime.fromisoformat(text).date()] of the Python standard
    library, the last resort of [_parse_date]; [None] stands for
    [ValueError]. The strings it accepts depend on the interpreter's
    version, so the store is verified for any such function. *)
Variable fromisoformat : string -> option date.

Definition _parse_date (value : option string) : option date :=
  match value with
  | None => None
  | Some v =>
      if negb (Py.truthy value) then None
      else
        let text := Py.strip v in
        if negb (Py.truthy (Some text)) then None
        else
          match Strptime.strptime text fmt_Y_m_d with
          | Some d => Some d
          | None =>
              match Strptime.strptime text fmt_m_d_Y with
              | Some d => Some d
              | None =>
                  match Strptime.strptime text fmt_Ys_m_d with
                  | Some d => Some d
                  | None => fromisoformat text
                  end
              end
          end
  end.

Definition _format_date (value : option date) : string :=
  match value with
  | Some d => Date.isoformat d
  | None => ""
  end.

Definition _compute_due (end_period : option string) : outcome (option date) :=
  match _parse_date end_period with
  | None => Ret None
  | Some e =>
      match Date.add_days e DUE_OFFSET_DAYS with
      | Some d => Ret (Some d)
      | None => Raise OverflowError
      end
  end.

(** The store monad over the SQLite table. *)
Local Abbreviation M := (St db).

(** *** [ScheduleRecord.ensure_due] *)

Definition set_due_date (r : row) (due : option string) : row :=
  mkrow (row_id r) (td_number r) (psur_number r) (type_ r) (product_name r)
    (catalog_number r) (writer r) (email r) (start_period r) (end_period r)
    (frequency r) due (status r) (canada_needed r) (canada_status r)
    (comments r) (class_ r) (created_at r) (updated_at r) (version r).

Definition ensure_due (r : row) : outcome row :=
  match _compute_due (end_period r) with
  | Ret due => Ret (set_due_date r (Some (_format_date due)))
  | Raise e => Raise e
  end.

(** *** Row post-processing *)

(** UPDATE psur_reports SET due_date = ?, updated_at = ?,
    version = version + 1 WHERE td_number = ? *)
Definition healed (clk : clock) (due_iso : string) (r : row) : row :=
  mkrow (row_id r) (td_number r) (psur_number r) (type_ r) (product_name r)
    (catalog_number r) (writer r) (email r) (start_period r) (end_period r)
    (frequency r) (Some due_iso) (status r) (canada_needed r) (canada_status r)
    (comments r) (class_ r) (created_at r) (Some (now_iso clk)) (version r + 1).

Definition _write_due (clk : clock) (td : string) (due_iso : string) : M unit :=
  fun s =>
    (Ret tt,
     mkdb (map (fun r => if String.eqb (td_number r) td then healed clk due_iso r else r)
             (rows s))
          (seq s)).

Definition _row_to_record (clk : clock) (persist : bool) (r : row) : M row :=
  record <~ lift (ensure_due r) ;;
  let original_due := due_date r in
  let computed_due := due_date record in
  if persist && Py.truthy computed_due
     && negb (bool_decide (original_due = computed_due))
  then _ <~ _write_due clk (td_number r) (Py.or_empty computed_due) ;; ret record
  else ret record.

(** *** CRUD operations *)

(** The rows are fetched first ([fetchall]); the writes of the
    post-processing do not change what the comprehension iterates on. *)
Definition get_all (clk : clock) (persist : bool) : M (list row) :=
  fun s => for_each (_row_to_record clk persist) (order_by_td (rows s)) s.

(** The query has no ORDER BY: the rows of one [td_number] come in [id]
    order, whether SQLite scans the table or the index on the column,
    and [fetchone] takes the first of them. *)
Definition find_by_td (clk : clock) (persist : bool) (td : string) : M (option row) :=
  fun s =>
    match List.find (fun r => String.eqb (td_number r) td) (rows s) with
    | None => (Ret None, s)
    | Some r => (record <~ _row_to_record clk persist r ;; ret (Some record)) s
    end.

Definition find_all_by_td (clk : clock) (persist : bool) (td : string) : M (list row) :=
  fun s =>
    for_each (_row_to_record clk persist)
      (List.filter (fun r => String.eqb (td_number r) td) (rows s)) s.

Definition find_by_psur (clk : clock) (persist : bool) (psur : string) : M (option row) :=
  fun s =>
    match List.find (fun r => bool_decide (psur_number r = Some psur)) (rows s) with
    | None => (Ret None, s)
    | Some r => (record <~ _row_to_record clk persist r ;; ret (Some record)) s
    end.

Definition find_by_query (clk : clock) (query : string) (lim : Z) : M (list row) :=
  fun s =>
    let pat := "%" +:+ query +:+ "%" in
    let hit (r : row) :=
      like pat (td_number r) || like_col pat (psur_number r)
      || like_col pat (product_name r) || like_col pat (catalog_number r)
      || like_col pat (writer r) || like_col pat (class_ r)
      || like_col pat (status r) in
    for_each (_row_to_record clk true)
      (limit lim (List.filter hit (order_by_td (rows s)))) s.

(** *** [filter_records] *)

(** [r.get("due_date")] parsed: the due date a returned record shows. *)
Definition due_of (r : row) : option date := _parse_date (due_date r).

(** [crit and crit.lower() not in (field or "").lower()] *)
Definition text_mismatch (crit field : option string) : bool :=
  Py.truthy crit
  && negb (Py.contains (Py.lower (Py.or_empty crit)) (Py.lower (Py.or_empty field))).

(** The body of the loop: [true] when the record is appended. *)
Definition keeps (f : filters) (today : date) (window_end : option date)
    (record : row) : bool :=
  let due := due_of record in
  if text_mismatch (f_writer f) (writer record) then false
  else if text_mismatch (f_classification f) (class_ record) then false
  else if text_mismatch (f_status f) (status record) then false
  else if f_overdue_only f
          && match due with
             | None => true
             | Some d => Date.leb today d
             end
  then false
  else
    match f_within_days f, window_end with
    | Some _, Some w =>
        match due with
        | None => false
        | Some d => negb (Date.ltb d today || Date.ltb w d)
        end
    | _, _ => true
    end.

(** The sort key [(_parse_date(r.get("due_date")) or date.max,
    r.get("td_number", ""))]. *)
Definition sort_key (r : row) : date * string :=
  (default Date.max (due_of r), td_number r).

(** Tuples compare lexicographically. *)
Definition key_leb (a b : date * string) : bool :=
  Date.ltb a.1 b.1 || (Date.eqb a.1 b.1 && String.leb a.2 b.2).

Definition filter_records (clk : clock) (f : filters) : M (list row) :=
  records <~ get_all clk true ;;
  window_end <~
    match f_within_days f with
    | Some n =>
        match Date.add_days (today clk) n with
        | Some w => ret (Some w)
        | None => raise OverflowError
        end
    | None => ret None
    end ;;
  ret (sort_by (fun a b => key_leb (sort_key a) (sort_key b))
         (List.filter (keeps f (today clk) window_end) records)).

(** *** [update_record] *)

Definition IMMUTABLE : list string :=
  ["id"; "created_at"; "updated_at"; "version"; "td_number"].

(** The value a SET list gives a column: the new one if the column is
    named, the old one otherwise. *)
Definition assigned (allowed : pydict) (col : string) (old : option string)
  : option string :=
  match allowed !! col with
  | Some v => v
  | None => old
  end.

(** One row after UPDATE ... SET k = ?, ..., updated_at = ?,
    version = version + 1. *)
Definition updated (clk : clock) (allowed : pydict) (r : row) : row :=
  mkrow (row_id r) (td_number r)
    (assigned allowed "psur_number" (psur_number r))
    (assigned allowed "type" (type_ r))
    (assigned allowed "product_name" (product_name r))
    (assigned allowed "catalog_number" (catalog_number r))
    (assigned allowed "writer" (writer r))
    (assigned allowed "email" (email r))
    (assigned allowed "start_period" (start_period r))
    (assigned allowed "end_period" (end_period r))
    (assigned allowed "frequency" (frequency r))
    (assigned allowed "due_date" (due_date r))
    (assigned allowed "status" (status r))
    (assigned allowed "canada_needed" (canada_needed r))
    (assigned allowed "canada_status" (canada_status r))
    (assigned allowed "comments" (comments r))
    (assigned allowed "class" (class_ r))
    (created_at r) (Some (now_iso clk)) (version r + 1).

Definition matching (td : string) (l : list row) : list row :=
  List.filter (fun r => String.eqb (td_number r) td) l.

(** The UPDATE statement of [update_record], returning [rowcount]. A
    key that names no column makes SQLite reject the statement. *)
Definition execute_update (clk : clock) (td : string) (allowed : pydict) : M Z :=
  fun s =>
    if bool_decide (map_Forall (fun k _ => k ∈ COLUMN_LIST) allowed) then
      (Ret (Z.of_nat (length (matching td (rows s)))),
       mkdb (map (fun r => if String.eqb (td_number r) td
                           then updated clk allowed r else r) (rows s))
            (seq s))
    else (Raise OperationalError, s).

Definition _refresh_due (clk : clock) (td : string) : M unit :=
  _ <~ find_by_td clk true td ;; ret tt.

Definition update_record (clk : clock) (td : string) (updates : pydict) : M bool :=
  if bool_decide (updates = ∅) then ret false
  else
    let allowed := filter (fun kv => kv.1 ∉ IMMUTABLE) updates in
    if bool_decide (allowed = ∅) then ret false
    else
      affected <~ execute_update clk td allowed ;;
      if affected =? 0 then ret false
      else _ <~ _refresh_due clk td ;; ret (0 <? affected).

(** *** [add_record] *)

(** SELECT td_number FROM psur_reports WHERE td_number LIKE 'TD%'
    ORDER BY td_number DESC LIMIT 1 *)
Definition last_td (s : db) : option string :=
  max_string (List.filter (like "TD%") (map td_number (rows s))).

Definition next_td (s : db) : string :=
  let num :=
    match last_td s with
    | Some t =>
        match Py.int (Py.drop 2 t) with
        | Some n => n + 1
        | None => 1
        end
    | None => 1
    end in
  "TD" +:+ Py.zfill 3 num.

(** The row INSERT stores: the sixteen bound columns, the defaults of
    the other three and a fresh [id]. *)
Definition inserted (clk : clock) (record : pydict) (s : db) : row :=
  mkrow (seq s + 1) (Py.or_empty (dict_get record "td_number"))
    (dict_get record "psur_number") (dict_get record "type")
    (dict_get record "product_name") (dict_get record "catalog_number")
    (dict_get record "writer") (dict_get record "email")
    (dict_get record "start_period") (dict_get record "end_period")
    (dict_get record "frequency") (dict_get record "due_date")
    (dict_get record "status") (dict_get record "canada_needed")
    (dict_get record "canada_status") (dict_get record "comments")
    (dict_get record "class")
    (Some (current_timestamp clk)) (Some (current_timestamp clk)) 1.

Definition add_record (clk : clock) (record : pydict) : M string :=
  fun s =>
    let '(td, record) :=
      if Py.truthy (dict_get record "td_number")
      then (Py.or_empty (dict_get record "td_number"), record)
      else (next_td s, <["td_number" := Some (next_td s)]> record) in
    match _compute_due (dict_get record "end_period") with
    | Raise e => (Raise e, s)
    | Ret due =>
        let record := <["due_date" := Some (_format_date due)]> record in
        (Ret td, mkdb (rows s ++ [inserted clk record s]) (seq s + 1))
    end.

(** *** [delete_record] *)

Definition delete_record (td : string) : M bool :=
  fun s =>
    (Ret (0 <? Z.of_nat (length (matching td (rows s)))),
     mkdb (List.filter (fun r => negb (String.eqb (td_number r) td)) (rows s))
          (seq s)).

(** *** Higher-level utilities *)

Definition stamped (clk : clock) (comment : string) : string :=
  "[" +:+ now_minute clk +:+ "] " +:+ comment.

Definition combined (existing : string) (note : string) : string :=
  if Py.truthy (Some existing)
  then existing +:+ String "010" note
  else note.

Definition add_comment (clk : clock) (td : string) (comment : string) : M bool :=
  record <~ find_by_td clk false td ;;
  match record with
  | None => ret false
  | Some r =>
      let existing := Py.or_empty (comments r) in
      update_record clk td
        {[ "comments" := Some (combined existing (stamped clk comment)) ]}
  end.

Definition bulk_update_status (clk : clock) (f : filters) (new_status : string) : M Z :=
  records <~ filter_records clk f ;;
  count_updates
    (fun record => update_record clk (td_number record) {[ "status" := Some new_status ]})
    records 0.

(** [PSURDatabaseStore] at one reading of the clock. *)
Definition sqlite_store (clk : clock) : StoreAPI db row filters :=
  {| store_filter_records := filter_records clk;
     store_update_record := update_record clk;
     store_bulk_update_status := bulk_update_status clk;
     record_td_number := td_number |}.

(** *** The read paths, as one family *)

Inductive read :=
  | Find_by_td (persist : bool) (td : string)
  | Find_all_by_td (persist : bool) (td : string)
  | Find_by_psur (persist : bool) (psur : string)
  | Find_by_query (query : string) (lim : Z)
  | Get_all (persist : bool).

Definition option_list {A} (o : option A) : list A :=
  match o with Some a => [a] | None => [] end.

(** The records a read returns. *)
Definition run_read (clk : clock) (q : read) : M (list row) :=
  match q with
  | Find_by_td persist td => o <~ find_by_td clk persist td ;; ret (option_list o)
  | Find_all_by_td persist td => find_all_by_td clk persist td
  | Find_by_psur persist psur => o <~ find_by_psur clk persist psur ;; ret (option_list o)
  | Find_by_query query lim => find_by_query clk query lim
  | Get_all persist => get_all clk persist
  end.

(** *** What a read shows and what it writes back *)

(** The derivation does not overflow on this row. *)
Definition in_range (r : row) : bool :=
  match _compute_due (end_period r) with
  | Ret _ => true
  | Raise _ => false
  end.

(** The due date derived from the row's [end_period], as text. *)
Definition shown_due (r : row) : string :=
  match _compute_due (end_period r) with
  | Ret due => _format_date due
  | Raise _ => ""
  end.

(** The record a read returns for a stored row. *)
Definition view (r : row) : row := set_due_date r (Some (shown_due r)).

(** The condition under which [_row_to_record] writes back. *)
Definition needs_heal (persist : bool) (r : row) : bool :=
  persist && Py.truthy (Some (shown_due r))
  && negb (bool_decide (due_date r = Some (shown_due r))).

Definition write_due_rows (clk : clock) (td due_iso : string) (l : list row) : list row :=
  map (fun r => if String.eqb (td_number r) td then healed clk due_iso r else r) l.

(** The store after [_row_to_record] has processed row [r]. *)
Definition heal_one (clk : clock) (persist : bool) (r : row) (s : db) : db :=
  if needs_heal persist r
  then mkdb (write_due_rows clk (td_number r) (shown_due r) (rows s)) (seq s)
  else s.

Definition heal_all (clk : clock) (persist : bool) (l : list row) (s : db) : db :=
  foldl (fun s r => heal_one clk persist r s) s l.

(** The rows processed before the first one that overflows. *)
Fixpoint ok_prefix (l : list row) : list row :=
  match l with
  | [] => []
  | r :: l' => if in_range r then r :: ok_prefix l' else []
  end.


(** Two states of one stored row across reads: only [due_date],
    [updated_at] and [version] may differ, and [version] never drops. *)
Definition forget (r : row) : row :=
  mkrow (row_id r) (td_number r) (psur_number r) (type_ r) (product_name r)
    (catalog_number r) (writer r) (email r) (start_period r) (end_period r)
    (frequency r) None (status r) (canada_needed r) (canada_status r)
    (comments r) (class_ r) (created_at r) None 0.

Definition heal_rel (r r' : row) : Prop :=
  forget r' = forget r /\ version r <= version r'.

(** The rows selected by [td_number]. *)
Definition first_td (td : string) (s : db) : option row :=
  List.find (fun r => String.eqb (td_number r) td) (rows s).

(** The stored rows a read fetches, in the order it processes them. *)
Definition fetched (q : read) (s : db) : list row :=
  match q with
  | Find_by_td _ td => option_list (first_td td s)
  | Find_all_by_td _ td => matching td (rows s)
  | Find_by_psur _ psur =>
      option_list (List.find (fun r => bool_decide (psur_number r = Some psur)) (rows s))
  | Find_by_query query lim =>
      let pat := "%" +:+ query +:+ "%" in
      limit lim
        (List.filter
           (fun r => like pat (td_number r) || like_col pat (psur_number r)
                     || like_col pat (product_name r) || like_col pat (catalog_number r)
                     || like_col pat (writer r) || like_col pat (class_ r)
                     || like_col pat (status r))
           (order_by_td (rows s)))
  | Get_all _ => order_by_td (rows s)
  end.

Definition persists (q : read) : bool :=
  match q with
  | Find_by_td p _ | Find_all_by_td p _ | Find_by_psur p _ | Get_all p => p
  | Find_by_query _ _ => true
  end.

(** *** The pieces of [update_record], named *)

(** The field map once the immutable keys are dropped. *)
Definition allowed_of (updates : pydict) : pydict :=
  filter (fun kv => kv.1 ∉ IMMUTABLE) updates.

Definition known_columns (allowed : pydict) : bool :=
  bool_decide (map_Forall (fun k _ => k ∈ COLUMN_LIST) allowed).

(** The table after the UPDATE statement. *)
Definition update_rows (clk : clock) (td : string) (allowed : pydict) (l : list row)
  : list row :=
  map (fun r => if String.eqb (td_number r) td then updated clk allowed r else r) l.


(** *** The life of a stored row *)

(** The public calls of the store. *)
Inductive call :=
  | Read (q : read)
  | Filter_records (f : filters)
  | Update_record (td : string) (updates : pydict)
  | Add_record (record : pydict)
  | Delete_record (td : string)
  | Add_comment (td : string) (comment : string)
  | Bulk_update_status (f : filters) (new_status : string).

(** The store after a call, whether it returned or raised. *)
Definition after (clk : clock) (c : call) (s : db) : db :=
  match c with
  | Read q => (run_read clk q s).2
  | Filter_records f => (filter_records clk f s).2
  | Update_record td updates => (update_record clk td updates s).2
  | Add_record record => (add_record clk record s).2
  | Delete_record td => (delete_record td s).2
  | Add_comment td comment => (add_comment clk td comment s).2
  | Bulk_update_status f new_status => (bulk_update_status clk f new_status s).2
  end.

(** A history: each call with the clock it ran at. *)
Definition after_all (cs : list (clock * call)) (s : db) : db :=
  foldl (fun s c => after c.1 c.2 s) s cs.

(** Rows are told apart by [id], and [AUTOINCREMENT] has handed out
    every [id] in the table. *)
Definition wf (s : db) : Prop :=
  NoDup (map row_id (rows s)) /\ Forall (fun r => row_id r <= seq s) (rows s).

(** The same stored row, later. *)
Definition keep (r r' : row) : Prop :=
  row_id r' = row_id r /\ td_number r' = td_number r /\ version r <= version r'.

(** No row added or removed, each row kept. *)
Definition kept (s s' : db) : Prop :=
  seq s' = seq s /\ Forall2 keep (rows s) (rows s').


(** *** The row [add_record] stores, named *)

Definition assigned_td (record : pydict) (s : db) : string :=
  if Py.truthy (dict_get record "td_number")
  then Py.or_empty (dict_get record "td_number")
  else next_td s.

Definition new_row (clk : clock) (record : pydict) (td : string)
    (due : option date) (s : db) : row :=
  mkrow (seq s + 1) td
    (dict_get record "psur_number") (dict_get record "type")
    (dict_get record "product_name") (dict_get record "catalog_number")
    (dict_get record "writer") (dict_get record "email")
    (dict_get record "start_period") (dict_get record "end_period")
    (dict_get record "frequency") (Some (_format_date due))
    (dict_get record "status") (dict_get record "canada_needed")
    (dict_get record "canada_status") (dict_get record "comments")
    (dict_get record "class")
    (Some (current_timestamp clk)) (Some (current_timestamp clk)) 1.

(** *** The contracts of [filter_records], in the words of the spec *)

(** The date a record is ranked by: its due date, or [date.max] when
    the due date is absent or does not parse. *)
Definition due_rank (r : row) : date := default Date.max (due_of r).

(** [a] may come before [b]: earlier rank, or the same rank and an
    identifier that is not greater. *)
Definition before_or_tied (a b : row) : Prop :=
  Date.ltb (due_rank a) (due_rank b) = true
  \/ (due_rank a = due_rank b /\ String.leb (td_number a) (td_number b) = true).

(** A textual criterion: absent or empty, it asks nothing; otherwise it
    must occur in the field, letter case aside. *)
Definition text_matches (crit field : option string) : Prop :=
  match crit with
  | None | Some EmptyString => True
  | Some c => Py.contains (Py.lower c) (Py.lower (Py.or_empty field)) = true
  end.

(** A record satisfies all the supplied criteria. *)
Definition selected (f : filters) (today : date) (r : row) : Prop :=
  text_matches (f_writer f) (writer r)
  /\ text_matches (f_classification f) (class_ r)
  /\ text_matches (f_status f) (status r)
  /\ (f_overdue_only f = true ->
      exists d, due_of r = Some d /\ Date.ltb d today = true)
  /\ (forall n, f_within_days f = Some n ->
      exists d w, due_of r = Some d /\ Date.add_days today n = Some w
                  /\ Date.leb today d = true /\ Date.leb d w = true).

(** The end of the window that goes with the filter arguments. *)
Definition window_of (f : filters) (today : date) (w : option date) : Prop :=
  match f_within_days f with
  | Some n => exists d, Date.add_days today n = Some d /\ w = Some d
  | None => w = None
  end.

(** The sort of [filter_records]. *)
Definition sort_records (l : list row) : list row :=
  sort_by (fun a b => key_leb (sort_key a) (sort_key b)) l.

(** Row by row, the same identifiers and the same end_periods. *)
Definition same_shape (s s' : db) : Prop :=
  Forall2 (fun r r' => td_number r' = td_number r /\ end_period r' = end_period r)
    (rows s) (rows s').


(** ** The other operations of the store *)

(** SELECT COUNT( * ) FROM psur_reports *)
Definition count_records : M Z :=
  fun s => (Ret (Z.of_nat (length (rows s))), s).

(** *** [link_references] *)

Definition link_parts (mc_url sp_url : option string) : list string :=
  ((if Py.truthy mc_url then ["MC: " +:+ Py.or_empty mc_url] else [])
   ++ (if Py.truthy sp_url then ["SP: " +:+ Py.or_empty sp_url] else []))%list.

Definition link_references (clk : clock) (td : string) (mc_url sp_url : option string)
  : M bool :=
  let parts := link_parts mc_url sp_url in
  match parts with
  | [] => ret false
  | _ :: _ => add_comment clk td (str_join " | " parts)
  end.

(** *** [find_missing_fields] *)

(** [[field for field in fields if not (record.get(field) or "").strip()]];
    [None] stands for [AttributeError]. *)
Fixpoint missing_of (record : row) (fields : list string) : option (list string) :=
  match fields with
  | [] => Some []
  | field :: fields' =>
      text ← or_empty_strip (record_get record field);
      missing ← missing_of record fields';
      Some (if Py.truthy (Some text) then missing else field :: missing)
  end.

(** The loop over the records: a record with missing fields is
    returned with their list under [missing_fields]. *)
Fixpoint missing_rows (fields : list string) (records : list row)
  : option (list (row * list string)) :=
  match records with
  | [] => Some []
  | record :: records' =>
      missing ← missing_of record fields;
      results ← missing_rows fields records';
      Some (match missing with
            | [] => results
            | _ :: _ => (record, missing) :: results
            end)
  end.

Definition find_missing_fields (clk : clock) (fields : list string)
  : M (option (list (row * list string))) :=
  records <~ get_all clk true ;;
  ret (missing_rows fields records).

(** *** [get_schedule_for_year] *)

Definition in_schedule (y : Z) (record : row) : bool :=
  match due_of record with
  | None => y <=? 2025
  | Some due =>
      if (y <=? 2025) && (year due <=? 2025) then true
      else (2026 <=? y) && (2026 <=? year due)
  end.

Definition get_schedule_for_year (clk : clock) (y : Z) : M (list row) :=
  records <~ get_all clk true ;;
  ret (sort_by (fun a b => key_leb (sort_key a) (sort_key b))
         (List.filter (in_schedule y) records)).

(** *** [find_duplicate_td_numbers] *)

(** GROUP BY td_number, with COUNT( * ) *)
Definition group_by_td (l : list row) : list (string * Z) :=
  foldl (fun groups r => tally (td_number r) groups) [] l.

(** SELECT td_number ... GROUP BY td_number HAVING COUNT( * ) > 1
    ORDER BY td_number *)
Definition find_duplicate_td_numbers : M (list string) :=
  fun s =>
    (Ret (sort_by String.leb
            (map fst (List.filter (fun g => 1 <? g.2) (group_by_td (rows s))))),
     s).

(** *** [get_stats] *)

Record stats := mkstats {
  total_records : Z;
  by_status : list (string * Z);
  by_class : list (string * Z);
  by_writer : list (string * Z);
  overdue : Z;
  due_soon : Z;
  duplicate_td_numbers : list string
}.

(** [(v or fallback).strip() or fallback] *)
Definition label (v : option string) (fallback : string) : string :=
  let text := Py.strip (if Py.truthy v then Py.or_empty v else fallback) in
  if Py.truthy (Some text) then text else fallback.

(** The body of the loop of [get_stats]. *)
Definition tallied (today thirty : date) (st : stats) (record : row) : stats :=
  let due := due_of record in
  mkstats (total_records st)
    (tally (label (status record) "Unknown") (by_status st))
    (tally (label (class_ record) "Unknown") (by_class st))
    (tally (label (writer record) "Unassigned") (by_writer st))
    (if match due with Some d => Date.ltb d today | None => false end
     then overdue st + 1 else overdue st)
    (if match due with
        | Some d => Date.leb today d && Date.leb d thirty
        | None => false
        end
     then due_soon st + 1 else due_soon st)
    (duplicate_td_numbers st).

Definition with_duplicates (st : stats) (dups : list string) : stats :=
  mkstats (total_records st) (by_status st) (by_class st) (by_writer st)
    (overdue st) (due_soon st) dups.

Definition get_stats (clk : clock) : M stats :=
  records <~ get_all clk true ;;
  thirty <~ match Date.add_days (today clk) 30 with
            | Some d => ret d
            | None => raise OverflowError
            end ;;
  let st :=
    foldl (tallied (today clk) thirty)
      (mkstats (Z.of_nat (length records)) [] [] [] 0 0 []) records in
  dups <~ find_duplicate_td_numbers ;;
  ret (with_duplicates st dups).

(** *** The handler [clone_report] on this store *)




(** *** Contracts of these operations *)




(** A field of a record is blank: absent, [None], empty or white
    space only. *)
Definition is_blank (record : row) (field : string) : bool :=
  match or_empty_strip (record_get record field) with
  | Some text => negb (Py.truthy (Some text))
  | None => false
  end.

(** The fields of [fields] that are blank in a record, in their order. *)
Definition blank_fields (fields : list string) (record : row) : list string :=
  List.filter (is_blank record) fields.

(** A record is overdue: it shows a due date before today. *)
Definition is_overdue (today : date) (record : row) : bool :=
  match due_of record with
  | Some d => Date.ltb d today
  | None => false
  end.

(** A record is due soon: it shows a due date from today to [thirty]. *)
Definition is_due_soon (today thirty : date) (record : row) : bool :=
  match due_of record with
  | Some d => Date.leb today d && Date.leb d thirty
  | None => false
  end.

(** A stored row is settled when a read of it writes nothing back. *)
Definition settled (r : row) : Prop := needs_heal true r = false.

(** ** Facts about dates *)

Lemma ord2ymd_cycle (n : Z) :
  Date._ord2ymd n =
  shift_year (400 * ((n - 1) / 146097)) (Date._ord2ymd ((n - 1) mod 146097 + 1)).
Proof.
  unfold Date._ord2ymd, Date._DI400Y. cbv zeta.
  replace ((n - 1) mod 146097 + 1 - 1) with ((n - 1) mod 146097) by lia.
  assert (Hr : 0 <= (n - 1) mod 146097 < 146097) by (apply Z.mod_pos_bound; lia).
  rewrite (Z.div_small ((n - 1) mod 146097) 146097) by exact Hr.
  rewrite (Z.mod_small ((n - 1) mod 146097) 146097) by exact Hr.
  set (r := (n - 1) mod 146097). set (q := (n - 1) / 146097).
  unfold shift_year.
  repeat match goal with
         | |- context [if ?c then _ else _] => destruct c
         end; simpl; f_equal; lia.
Qed.

Lemma is_leap_cycle (y q : Z) : Date._is_leap (y + 400 * q) = Date._is_leap y.
Proof.
  unfold Date._is_leap.
  replace (y + 400 * q) with (y + (100 * q) * 4) at 1 by lia.
  replace (y + 400 * q) with (y + (4 * q) * 100) at 1 by lia.
  replace (y + 400 * q) with (y + q * 400) by lia.
  rewrite !Z.mod_add by lia. reflexivity.
Qed.

Lemma ymd2ord_cycle (y m d q : Z) :
  Date._ymd2ord (y + 400 * q) m d = Date._ymd2ord y m d + 146097 * q.
Proof.
  unfold Date._ymd2ord, Date._days_before_month, Date._days_before_year.
  rewrite is_leap_cycle. cbv zeta.
  replace (y + 400 * q - 1) with (y - 1 + (100 * q) * 4) at 2 by lia.
  replace (y + 400 * q - 1) with (y - 1 + (4 * q) * 100) at 2 by lia.
  replace (y + 400 * q - 1) with (y - 1 + q * 400) at 2 by lia.
  rewrite !Z.div_add by lia. lia.
Qed.

Lemma cycle_days_ok_spec (k : nat) (lo hi r : Z) :
  cycle_days_ok k lo hi = true ->
  lo <= r < lo + 2 ^ Z.of_nat k -> r < hi ->
  date_ok r (Date._ord2ymd (r + 1)) = true.
Proof.
  revert lo. induction k as [|k IH]; intros lo H Hr Hhi.
  - cbn [cycle_days_ok] in H. change (2 ^ Z.of_nat 0) with 1 in Hr.
    assert (r = lo) as -> by lia.
    apply orb_true_iff in H. destruct H as [H|H]; [|exact H].
    apply Z.leb_le in H. lia.
  - cbn [cycle_days_ok] in H. apply andb_true_iff in H. destruct H as [H1 H2].
    assert (Hp : 2 ^ Z.of_nat (S k) = 2 * 2 ^ Z.of_nat k)
      by (rewrite Nat2Z.inj_succ, Z.pow_succ_r; lia).
    destruct (Z_lt_le_dec r (lo + 2 ^ Z.of_nat k)).
    + apply (IH lo); auto; lia.
    + apply (IH (lo + 2 ^ Z.of_nat k)); auto; lia.
Qed.

Lemma whole_cycle_ok : cycle_days_ok 18 0 146097 = true.
Proof. vm_cast_no_check (eq_refl true). Qed.

Lemma cycle_day_ok_all (r : Z) :
  0 <= r < 146097 -> date_ok r (Date._ord2ymd (r + 1)) = true.
Proof.
  intros Hr. apply (cycle_days_ok_spec 18 0 146097 r whole_cycle_ok); [|lia].
  change (2 ^ Z.of_nat 18) with 262144. lia.
Qed.

Lemma date_ok_facts (r : Z) (y m d : Z) :
  date_ok r (mkdate y m d) = true ->
  Date._ymd2ord y m d = r + 1 /\ 1 <= y <= 400 /\ (r < 145731 -> y <= 399)
  /\ 1 <= m <= 12 /\ 1 <= d <= Date._days_in_month y m.
Proof.
  unfold date_ok. cbn [year month day]. intros Hok.
  repeat (apply andb_true_iff in Hok; destruct Hok as [Hok ?]).
  repeat match goal with
         | H : (_ <=? _) = true |- _ => apply Z.leb_le in H
         | H : (_ =? _) = true |- _ => apply Z.eqb_eq in H
         end.
  match goal with
  | H : (_ || _) = true |- _ =>
      apply orb_true_iff in H; destruct H as [H|H]; apply Z.leb_le in H
  end; repeat split; lia.
Qed.

Lemma cycle_day_facts (r : Z) (y m d : Z) :
  0 <= r < 146097 -> Date._ord2ymd (r + 1) = mkdate y m d ->
  Date._ymd2ord y m d = r + 1 /\ 1 <= y <= 400 /\ (r < 145731 -> y <= 399)
  /\ 1 <= m <= 12 /\ 1 <= d <= Date._days_in_month y m.
Proof.
  intros Hr E. apply date_ok_facts. rewrite <- E.
  exact (cycle_day_ok_all r Hr).
Qed.

Lemma ord2ymd_valid (n : Z) :
  1 <= n <= Date._MAXORDINAL ->
  valid_date (Date._ord2ymd n)
  /\ Date.toordinal (Date._ord2ymd n) = n.
Proof.
  unfold Date._MAXORDINAL. intros Hn.
  pose proof (Z.div_mod (n - 1) 146097 ltac:(lia)) as Hdm.
  pose proof (Z.mod_pos_bound (n - 1) 146097 ltac:(lia)) as Hr.
  assert (Hq : 0 <= (n - 1) / 146097 <= 24).
  { split; [apply Z.div_pos; lia|].
    assert ((n - 1) / 146097 < 25) by (apply Z.div_lt_upper_bound; lia). lia. }
  rewrite (ord2ymd_cycle n).
  set (q := (n - 1) / 146097) in *. set (r := (n - 1) mod 146097) in *.
  destruct (Date._ord2ymd (r + 1)) as [y m d] eqn:E.
  destruct (cycle_day_facts r y m d Hr E) as (H1 & H2 & H3 & H4 & H5).
  unfold valid_date, Date.toordinal, shift_year. cbn [year month day].
  rewrite ymd2ord_cycle. unfold Date._days_in_month in *.
  rewrite is_leap_cycle.
  assert (q = 24 -> r < 145731) by lia.
  repeat split; lia.
Qed.

Lemma years_ok_spec (k : nat) (lo hi y : Z) :
  years_ok k lo hi = true ->
  lo <= y < lo + 2 ^ Z.of_nat k -> y <= hi -> year_text_ok y = true.
Proof.
  revert lo. induction k as [|k IH]; intros lo H Hy Hhi.
  - cbn [years_ok] in H. change (2 ^ Z.of_nat 0) with 1 in Hy.
    assert (y = lo) as -> by lia.
    apply orb_true_iff in H. destruct H as [H|H]; [|exact H].
    apply Z.ltb_lt in H. lia.
  - cbn [years_ok] in H. apply andb_true_iff in H. destruct H as [H1 H2].
    assert (Hp : 2 ^ Z.of_nat (S k) = 2 * 2 ^ Z.of_nat k)
      by (rewrite Nat2Z.inj_succ, Z.pow_succ_r; lia).
    destruct (Z_lt_le_dec y (lo + 2 ^ Z.of_nat k)).
    + apply (IH lo); auto; lia.
    + apply (IH (lo + 2 ^ Z.of_nat k)); auto; lia.
Qed.

Lemma all_years_ok : years_ok 14 1 9999 = true.
Proof. vm_cast_no_check (eq_refl true). Qed.

Lemma year_text (y : Z) :
  1 <= y <= 9999 ->
  exists a b c e,
    Py.zfill 4 y = String a (String b (String c (String e EmptyString)))
    /\ Py.is_digit a = true /\ Py.is_digit b = true
    /\ Py.is_digit c = true /\ Py.is_digit e = true
    /\ 1000 * Py.digit_val a + 100 * Py.digit_val b
       + 10 * Py.digit_val c + Py.digit_val e = y.
Proof.
  intros Hy.
  assert (H : year_text_ok y = true).
  { apply (years_ok_spec 14 1 9999 y all_years_ok); [|lia].
    change (2 ^ Z.of_nat 14) with 16384. lia. }
  unfold year_text_ok in H.
  destruct (Py.zfill 4 y) as [|a [|b [|c [|e [|]]]]]; try discriminate.
  apply andb_true_iff in H. destruct H as [H H5].
  apply andb_true_iff in H. destruct H as [H H4].
  apply andb_true_iff in H. destruct H as [H H3].
  apply andb_true_iff in H. destruct H as [H1 H2].
  apply Z.eqb_eq in H5. exists a, b, c, e. repeat split; assumption.
Qed.

Lemma make_valid (y m d : Z) :
  1 <= y <= 9999 -> 1 <= m <= 12 -> 1 <= d <= Date._days_in_month y m ->
  Date.make y m d = Some (mkdate y m d).
Proof.
  intros Hy Hm Hd. unfold Date.make.
  assert (((1 <=? y) && (y <=? 9999) && (1 <=? m) && (m <=? 12) && (1 <=? d)
           && (d <=? Date._days_in_month y m)) = true) as ->; [|reflexivity].
  rewrite !andb_true_iff, !Z.leb_le. lia.
Qed.

Lemma bind_one {A B} (x : A) (f : A -> list B) : ([x] ≫= f) = f x.
Proof. simpl. apply app_nil_r. Qed.

Lemma stage_Y (a b c e : ascii) (rest : string) (ymd : Z * Z * Z) (fmt : list directive) :
  Py.is_digit a = true -> Py.is_digit b = true ->
  Py.is_digit c = true -> Py.is_digit e = true ->
  Strptime.matches (DY :: fmt) ymd (String a (String b (String c (String e rest))))
  = Strptime.matches fmt
      (1000 * Py.digit_val a + 100 * Py.digit_val b + 10 * Py.digit_val c
       + Py.digit_val e, ymd.1.2, ymd.2) rest.
Proof.
  intros Ha Hb Hc He. cbn [Strptime.matches Strptime.re_Y].
  rewrite Ha, Hb, Hc, He. cbn [andb]. rewrite bind_one. reflexivity.
Qed.

Lemma stage_lit (c : ascii) (rest : string) (ymd : Z * Z * Z) (fmt : list directive) :
  Strptime.matches (Lit c :: fmt) ymd (String c rest) = Strptime.matches fmt ymd rest.
Proof. cbn [Strptime.matches]. rewrite Ascii.eqb_refl. reflexivity. Qed.

Lemma small_cases (lo hi m : Z) (P : Z -> Prop) :
  lo <= m <= hi ->
  (forall k : nat, (k <= Z.to_nat (hi - lo))%nat -> P (lo + Z.of_nat k)) -> P m.
Proof.
  intros Hm H. replace m with (lo + Z.of_nat (Z.to_nat (m - lo))) by lia.
  apply H. lia.
Qed.

Ltac concrete_case :=
  match goal with
  | |- context [Py.zfill 2 ?n] =>
      let t := eval vm_compute in (Py.zfill 2 n) in
      change (Py.zfill 2 n) with t
  end;
  repeat match goal with
         | |- context [1 + Z.of_nat ?k] =>
             let v := eval vm_compute in (1 + Z.of_nat k) in
             change (1 + Z.of_nat k) with v
         end;
  repeat match goal with
         | |- context [?s +:+ ?t] =>
             let u := eval cbv [String.append] in (s +:+ t) in
             change (s +:+ t) with u
         end.

Ltac eval_chars :=
  repeat match goal with
         | |- context [Strptime.in_range ?a ?b ?c] =>
             let v := eval vm_compute in (Strptime.in_range a b c) in
             change (Strptime.in_range a b c) with v
         | |- context [Py.digit_val ?c] =>
             let v := eval vm_compute in (Py.digit_val c) in
             change (Py.digit_val c) with v
         | |- context [Py.is_digit ?c] =>
             let v := eval vm_compute in (Py.is_digit c) in
             change (Py.is_digit c) with v
         end.

Lemma stage_m (m : Z) (rest : string) (ymd : Z * Z * Z) (fmt : list directive) :
  1 <= m <= 12 ->
  Strptime.matches (Dm :: Lit "-" :: fmt) ymd (Py.zfill 2 m +:+ String "-" rest)
  = Strptime.matches fmt (ymd.1.1, m, ymd.2) rest.
Proof.
  intros Hm. revert m Hm.
  assert (H : forall k : nat, (k <= 11)%nat ->
            Strptime.matches (Dm :: Lit "-" :: fmt) ymd
              (Py.zfill 2 (1 + Z.of_nat k) +:+ String "-" rest)
            = Strptime.matches fmt (ymd.1.1, 1 + Z.of_nat k, ymd.2) rest).
  { intros k Hk.
    do 12 (destruct k as [|k]; [concrete_case; cbn; eval_chars; cbn; rewrite ?app_nil_r; reflexivity|]). lia. }
  intros m Hm. apply (small_cases 1 12 m (fun m => _ = _) Hm). exact H.
Qed.

Lemma stage_d (d : Z) (ymd : Z * Z * Z) :
  1 <= d <= 31 ->
  exists more,
    Strptime.matches [Dd] ymd (Py.zfill 2 d) = (ymd.1.1, ymd.1.2, d, EmptyString) :: more.
Proof.
  intros Hd. revert d Hd.
  assert (H : forall k : nat, (k <= 30)%nat ->
            exists more,
              Strptime.matches [Dd] ymd (Py.zfill 2 (1 + Z.of_nat k))
              = (ymd.1.1, ymd.1.2, 1 + Z.of_nat k, EmptyString) :: more).
  { intros k Hk.
    do 31 (destruct k as [|k]; [concrete_case; cbn; eval_chars; cbn; eexists; reflexivity|]). lia. }
  intros d Hd. apply (small_cases 1 31 d (fun d => exists more, _ = _) Hd). exact H.
Qed.

Lemma stage_m_slash (m : Z) (rest : string) (ymd : Z * Z * Z) (fmt : list directive) :
  1 <= m <= 12 ->
  Strptime.matches (Dm :: Lit "/" :: fmt) ymd (Py.zfill 2 m +:+ String "/" rest)
  = Strptime.matches fmt (ymd.1.1, m, ymd.2) rest.
Proof.
  intros Hm. revert m Hm.
  assert (H : forall k : nat, (k <= 11)%nat ->
            Strptime.matches (Dm :: Lit "/" :: fmt) ymd
              (Py.zfill 2 (1 + Z.of_nat k) +:+ String "/" rest)
            = Strptime.matches fmt (ymd.1.1, 1 + Z.of_nat k, ymd.2) rest).
  { intros k Hk.
    do 12 (destruct k as [|k];
           [concrete_case; cbn; eval_chars; cbn; rewrite ?app_nil_r; reflexivity|]).
    lia. }
  intros m Hm. apply (small_cases 1 12 m (fun m => _ = _) Hm). exact H.
Qed.

Lemma stage_d_slash (d : Z) (rest : string) (ymd : Z * Z * Z) (fmt : list directive) :
  1 <= d <= 31 ->
  Strptime.matches (Dd :: Lit "/" :: fmt) ymd (Py.zfill 2 d +:+ String "/" rest)
  = Strptime.matches fmt (ymd.1.1, ymd.1.2, d) rest.
Proof.
  intros Hd. revert d Hd.
  assert (H : forall k : nat, (k <= 30)%nat ->
            Strptime.matches (Dd :: Lit "/" :: fmt) ymd
              (Py.zfill 2 (1 + Z.of_nat k) +:+ String "/" rest)
            = Strptime.matches fmt (ymd.1.1, ymd.1.2, 1 + Z.of_nat k) rest).
  { intros k Hk.
    do 31 (destruct k as [|k];
           [concrete_case; cbn; eval_chars; cbn; rewrite ?app_nil_r; reflexivity|]).
    lia. }
  intros d Hd. apply (small_cases 1 31 d (fun d => _ = _) Hd). exact H.
Qed.

(** A text that starts with a two-digit month and a slash is not in
    the format [%Y-%m-%d]. *)
Lemma month_first_not_iso (m : Z) (rest : string) :
  1 <= m <= 12 ->
  Strptime.matches fmt_Y_m_d (1900, 1, 1) (Py.zfill 2 m +:+ String "/" rest) = [].
Proof.
  intros Hm. revert m Hm.
  assert (H : forall k : nat, (k <= 11)%nat ->
            Strptime.matches fmt_Y_m_d (1900, 1, 1)
              (Py.zfill 2 (1 + Z.of_nat k) +:+ String "/" rest) = []).
  { intros k Hk. unfold fmt_Y_m_d.
    do 12 (destruct k as [|k];
           [concrete_case; destruct rest; cbn; eval_chars; reflexivity|]).
    lia. }
  intros m Hm. apply (small_cases 1 12 m (fun m => _ = _) Hm). exact H.
Qed.

Lemma digit_not_space (c : ascii) : Py.is_digit c = true -> Py.is_space c = false.
Proof.
  unfold Py.is_digit, Py.is_space. cbv zeta. intros H.
  apply andb_true_iff in H. destruct H as [H1 H2].
  apply Z.leb_le in H1. apply Z.leb_le in H2.
  apply orb_false_iff. split; apply andb_false_iff.
  - right. apply Z.leb_gt. lia.
  - right. apply Z.leb_gt. lia.
Qed.

Lemma rstrip_cons (c : ascii) (t : string) :
  Py.rstrip t = t -> t <> "" -> Py.rstrip (String c t) = String c t.
Proof.
  intros H Hne. cbn [Py.rstrip]. rewrite H.
  destruct t; [contradiction|reflexivity].
Qed.

Lemma rstrip_app (s t : string) :
  Py.rstrip t = t -> t <> "" -> Py.rstrip (s +:+ t) = s +:+ t /\ s +:+ t <> "".
Proof.
  intros H Hne. induction s as [|c s [IH1 IH2]].
  - auto.
  - change (String c s +:+ t) with (String c (s +:+ t)).
    split; [apply rstrip_cons; assumption|discriminate].
Qed.

Lemma day_text (d : Z) :
  1 <= d <= 31 -> Py.rstrip (Py.zfill 2 d) = Py.zfill 2 d /\ Py.zfill 2 d <> "".
Proof.
  intros Hd. revert d Hd.
  assert (H : forall k : nat, (k <= 30)%nat ->
            Py.rstrip (Py.zfill 2 (1 + Z.of_nat k)) = Py.zfill 2 (1 + Z.of_nat k)
            /\ Py.zfill 2 (1 + Z.of_nat k) <> "").
  { intros k Hk.
    do 31 (destruct k as [|k]; [concrete_case; split; [reflexivity|discriminate]|]). lia. }
  intros d Hd. apply (small_cases 1 31 d (fun d => _ /\ _) Hd). exact H.
Qed.

Lemma days_in_month_le (y m : Z) : Date._days_in_month y m <= 31.
Proof.
  unfold Date._days_in_month, Date._DAYS_IN_MONTH.
  destruct ((m =? 2) && Date._is_leap y); [lia|].
  destruct m as [|p|p]; try lia.
  do 4 (destruct p as [p|p|]; try lia).
Qed.

(** A date written by [isoformat] is read back by [_parse_date]. *)
Lemma parse_isoformat (d : date) :
  valid_date d -> _parse_date (Some (Date.isoformat d)) = Some d.
Proof.
  destruct d as [y m dd]. unfold valid_date. cbn [year month day].
  intros (Hy & Hm & Hd).
  pose proof (days_in_month_le y m) as Hle.
  destruct (year_text y Hy) as (a & b & c & e & Hz & Ha & Hb & Hc & He & Hv).
  destruct (day_text dd ltac:(lia)) as [Hr Hne].
  assert (Hiso : Date.isoformat (mkdate y m dd)
                 = String a (String b (String c (String e
                     (String "-" (Py.zfill 2 m +:+ String "-" (Py.zfill 2 dd))))))).
  { unfold Date.isoformat. cbn [year month day]. rewrite Hz. reflexivity. }
  assert (Hstrip : Py.strip (Date.isoformat (mkdate y m dd))
                   = Date.isoformat (mkdate y m dd)).
  { rewrite Hiso. unfold Py.strip. cbn [Py.lstrip].
    rewrite (digit_not_space a Ha).
    destruct (rstrip_app (String "-" EmptyString) _ Hr Hne) as [R1 N1].
    destruct (rstrip_app (Py.zfill 2 m) _ R1 N1) as [R2 N2].
    change (String "-" "" +:+ Py.zfill 2 dd) with (String "-" (Py.zfill 2 dd)) in R2, N2.
    destruct (rstrip_app (String a (String b (String c (String e (String "-" EmptyString)))))
                _ R2 N2) as [R3 _].
    exact R3. }
  assert (Htruthy : Py.truthy (Some (Date.isoformat (mkdate y m dd))) = true)
    by (rewrite Hiso; reflexivity).
  assert (Hparse : Strptime.strptime (Date.isoformat (mkdate y m dd)) fmt_Y_m_d
                   = Some (mkdate y m dd)).
  { rewrite Hiso. unfold Strptime.strptime, fmt_Y_m_d.
    rewrite (stage_Y a b c e _ _ _ Ha Hb Hc He), stage_lit, (stage_m m _ _ _ Hm).
    cbn [fst snd].
    destruct (stage_d dd (1000 * Py.digit_val a + 100 * Py.digit_val b
                          + 10 * Py.digit_val c + Py.digit_val e, m, 1) ltac:(lia))
      as [more ->].
    cbn [fst snd]. rewrite Hv. apply (make_valid y m dd Hy Hm Hd). }
  unfold _parse_date. rewrite Htruthy, Hstrip, Htruthy, Hparse. reflexivity.
Qed.

(** Adding days gives a real date, that many days later. *)
Lemma add_days_spec (e d : date) (n : Z) :
  Date.add_days e n = Some d ->
  valid_date d /\ Date.toordinal d = Date.toordinal e + n.
Proof.
  unfold Date.add_days. cbv zeta.
  destruct ((0 <? Date.toordinal e + n) && (Date.toordinal e + n <=? Date._MAXORDINAL))
    eqn:E; [|discriminate].
  intros [= <-]. apply andb_true_iff in E. destruct E as [E1 E2].
  apply Z.ltb_lt in E1. apply Z.leb_le in E2.
  apply ord2ymd_valid. lia.
Qed.

(** ** Facts about the read paths *)

Ltac run_monad := unfold bind, ret, raise, lift in *; simpl in *.

Lemma compute_due_raise (end_period : option string) (e : exn) :
  _compute_due end_period = Raise e -> e = OverflowError.
Proof.
  unfold _compute_due.
  destruct (_parse_date end_period) as [d|]; [|discriminate].
  destruct (Date.add_days d DUE_OFFSET_DAYS); [discriminate|].
  intros H; injection H; auto.
Qed.

Lemma ensure_due_view (r : row) :
  ensure_due r = if in_range r then Ret (view r) else Raise OverflowError.
Proof.
  unfold ensure_due, in_range, view, shown_due.
  destruct (_compute_due (end_period r)) as [d|e] eqn:E; [reflexivity|].
  apply compute_due_raise in E. subst. reflexivity.
Qed.

Lemma row_to_record_eq (clk : clock) (persist : bool) (r : row) (s : db) :
  _row_to_record clk persist r s =
  if in_range r then (Ret (view r), heal_one clk persist r s)
  else (Raise OverflowError, s).
Proof.
  unfold _row_to_record. run_monad. rewrite ensure_due_view.
  destruct (in_range r); [|reflexivity].
  unfold heal_one, needs_heal, _write_due, write_due_rows. simpl.
  match goal with |- context [if ?c then _ else _] => destruct c end; reflexivity.
Qed.

Lemma for_each_rows (clk : clock) (persist : bool) (l : list row) (s : db) :
  for_each (_row_to_record clk persist) l s =
  (if forallb in_range l then Ret (map view l) else Raise OverflowError,
   heal_all clk persist (ok_prefix l) s).
Proof.
  revert s. induction l as [|r l IH]; intros s; [reflexivity|].
  simpl. unfold bind at 1. rewrite row_to_record_eq.
  destruct (in_range r); [|reflexivity].
  simpl. unfold bind at 1. rewrite IH.
  destruct (forallb in_range l); reflexivity.
Qed.

Lemma ok_prefix_all (l : list row) : forallb in_range l = true -> ok_prefix l = l.
Proof.
  induction l as [|r l IH]; simpl; [reflexivity|].
  destruct (in_range r); simpl; [|discriminate].
  intros H. rewrite IH; auto.
Qed.

Lemma insert_by_perm {A} (le : A -> A -> bool) (x : A) (l : list A) :
  Permutation (insert_by le x l) (x :: l).
Proof.
  induction l as [|y l IH]; simpl; [reflexivity|].
  destruct (le x y); [reflexivity|].
  rewrite IH. apply perm_swap.
Qed.

Lemma sort_by_perm {A} (le : A -> A -> bool) (l : list A) :
  Permutation (sort_by le l) l.
Proof.
  induction l as [|x l IH]; simpl; [reflexivity|].
  rewrite insert_by_perm. constructor. exact IH.
Qed.

Lemma in_order_by_td (r : row) (l : list row) : In r (order_by_td l) <-> In r l.
Proof.
  split; apply Permutation_in; [|symmetry]; apply sort_by_perm.
Qed.

Lemma in_limit {A} (n : Z) (x : A) (l : list A) : In x (limit n l) -> In x l.
Proof.
  unfold limit. destruct (n <? 0); [auto|].
  intros H. rewrite <- (take_drop (Z.to_nat n) l). apply in_or_app. auto.
Qed.

Lemma fetched_stored (q : read) (s : db) (r : row) :
  In r (fetched q s) -> In r (rows s).
Proof.
  destruct q; simpl; unfold first_td, matching, option_list.
  - destruct (List.find _ _) eqn:E; simpl; [|tauto].
    intros [<-|[]]. apply find_some in E. tauto.
  - rewrite filter_In. tauto.
  - destruct (List.find _ _) eqn:E; simpl; [|tauto].
    intros [<-|[]]. apply find_some in E. tauto.
  - intros H. apply in_limit in H. rewrite filter_In in H.
    apply in_order_by_td. tauto.
  - apply in_order_by_td.
Qed.

(** Every read is the post-processing of the rows it fetched. *)
Lemma run_read_eq (clk : clock) (q : read) (s : db) :
  run_read clk q s =
  (if forallb in_range (fetched q s) then Ret (map view (fetched q s))
   else Raise OverflowError,
   heal_all clk (persists q) (ok_prefix (fetched q s)) s).
Proof.
  destruct q; simpl.
  - unfold find_by_td, first_td, bind at 1.
    destruct (List.find _ _) as [r|]; simpl; [|reflexivity].
    unfold bind. rewrite row_to_record_eq.
    destruct (in_range r); reflexivity.
  - unfold find_all_by_td, matching. apply for_each_rows.
  - unfold find_by_psur, bind at 1.
    destruct (List.find _ _) as [r|]; simpl; [|reflexivity].
    unfold bind. rewrite row_to_record_eq.
    destruct (in_range r); reflexivity.
  - unfold find_by_query. apply for_each_rows.
  - unfold get_all. apply for_each_rows.
Qed.

Lemma isoformat_nonempty (d : date) : Date.isoformat d <> "".
Proof.
  unfold Date.isoformat.
  destruct (Py.zfill 4 (year d)); simpl; discriminate.
Qed.

Lemma in_range_parse (r : row) :
  in_range r = true <->
  (forall e, _parse_date (end_period r) = Some e ->
             exists d, Date.add_days e DUE_OFFSET_DAYS = Some d).
Proof.
  unfold in_range, _compute_due.
  destruct (_parse_date (end_period r)) as [e|].
  - destruct (Date.add_days e DUE_OFFSET_DAYS) as [d|] eqn:E; split; intros H;
      try reflexivity; try discriminate.
    + intros e' [= <-]. eauto.
    + destruct (H e eq_refl). congruence.
  - split; [discriminate|reflexivity].
Qed.



(** ** Facts about [update_record] *)

Lemma find_none_matching (td : string) (l : list row) :
  List.find (fun r => String.eqb (td_number r) td) l = None <-> matching td l = [].
Proof.
  unfold matching. induction l as [|r l IH]; simpl; [tauto|].
  destruct (String.eqb (td_number r) td); [split; discriminate|exact IH].
Qed.

Lemma find_map_td (td : string) (g : row -> row) (l : list row) :
  (forall r, td_number (g r) = td_number r) ->
  List.find (fun r => String.eqb (td_number r) td)
    (map (fun r => if String.eqb (td_number r) td then g r else r) l)
  = g <$> List.find (fun r => String.eqb (td_number r) td) l.
Proof.
  intros Hg. induction l as [|r l IH]; simpl; [reflexivity|].
  destruct (String.eqb (td_number r) td) eqn:E.
  - rewrite Hg, E. reflexivity.
  - rewrite E. exact IH.
Qed.

(** [update_record], case by case. *)
Lemma update_record_eq (clk : clock) (td : string) (updates : pydict) (s : db) :
  update_record clk td updates s =
  if bool_decide (updates = ∅) || bool_decide (allowed_of updates = ∅)
  then (Ret false, s)
  else if negb (known_columns (allowed_of updates)) then (Raise OperationalError, s)
  else
    let s1 := mkdb (update_rows clk td (allowed_of updates) (rows s)) (seq s) in
    match first_td td s with
    | None => (Ret false, s1)
    | Some r0 =>
        let r1 := updated clk (allowed_of updates) r0 in
        if in_range r1 then (Ret true, heal_one clk true r1 s1)
        else (Raise OverflowError, s1)
    end.
Proof.
  unfold update_record. fold (allowed_of updates).
  destruct (bool_decide (updates = ∅)); [reflexivity|].
  destruct (bool_decide (allowed_of updates = ∅)); [reflexivity|]. simpl.
  unfold bind at 1, execute_update. fold (known_columns (allowed_of updates)).
  destruct (known_columns (allowed_of updates)); [|reflexivity]. simpl.
  fold (update_rows clk td (allowed_of updates) (rows s)).
  unfold first_td.
  destruct (List.find _ (rows s)) as [r0|] eqn:E.
  - assert (Hlen : (Z.of_nat (length (matching td (rows s))) =? 0) = false).
    { apply Z.eqb_neq. intros H.
      assert (matching td (rows s) = []) as H0
        by (destruct (matching td (rows s)); [reflexivity|simpl in H; lia]).
      apply find_none_matching in H0. congruence. }
    rewrite Hlen. unfold _refresh_due, bind, find_by_td. simpl.
    unfold update_rows at 1. rewrite find_map_td by reflexivity. rewrite E. simpl.
    unfold bind. rewrite row_to_record_eq.
    destruct (in_range (updated clk (allowed_of updates) r0)); [|reflexivity].
    unfold ret. f_equal. f_equal.
    apply Z.ltb_lt. apply Z.eqb_neq in Hlen. lia.
  - apply find_none_matching in E. rewrite E. reflexivity.
Qed.


Lemma first_td_none (td : string) (s : db) :
  first_td td s = None -> forall r, In r (rows s) -> td_number r <> td.
Proof.
  unfold first_td. intros H r Hr Heq.
  apply (find_none _ _ H) in Hr. apply String.eqb_neq in Hr. auto.
Qed.

Lemma update_rows_none (clk : clock) (td : string) (allowed : pydict) (l : list row) :
  (forall r, In r l -> td_number r <> td) -> update_rows clk td allowed l = l.
Proof.
  unfold update_rows. induction l as [|r l IH]; simpl; intros H; [reflexivity|].
  rewrite IH by auto.
  destruct (String.eqb_spec (td_number r) td) as [E|E]; [|reflexivity].
  exfalso. apply (H r); auto.
Qed.




Lemma db_eta (s : db) : mkdb (rows s) (seq s) = s.
Proof. destruct s; reflexivity. Qed.


(** ** Facts about the life of a row *)

Lemma keep_refl (r : row) : keep r r.
Proof. unfold keep. repeat split; lia. Qed.

Lemma keep_trans (a b c : row) : keep a b -> keep b c -> keep a c.
Proof. unfold keep. intros (?&?&?) (?&?&?). repeat split; try congruence; lia. Qed.

Lemma kept_refl (s : db) : kept s s.
Proof.
  split; [reflexivity|].
  induction (rows s); constructor; auto using keep_refl.
Qed.

Lemma kept_trans (a b c : db) : kept a b -> kept b c -> kept a c.
Proof.
  intros [Hs1 H1] [Hs2 H2]. split; [congruence|].
  revert H2. generalize (rows c). induction H1; intros l2 H2; inversion H2; subst;
    constructor; eauto using keep_trans.
Qed.

Lemma keep_map (g : row -> row) (l : list row) :
  (forall r, keep r (g r)) -> Forall2 keep l (map g l).
Proof. intros Hg. induction l; simpl; constructor; auto. Qed.

Lemma keep_healed (clk : clock) (due : string) (r : row) : keep r (healed clk due r).
Proof. unfold keep. simpl. repeat split; lia. Qed.

Lemma keep_updated (clk : clock) (allowed : pydict) (r : row) :
  keep r (updated clk allowed r).
Proof. unfold keep. simpl. repeat split; lia. Qed.

Lemma heal_one_kept (clk : clock) (p : bool) (r : row) (s : db) :
  kept s (heal_one clk p r s).
Proof.
  unfold heal_one. destruct (needs_heal p r); [|apply kept_refl].
  split; [reflexivity|]. simpl. unfold write_due_rows. apply keep_map.
  intros x. destruct (String.eqb _ _); auto using keep_healed, keep_refl.
Qed.

Lemma heal_all_kept (clk : clock) (p : bool) (l : list row) (s : db) :
  kept s (heal_all clk p l s).
Proof.
  unfold heal_all. revert s. induction l as [|r l IH]; intros s; simpl.
  - apply kept_refl.
  - eapply kept_trans; [apply heal_one_kept|apply IH].
Qed.

Lemma run_read_kept (clk : clock) (q : read) (s : db) : kept s (run_read clk q s).2.
Proof. rewrite run_read_eq. simpl. apply heal_all_kept. Qed.

Lemma filter_records_state (clk : clock) (f : filters) (s : db) :
  (filter_records clk f s).2 = (get_all clk true s).2.
Proof.
  unfold filter_records, bind.
  destruct (get_all clk true s) as [[recs|e] s1]; [|reflexivity].
  destruct (f_within_days f) as [n|]; [|reflexivity].
  destruct (Date.add_days (today clk) n); reflexivity.
Qed.

Lemma filter_records_kept (clk : clock) (f : filters) (s : db) :
  kept s (filter_records clk f s).2.
Proof.
  rewrite filter_records_state.
  change (get_all clk true s) with (run_read clk (Get_all true) s).
  apply run_read_kept.
Qed.

Lemma update_record_kept (clk : clock) (td : string) (updates : pydict) (s : db) :
  kept s (update_record clk td updates s).2.
Proof.
  rewrite update_record_eq.
  assert (H1 : kept s (mkdb (update_rows clk td (allowed_of updates) (rows s)) (seq s))).
  { split; [reflexivity|]. simpl. unfold update_rows. apply keep_map.
    intros x. destruct (String.eqb _ _); auto using keep_updated, keep_refl. }
  destruct (_ || _); [apply kept_refl|].
  destruct (negb _); [apply kept_refl|]. simpl.
  destruct (first_td td s) as [r0|]; [|exact H1].
  destruct (in_range _); simpl; [|exact H1].
  eapply kept_trans; [exact H1|apply heal_one_kept].
Qed.

Lemma find_by_td_pure (clk : clock) (td : string) (s : db) :
  (find_by_td clk false td s).2 = s.
Proof.
  unfold find_by_td. destruct (List.find _ _) as [r|]; [|reflexivity].
  unfold bind. rewrite row_to_record_eq.
  destruct (in_range r); reflexivity.
Qed.

Lemma add_comment_kept (clk : clock) (td comment : string) (s : db) :
  kept s (add_comment clk td comment s).2.
Proof.
  unfold add_comment, bind.
  pose proof (find_by_td_pure clk td s) as H.
  destruct (find_by_td clk false td s) as [[[r|]|e] s1]; simpl in H; subst s1;
    simpl; try apply kept_refl.
  apply update_record_kept.
Qed.

Lemma count_updates_kept {A} (upd : A -> St db bool) (l : list A) (n : Z) (s : db) :
  (forall a s, kept s (upd a s).2) -> kept s (count_updates upd l n s).2.
Proof.
  intros Hupd. revert n s. induction l as [|a l IH]; intros n s; simpl.
  - apply kept_refl.
  - unfold bind. pose proof (Hupd a s) as H.
    destruct (upd a s) as [[ok|e] s1]; simpl in H; [|exact H].
    eapply kept_trans; [exact H|apply IH].
Qed.

Lemma bulk_update_status_kept (clk : clock) (f : filters) (st : string) (s : db) :
  kept s (bulk_update_status clk f st s).2.
Proof.
  unfold bulk_update_status, bind.
  pose proof (filter_records_kept clk f s) as H.
  destruct (filter_records clk f s) as [[recs|e] s1]; simpl in H; [|exact H].
  eapply kept_trans; [exact H|].
  apply count_updates_kept. intros a s2. apply update_record_kept.
Qed.

Lemma kept_in (s s' : db) (r' : row) :
  kept s s' -> In r' (rows s') -> exists r, In r (rows s) /\ keep r r'.
Proof.
  intros [_ H]. induction H as [|a b l l' Hab Hl IH]; simpl; [tauto|].
  intros [<-|Hin]; [eauto|].
  destruct (IH Hin) as (r & Hr & Hk). eauto.
Qed.

Lemma kept_ids (s s' : db) : kept s s' -> map row_id (rows s') = map row_id (rows s).
Proof.
  intros [_ H]. induction H as [|a b l l' Hab Hl IH]; simpl; [reflexivity|].
  destruct Hab as (-> & _). f_equal. exact IH.
Qed.

Lemma kept_wf (s s' : db) : wf s -> kept s s' -> wf s'.
Proof.
  intros [Hnd Hle] Hk. split.
  - rewrite (kept_ids _ _ Hk). exact Hnd.
  - rewrite Forall_forall in *. intros r' Hr'.
    destruct (kept_in _ _ _ Hk ((proj1 (list_elem_of_In _ _)) Hr')) as (r & Hr & Hid & _).
    destruct Hk as [-> _]. rewrite Hid. apply Hle. apply list_elem_of_In. exact Hr.
Qed.


(** ** Facts about [add_record] and [delete_record] *)

Ltac dict_simpl :=
  unfold dict_get;
  repeat (rewrite lookup_insert_eq || rewrite lookup_insert_ne by discriminate);
  simpl.

Lemma add_record_eq (clk : clock) (record : pydict) (s : db) :
  add_record clk record s =
  match _compute_due (dict_get record "end_period") with
  | Raise e => (Raise e, s)
  | Ret due =>
      (Ret (assigned_td record s),
       mkdb (rows s ++ [new_row clk record (assigned_td record s) due s]) (seq s + 1))
  end.
Proof.
  unfold add_record, assigned_td.
  destruct (Py.truthy (dict_get record "td_number")) eqn:Et.
  - destruct (_compute_due (dict_get record "end_period")) as [due|e]; [|reflexivity].
    unfold inserted, new_row. dict_simpl. reflexivity.
  - replace (dict_get (<["td_number":=Some (next_td s)]> record) "end_period")
      with (dict_get record "end_period") by (dict_simpl; reflexivity).
    destruct (_compute_due (dict_get record "end_period")) as [due|e]; [|reflexivity].
    unfold inserted, new_row. dict_simpl. reflexivity.
Qed.


Lemma add_record_wf (clk : clock) (record : pydict) (s : db) :
  wf s -> wf (add_record clk record s).2.
Proof.
  rewrite add_record_eq. intros [Hnd Hle].
  destruct (_compute_due _) as [due|e]; simpl; [|split; assumption].
  split; simpl.
  - rewrite map_app. simpl. apply NoDup_app. split; [exact Hnd|].
    split; [|apply NoDup_singleton].
    intros x Hx [= ->]%list_elem_of_singleton.
    apply list_elem_of_fmap in Hx. destruct Hx as (r & Hid & Hr).
    rewrite Forall_forall in Hle. specialize (Hle r Hr). lia.
  - apply Forall_app. split.
    + eapply Forall_impl; [exact Hle|]. simpl. intros; lia.
    + constructor; [simpl; lia|constructor].
Qed.


Lemma NoDup_map_filter {A B} (f : A -> B) (p : A -> bool) (l : list A) :
  NoDup (map f l) -> NoDup (map f (List.filter p l)).
Proof.
  induction l as [|a l IH]; simpl; [auto|].
  intros H. apply NoDup_cons in H. destruct H as [Hn Hd].
  destruct (p a); simpl; [|auto].
  apply NoDup_cons. split; [|auto].
  intros Hin. apply Hn.
  apply list_elem_of_fmap in Hin. destruct Hin as (x & -> & Hx).
  apply list_elem_of_fmap. exists x. split; [reflexivity|].
  apply list_elem_of_In. apply list_elem_of_In in Hx. apply filter_In in Hx. tauto.
Qed.

Lemma delete_record_wf (td : string) (s : db) : wf s -> wf (delete_record td s).2.
Proof.
  unfold delete_record. intros [Hnd Hle]. split; simpl.
  - apply NoDup_map_filter. exact Hnd.
  - rewrite Forall_forall in *. intros r Hr. apply Hle.
    apply list_elem_of_In. apply list_elem_of_In in Hr. apply filter_In in Hr. tauto.
Qed.

(** ** Facts about histories of calls *)



Lemma after_wf (clk : clock) (c : call) (s : db) : wf s -> wf (after clk c s).
Proof.
  intros H. destruct c; simpl.
  - eapply kept_wf; [exact H|apply run_read_kept].
  - eapply kept_wf; [exact H|apply filter_records_kept].
  - eapply kept_wf; [exact H|apply update_record_kept].
  - apply add_record_wf, H.
  - apply delete_record_wf, H.
  - eapply kept_wf; [exact H|apply add_comment_kept].
  - eapply kept_wf; [exact H|apply bulk_update_status_kept].
Qed.


Lemma after_all_wf (cs : list (clock * call)) (s : db) : wf s -> wf (after_all cs s).
Proof.
  unfold after_all. revert s. induction cs as [|[clk c] cs IH]; intros s H; simpl.
  - exact H.
  - apply IH, after_wf, H.
Qed.



(** ** Facts about a successful update *)

Lemma Forall2_map_self {A} (P : A -> A -> Prop) (g : A -> A) (l : list A) :
  (forall a, P a (g a)) -> Forall2 P l (map g l).
Proof. intros Hg. induction l; simpl; constructor; auto. Qed.



(** ** Facts about the derived due date *)



(** ** Facts about the self-healing write *)



(** ** Facts about [add_comment] *)










(** ** Facts about duplicate identifiers *)

Lemma others_all (td : string) (l : list row) :
  matching td l = [] ->
  List.filter (fun r => negb (String.eqb (td_number r) td)) l = l.
Proof.
  unfold matching. induction l as [|r l IH]; simpl; [reflexivity|].
  destruct (String.eqb (td_number r) td); simpl; [discriminate|].
  intros H. rewrite IH; auto.
Qed.

Lemma new_row_read_back (clk : clock) (record : pydict) (td : string)
    (due : option date) (s : db) :
  _compute_due (dict_get record "end_period") = Ret due ->
  in_range (new_row clk record td due s) = true
  /\ view (new_row clk record td due s) = new_row clk record td due s
  /\ needs_heal true (new_row clk record td due s) = false.
Proof.
  intros E. unfold in_range, view, needs_heal, shown_due. simpl. rewrite E.
  repeat split. rewrite bool_decide_eq_true_2 by reflexivity.
  rewrite andb_false_r. reflexivity.
Qed.

Lemma assigned_td_explicit (record : pydict) (X : string) (s : db) :
  X <> "" -> dict_get record "td_number" = Some X -> assigned_td record s = X.
Proof.
  intros Hne H. unfold assigned_td. rewrite H.
  destruct X; [contradiction|reflexivity].
Qed.

(** C5. Two records created under the same identifier are both stored
    (there is no uniqueness check); when no row had that identifier
    before, [find_all_by_td] returns exactly the two new rows, the
    first-created first, without writing; [delete_record] removes both;
    and in any store [delete_record] removes every row with the
    identifier, keeps the others, and returns true exactly when some row
    had it. *)
Theorem duplicate_identifiers_are_tolerated
    (clk1 clk2 clk3 : clock) (X : string) (rec1 rec2 : pydict)
    (due1 due2 : option date) (s : db) :
  X <> "" ->
  dict_get rec1 "td_number" = Some X ->
  dict_get rec2 "td_number" = Some X ->
  _compute_due (dict_get rec1 "end_period") = Ret due1 ->
  _compute_due (dict_get rec2 "end_period") = Ret due2 ->
  first_td X s = None ->
  let row1 := new_row clk1 rec1 X due1 s in
  let s1 := mkdb (rows s ++ [row1]) (seq s + 1) in
  let row2 := new_row clk2 rec2 X due2 s1 in
  let s2 := mkdb (rows s ++ [row1; row2]) (seq s + 2) in
  add_record clk1 rec1 s = (Ret X, s1)
  /\ add_record clk2 rec2 s1 = (Ret X, s2)
  /\ row_id row1 < row_id row2
  /\ find_all_by_td clk3 true X s2 = (Ret [row1; row2], s2)
  /\ delete_record X s2 = (Ret true, mkdb (rows s) (seq s + 2))
  /\ (forall td sx,
        exists b,
          delete_record td sx =
          (Ret b,
           mkdb (List.filter (fun r => negb (String.eqb (td_number r) td)) (rows sx))
                (seq sx))
          /\ (b = true <-> exists r, In r (rows sx) /\ td_number r = td)
          /\ forall r, In r (List.filter (fun r => negb (String.eqb (td_number r) td))
                               (rows sx)) <->
                        In r (rows sx) /\ td_number r <> td).
Proof.
  intros Hne H1 H2 E1 E2 Hnone row1 s1 row2 s2.
  assert (Hm : matching X (rows s) = []) by (apply find_none_matching; exact Hnone).
  split; [|split; [|split; [|split; [|split]]]].
  - rewrite add_record_eq, E1, (assigned_td_explicit _ _ _ Hne H1). reflexivity.
  - rewrite add_record_eq, E2, (assigned_td_explicit _ _ _ Hne H2).
    unfold s1, s2, row2. simpl. rewrite <- app_assoc. simpl.
    replace (seq s + 1 + 1) with (seq s + 2) by lia. reflexivity.
  - simpl. lia.
  - change (find_all_by_td clk3 true X s2)
      with (run_read clk3 (Find_all_by_td true X) s2).
    rewrite run_read_eq. simpl.
    assert (Hf : matching X (rows s ++ [row1; row2]) = [row1; row2]).
    { unfold matching in *. rewrite List.filter_app, Hm. simpl.
      rewrite String.eqb_refl. reflexivity. }
    rewrite Hf. simpl.
    destruct (new_row_read_back clk1 rec1 X due1 s E1) as (Ha1 & Hb1 & Hc1).
    destruct (new_row_read_back clk2 rec2 X due2 s1 E2) as (Ha2 & Hb2 & Hc2).
    fold row1 in Ha1, Hb1, Hc1. fold row2 in Ha2, Hb2, Hc2.
    rewrite Ha1, Ha2, Hb1, Hb2. simpl.
    unfold heal_all, heal_one. simpl. rewrite Hc1, Hc2. reflexivity.
  - unfold delete_record. simpl. f_equal.
    + f_equal. unfold matching in *. rewrite List.filter_app, Hm. simpl.
      rewrite String.eqb_refl. reflexivity.
    + f_equal. rewrite List.filter_app. rewrite others_all by exact Hm. simpl.
      rewrite String.eqb_refl. simpl. apply app_nil_r.
  - intros td sx. eexists. split; [reflexivity|]. split.
    + rewrite Z.ltb_lt. unfold matching. split.
      * intros H. destruct (List.filter _ (rows sx)) as [|r l] eqn:Ef;
          [simpl in H; lia|].
        exists r. assert (In r (r :: l)) as Hin by (left; reflexivity).
        rewrite <- Ef in Hin. apply filter_In in Hin.
        destruct Hin as [Hin Heq]. apply String.eqb_eq in Heq. auto.
      * intros (r & Hin & Heq).
        assert (In r (List.filter (fun r => String.eqb (td_number r) td) (rows sx))) as H.
        { apply filter_In. split; [exact Hin|]. apply String.eqb_eq. exact Heq. }
        destruct (List.filter _ (rows sx)); [destruct H|simpl; lia].
    + intros r. rewrite filter_In, negb_true_iff, String.eqb_neq. tauto.
Qed.

(** ** Facts about orders and sorting *)

Lemma string_leb_trans (a b c : string) :
  String.leb a b = true -> String.leb b c = true -> String.leb a c = true.
Proof.
  unfold String.leb. revert b c.
  induction a as [|x a IH]; intros [|y b] [|z c]; simpl; try congruence.
  unfold Ascii.compare.
  destruct (N.compare_spec (N_of_ascii x) (N_of_ascii y)) as [Exy|Exy|Exy];
    destruct (N.compare_spec (N_of_ascii y) (N_of_ascii z)) as [Eyz|Eyz|Eyz];
    destruct (N.compare_spec (N_of_ascii x) (N_of_ascii z)) as [Exz|Exz|Exz];
    try congruence; try lia.
  apply IH.
Qed.

Lemma date_ltb_trans (a b c : date) :
  Date.ltb a b = true -> Date.ltb b c = true -> Date.ltb a c = true.
Proof. unfold Date.ltb. destruct a, b, c. simpl. lia. Qed.

Lemma date_ltb_irrefl (a : date) : Date.ltb a a = false.
Proof. unfold Date.ltb. destruct a. simpl. lia. Qed.

Lemma date_eqb_eq (a b : date) : Date.eqb a b = true <-> a = b.
Proof.
  unfold Date.eqb. destruct a, b. simpl. split.
  - intros H. f_equal; lia.
  - intros [= -> -> ->]. lia.
Qed.

Lemma date_total (a b : date) :
  Date.ltb a b = true \/ a = b \/ Date.ltb b a = true.
Proof.
  destruct (Date.eqb a b) eqn:E; [right; left; apply date_eqb_eq; exact E|].
  unfold Date.ltb, Date.eqb in *. destruct a, b. simpl in *. lia.
Qed.

Lemma key_leb_spec (a b : row) :
  key_leb (sort_key a) (sort_key b) = true <-> before_or_tied a b.
Proof.
  unfold key_leb, before_or_tied, sort_key, due_rank. simpl.
  rewrite orb_true_iff, andb_true_iff, date_eqb_eq. tauto.
Qed.

Lemma before_or_tied_total (a b : row) : before_or_tied a b \/ before_or_tied b a.
Proof.
  unfold before_or_tied.
  destruct (date_total (due_rank a) (due_rank b)) as [H|[H|H]]; auto.
  destruct (String.leb_total (td_number a) (td_number b)); auto.
Qed.

Lemma before_or_tied_trans (a b c : row) :
  before_or_tied a b -> before_or_tied b c -> before_or_tied a c.
Proof.
  unfold before_or_tied. intros [H1|[H1 L1]] [H2|[H2 L2]].
  - left. eauto using date_ltb_trans.
  - left. rewrite <- H2. exact H1.
  - left. rewrite H1. exact H2.
  - right. split; [congruence|]. eauto using string_leb_trans.
Qed.

Lemma insert_by_hd {A} (R : A -> A -> Prop) (le : A -> A -> bool)
    (y x : A) (l : list A) :
  R y x -> HdRel R y l -> HdRel R y (insert_by le x l).
Proof.
  intros Hyx Hl. destruct l as [|z l]; simpl; [constructor; exact Hyx|].
  destruct (le x z); constructor; [exact Hyx|].
  inversion Hl; assumption.
Qed.

Lemma insert_by_sorted {A} (R : A -> A -> Prop) (le : A -> A -> bool)
    (x : A) (l : list A) :
  (forall a b, le a b = true -> R a b) ->
  (forall a b, le a b = false -> R b a) ->
  Sorted R l -> Sorted R (insert_by le x l).
Proof.
  intros Ht Hf. induction l as [|y l IH]; simpl; intros Hs.
  - repeat constructor.
  - inversion Hs as [|? ? Hs' Hhd]; subst.
    destruct (le x y) eqn:E.
    + constructor; [exact Hs|]. constructor. apply Ht. exact E.
    + constructor; [apply IH; exact Hs'|].
      apply insert_by_hd; [apply Hf; exact E|exact Hhd].
Qed.

Lemma sort_by_sorted {A} (R : A -> A -> Prop) (le : A -> A -> bool) (l : list A) :
  (forall a b, le a b = true -> R a b) ->
  (forall a b, le a b = false -> R b a) ->
  Sorted R (sort_by le l).
Proof.
  intros Ht Hf. induction l as [|x l IH]; simpl; [constructor|].
  apply insert_by_sorted; assumption.
Qed.

Lemma sort_records_sorted (l : list row) :
  StronglySorted before_or_tied (sort_records l).
Proof.
  apply Sorted_StronglySorted.
  - intros a b c. apply before_or_tied_trans.
  - apply sort_by_sorted.
    + intros a b H. apply key_leb_spec. exact H.
    + intros a b H. destruct (before_or_tied_total a b) as [H1|H1]; [|exact H1].
      apply key_leb_spec in H1. congruence.
Qed.

(** ** Facts about [filter_records] *)

(** What a call that returns has done: the window end exists, every
    stored row was in range, and the result is the sorted selection of
    what [get_all] shows. *)
Lemma filter_records_ret (clk : clock) (f : filters) (s s' : db) (out : list row) :
  filter_records clk f s = (Ret out, s') ->
  exists w,
    window_of f (today clk) w
    /\ forallb in_range (order_by_td (rows s)) = true
    /\ out = sort_records
               (List.filter (keeps f (today clk) w) (map view (order_by_td (rows s)))).
Proof.
  unfold filter_records, bind, window_of.
  change (get_all clk true s) with (run_read clk (Get_all true) s).
  rewrite run_read_eq. simpl.
  destruct (forallb in_range (order_by_td (rows s))); [|discriminate].
  destruct (f_within_days f) as [n|].
  - destruct (Date.add_days (today clk) n) as [d|]; [|discriminate].
    intros [= <- <-]. exists (Some d). eauto.
  - intros [= <- <-]. exists None. auto.
Qed.

(** The call returns whenever every stored row is in range and the
    window end is a date. *)
Lemma filter_records_returns (clk : clock) (f : filters) (s : db) :
  (forall r, In r (rows s) -> in_range r = true) ->
  (forall n, f_within_days f = Some n ->
             exists d, Date.add_days (today clk) n = Some d) ->
  exists out s', filter_records clk f s = (Ret out, s').
Proof.
  intros Hr Hw. unfold filter_records, bind.
  change (get_all clk true s) with (run_read clk (Get_all true) s).
  rewrite run_read_eq. simpl.
  assert (forallb in_range (order_by_td (rows s)) = true) as ->.
  { apply forallb_forall. intros r Hin. apply Hr. apply in_order_by_td. exact Hin. }
  destruct (f_within_days f) as [n|]; [|unfold ret; eauto].
  destruct (Hw n eq_refl) as [d ->]. unfold ret. eauto.
Qed.

Lemma date_leb_ltb (a b : date) : Date.leb a b = negb (Date.ltb b a).
Proof. reflexivity. Qed.

Lemma text_mismatch_spec (crit field : option string) :
  text_mismatch crit field = false <-> text_matches crit field.
Proof.
  unfold text_mismatch, text_matches.
  destruct crit as [[|c crit]|]; simpl; try tauto.
  rewrite negb_false_iff. tauto.
Qed.

(** The loop body keeps exactly the records that satisfy the criteria. *)
Lemma keeps_selected (f : filters) (today : date) (w : option date) (r : row) :
  window_of f today w ->
  keeps f today w r = true <-> selected f today r.
Proof.
  unfold window_of, keeps, selected. intros Hw.
  rewrite <- !text_mismatch_spec.
  destruct (text_mismatch (f_writer f) (writer r)); [intuition discriminate|].
  destruct (text_mismatch (f_classification f) (class_ r)); [intuition discriminate|].
  destruct (text_mismatch (f_status f) (status r)); [intuition discriminate|].
  assert (Hov : (f_overdue_only f
                 && match due_of r with
                    | Some d => Date.leb today d
                    | None => true
                    end) = false
                <-> (f_overdue_only f = true ->
                     exists d, due_of r = Some d /\ Date.ltb d today = true)).
  { destruct (f_overdue_only f); simpl.
    - destruct (due_of r) as [d|]; rewrite ?date_leb_ltb, ?negb_false_iff.
      + split; [eauto|]. intros H. destruct (H eq_refl) as (d' & [= <-] & H'). exact H'.
      + split; [discriminate|]. intros H. destruct (H eq_refl) as (d' & H' & _).
        discriminate.
    - split; [discriminate|reflexivity]. }
  destruct (f_overdue_only f && _).
  { split; [discriminate|]. intros (_ & _ & _ & H & _).
    apply Hov in H. discriminate. }
  assert (Ho : f_overdue_only f = true ->
               exists d, due_of r = Some d /\ Date.ltb d today = true)
    by (apply Hov; reflexivity).
  destruct (f_within_days f) as [n|].
  - destruct Hw as (d0 & Hadd & ->).
    destruct (due_of r) as [d|].
    + rewrite negb_true_iff, orb_false_iff. split.
      * intros [H1 H2]. repeat split; auto.
        intros n' [= <-]. exists d, d0. rewrite !date_leb_ltb, H1, H2. auto.
      * intros (_ & _ & _ & _ & H). destruct (H n eq_refl) as (d' & w' & [= <-] & Hw' & H1 & H2).
        rewrite Hadd in Hw'. injection Hw' as <-.
        rewrite date_leb_ltb, negb_true_iff in H1, H2. auto.
    + split; [discriminate|]. intros (_ & _ & _ & _ & H).
      destruct (H n eq_refl) as (d' & w' & H' & _). discriminate.
  - subst w. split; [|reflexivity]. intros _. repeat split; auto.
    intros n [=].
Qed.

Lemma strongly_sorted_pair {A} (R : A -> A -> Prop) (l1 l2 l3 : list A) (a b : A) :
  StronglySorted R (l1 ++ a :: l2 ++ b :: l3) -> R a b.
Proof.
  induction l1 as [|x l1 IH]; simpl; intros H.
  - apply StronglySorted_inv in H. destruct H as [_ H].
    rewrite Forall_forall in H. apply H.
    apply list_elem_of_In. apply in_or_app. right. left. reflexivity.
  - apply StronglySorted_inv in H. destruct H as [H _]. auto.
Qed.

(** C6 (amended). [filter_records] returns whenever every stored row
    is in range and the end of the window is a date, and the sequence it
    returns is sorted by due date, where a record whose due date is
    absent or does not parse is ranked as if due on date.max
    (9999-12-31), and ties in rank are broken by identifier ascending.
    So such a record comes after every record due before 9999-12-31;
    among records due on that very day it takes the place its identifier
    gives it. *)
Theorem filter_records_output_is_sorted (clk : clock) (f : filters) (s : db) :
  ((forall r, In r (rows s) -> in_range r = true) ->
   (forall n, f_within_days f = Some n ->
              exists d, Date.add_days (today clk) n = Some d) ->
   exists out s', filter_records clk f s = (Ret out, s'))
  /\ (forall out s',
        filter_records clk f s = (Ret out, s') ->
        StronglySorted before_or_tied out
        /\ (forall l1 a l2 b l3 d,
              out = (l1 ++ a :: l2 ++ b :: l3)%list ->
              due_of a = None -> due_of b = Some d ->
              Date.ltb d Date.max = false)).
Proof.
  split; [apply filter_records_returns|].
  intros out s' Hrun. destruct (filter_records_ret _ _ _ _ _ Hrun) as (w & _ & _ & ->).
  split; [apply sort_records_sorted|].
  intros l1 a l2 b l3 d Hout Ha Hb.
  pose proof (sort_records_sorted
                (List.filter (keeps f (today clk) w) (map view (order_by_td (rows s)))))
    as Hs.
  rewrite Hout in Hs. apply strongly_sorted_pair in Hs.
  unfold before_or_tied, due_rank in Hs. rewrite Ha, Hb in Hs. simpl in Hs.
  destruct Hs as [Hlt|[<- _]]; [|apply date_ltb_irrefl].
  destruct (Date.ltb d Date.max) eqn:E; [|reflexivity].
  pose proof (date_ltb_trans _ _ _ Hlt E) as Hbad.
  rewrite date_ltb_irrefl in Hbad. discriminate.
Qed.

(** C7. [filter_records] returns whenever every stored row is in range
    and the end of the window is a date, and the records it returns are
    exactly the records shown for the stored rows that satisfy every
    supplied criterion: each textual criterion (writer, classification,
    status) as a substring, letter case aside, an absent or empty one
    asking nothing; overdue_only as due < today; within_days = N as
    today <= due <= today + N; so a record without a due date is left
    out as soon as overdue_only or within_days is in effect. *)
Theorem filter_records_selects_exactly (clk : clock) (f : filters) (s : db) :
  ((forall r, In r (rows s) -> in_range r = true) ->
   (forall n, f_within_days f = Some n ->
              exists d, Date.add_days (today clk) n = Some d) ->
   exists out s', filter_records clk f s = (Ret out, s'))
  /\ (forall out s',
        filter_records clk f s = (Ret out, s') ->
        (forall r, In r out <->
                   In r (map view (rows s)) /\ selected f (today clk) r)
        /\ (forall r, In r out ->
              f_overdue_only f = true \/ f_within_days f <> None ->
              due_of r <> None)).
Proof.
  split; [apply filter_records_returns|].
  intros out s' Hrun. destruct (filter_records_ret _ _ _ _ _ Hrun) as (w & Hw & _ & ->).
  assert (Hiff : forall r,
            In r (sort_records
                    (List.filter (keeps f (today clk) w)
                       (map view (order_by_td (rows s)))))
            <-> In r (map view (rows s)) /\ selected f (today clk) r).
  { intros r. unfold sort_records.
    split.
    - intros H. apply (Permutation_in _ (sort_by_perm _ _)) in H.
      apply filter_In in H. destruct H as [Hin Hk].
      split; [|apply (keeps_selected _ _ _ _ Hw); exact Hk].
      apply in_map_iff in Hin. destruct Hin as (x & <- & Hx).
      apply in_map. apply (proj1 (in_order_by_td _ _)). exact Hx.
    - intros [Hin Hsel].
      apply (Permutation_in _ (Permutation_sym (sort_by_perm _ _))).
      apply filter_In. split; [|apply (keeps_selected _ _ _ _ Hw); exact Hsel].
      apply in_map_iff in Hin. destruct Hin as (x & <- & Hx).
      apply in_map. apply (proj2 (in_order_by_td _ _)). exact Hx. }
  split; [exact Hiff|].
  intros r Hin Hcrit Hnone. apply Hiff in Hin.
  destruct Hin as (_ & _ & _ & _ & Ho & Hwd).
  destruct Hcrit as [Hc|Hc].
  - destruct (Ho Hc) as (d & Hd & _). congruence.
  - destruct (f_within_days f) as [n|]; [|contradiction].
    destruct (Hwd n eq_refl) as (d & w' & Hd & _). congruence.
Qed.

(** ** Facts about [bulk_update_status] *)

Lemma same_shape_refl (s : db) : same_shape s s.
Proof. unfold same_shape. induction (rows s); constructor; auto. Qed.

Lemma same_shape_trans (a b c : db) : same_shape a b -> same_shape b c -> same_shape a c.
Proof.
  unfold same_shape. generalize (rows c).
  intros l H1. revert l.
  induction H1 as [|x y l1 l2 [H1 H2] Hl IH]; intros l H; inversion H; subst; constructor.
  - destruct H4 as [H3 H4]. split; congruence.
  - auto.
Qed.

Lemma same_shape_in (s s' : db) (r' : row) :
  same_shape s s' -> In r' (rows s') ->
  exists r, In r (rows s) /\ td_number r' = td_number r /\ end_period r' = end_period r.
Proof.
  unfold same_shape. intros H. induction H as [|a b l l' [H1 H2] Hl IH]; simpl; [tauto|].
  intros [<-|Hin]; [eauto|].
  destruct (IH Hin) as (r & Hr & Hk). eauto.
Qed.



Lemma heal_one_shape (clk : clock) (p : bool) (r : row) (s : db) :
  same_shape s (heal_one clk p r s).
Proof.
  unfold heal_one. destruct (needs_heal p r); [|apply same_shape_refl].
  unfold same_shape, write_due_rows. simpl. apply Forall2_map_self.
  intros x. destruct (String.eqb _ _); auto.
Qed.

Lemma heal_all_shape (clk : clock) (p : bool) (l : list row) (s : db) :
  same_shape s (heal_all clk p l s).
Proof.
  unfold heal_all. revert s. induction l as [|r l IH]; intros s; simpl.
  - apply same_shape_refl.
  - eapply same_shape_trans; [apply heal_one_shape|apply IH].
Qed.




(** ** Counters *)

Lemma count_of_tally (k key : string) (counts : list (string * Z)) :
  count_of k (tally key counts)
  = count_of k counts + (if String.eqb key k then 1 else 0).
Proof using.
  induction counts as [|[k0 n] counts IH]; simpl.
  - rewrite (String.eqb_sym k key). destruct (String.eqb key k); lia.
  - destruct (String.eqb_spec key k0) as [->|Hne]; simpl.
    + rewrite (String.eqb_sym k0 k). destruct (String.eqb k k0); lia.
    + destruct (String.eqb_spec k k0) as [->|Hk].
      * destruct (String.eqb_spec key k0); [congruence|lia].
      * apply IH.
Qed.

Lemma total_of_tally (key : string) (counts : list (string * Z)) :
  total_of (tally key counts) = total_of counts + 1.
Proof using.
  unfold total_of. induction counts as [|[k0 n] counts IH]; simpl; [lia|].
  destruct (String.eqb key k0); simpl; lia.
Qed.

Lemma in_tally_keys (k key : string) (counts : list (string * Z)) :
  In k (map fst (tally key counts)) <-> k = key \/ In k (map fst counts).
Proof using.
  induction counts as [|[k0 n] counts IH]; simpl.
  - split; [intros [H|[]]; now left|intros [H|[]]; now left].
  - destruct (String.eqb_spec key k0) as [->|Hne]; simpl; [|rewrite IH].
    + split; [intros [H|H]|intros [H|[H|H]]]; auto.
    + split; [intros [H|[H|H]]|intros [H|[H|H]]]; auto.
Qed.

Lemma tally_keys_NoDup (key : string) (counts : list (string * Z)) :
  NoDup (map fst counts) -> NoDup (map fst (tally key counts)).
Proof using.
  induction counts as [|[k0 n] counts IH]; simpl; intros Hnd.
  - constructor; [intros H; inversion H | constructor].
  - apply NoDup_cons in Hnd as [Hnot Hnd].
    destruct (String.eqb_spec key k0) as [->|Hne]; simpl.
    + apply NoDup_cons; split; auto.
    + apply NoDup_cons; split; auto.
      rewrite list_elem_of_In, in_tally_keys. rewrite list_elem_of_In in Hnot.
      intros [H|H]; [congruence|auto].
Qed.

Lemma tally_positive (key : string) (counts : list (string * Z)) :
  Forall (fun g => 0 < g.2) counts -> Forall (fun g => 0 < g.2) (tally key counts).
Proof using.
  induction counts as [|[k0 n] counts IH]; simpl; intros Hpos.
  - repeat constructor.
  - inversion Hpos as [|? ? Hn Hrest]; subst; simpl in Hn.
    destruct (String.eqb key k0); constructor; simpl; auto; lia.
Qed.

(** In a dict, a key is bound to the count that [get] reads. *)
Lemma in_counts (k : string) (n : Z) (counts : list (string * Z)) :
  NoDup (map fst counts) -> In (k, n) counts -> count_of k counts = n.
Proof using.
  induction counts as [|[k0 n0] counts IH]; simpl; intros Hnd Hin; [destruct Hin|].
  apply NoDup_cons in Hnd as [Hnot Hnd].
  destruct Hin as [Heq|Hin].
  - inversion Heq; subst. now rewrite String.eqb_refl.
  - destruct (String.eqb_spec k k0) as [->|Hne]; [|auto].
    exfalso. apply Hnot. rewrite list_elem_of_In.
    change k0 with (k0, n).1. now apply in_map.
Qed.

Lemma counts_in (k : string) (counts : list (string * Z)) :
  count_of k counts <> 0 -> In (k, count_of k counts) counts.
Proof using.
  induction counts as [|[k0 n0] counts IH]; simpl; intros Hne; [lia|].
  destruct (String.eqb_spec k k0) as [->|Hk]; auto.
Qed.

(** The dict a counting loop leaves: its keys are distinct, its counts
    positive, each key counts the elements that carry it, and the
    counts add up to the number of elements. *)
Lemma tally_loop {A} (f : A -> string) (l : list A) (counts : list (string * Z)) :
  let out := foldl (fun counts a => tally (f a) counts) counts l in
  (NoDup (map fst counts) -> NoDup (map fst out))
  /\ (Forall (fun g => 0 < g.2) counts -> Forall (fun g => 0 < g.2) out)
  /\ (forall k, count_of k out
                = count_of k counts
                  + Z.of_nat (length (List.filter (fun a => String.eqb (f a) k) l)))
  /\ total_of out = total_of counts + Z.of_nat (length l).
Proof using.
  revert counts. induction l as [|a l IH]; intros counts; simpl.
  - repeat split; auto; intros; lia.
  - destruct (IH (tally (f a) counts)) as (Hnd & Hpos & Hcount & Htotal).
    repeat split.
    + intros H. apply Hnd, tally_keys_NoDup, H.
    + intros H. apply Hpos, tally_positive, H.
    + intros k. rewrite Hcount, count_of_tally.
      destruct (String.eqb (f a) k); simpl; lia.
    + rewrite Htotal, total_of_tally. lia.
Qed.

(** ** [count_records] *)

Lemma kept_length (s s' : db) : kept s s' -> length (rows s') = length (rows s).
Proof using. intros [_ H]. symmetry. eapply Forall2_length, H. Qed.

(** X1. [count_records] reads the number of stored rows and changes
    nothing; across any call of the store the count moves by one for an
    [add_record] that returns, drops by the number of rows under the
    identifier for a [delete_record], and is unchanged by every other
    call, whether it returns or raises. *)
Theorem count_records_follows_the_table (clk : clock) (c : call) (s : db) :
  exists n n',
    count_records s = (Ret n, s)
    /\ count_records (after clk c s) = (Ret n', after clk c s)
    /\ 0 <= n
    /\ match c with
       | Add_record record =>
           n' = n + match (add_record clk record s).1 with
                    | Ret _ => 1
                    | Raise _ => 0
                    end
       | Delete_record td => n' = n - Z.of_nat (length (matching td (rows s)))
       | _ => n' = n
       end.
Proof.
  exists (Z.of_nat (length (rows s))), (Z.of_nat (length (rows (after clk c s)))).
  split; [reflexivity|]. split; [reflexivity|]. split; [lia|].
  destruct c as [q|f|td updates|record|td|td comment|f st]; simpl.
  - now rewrite (kept_length _ _ (run_read_kept clk q s)).
  - now rewrite (kept_length _ _ (filter_records_kept clk f s)).
  - now rewrite (kept_length _ _ (update_record_kept clk td updates s)).
  - rewrite add_record_eq.
    destruct (_compute_due (dict_get record "end_period")); simpl; [|lia].
    rewrite length_app. simpl. lia.
  - unfold matching.
    pose proof (List.filter_length (fun r => String.eqb (td_number r) td) (rows s)) as H.
    assert (Hneg : List.filter (fun x => negb (String.eqb (td_number x) td)) (rows s)
                   = List.filter (fun r => negb (String.eqb (td_number r) td)) (rows s))
      by reflexivity.
    lia.
  - now rewrite (kept_length _ _ (add_comment_kept clk td comment s)).
  - now rewrite (kept_length _ _ (bulk_update_status_kept clk f st s)).
Qed.

(** ** [find_duplicate_td_numbers] *)

Lemma group_by_td_spec (l : list row) :
  NoDup (map fst (group_by_td l))
  /\ (forall td, count_of td (group_by_td l) = Z.of_nat (length (matching td l))).
Proof using.
  destruct (tally_loop td_number l []) as (Hnd & _ & Hcount & _).
  split; [apply Hnd; constructor|].
  intros td. unfold group_by_td. rewrite Hcount. simpl. reflexivity.
Qed.

Lemma in_duplicates (td : string) (l : list row) :
  In td (map fst (List.filter (fun g => 1 <? g.2) (group_by_td l)))
  <-> (2 <= length (matching td l))%nat.
Proof using.
  destruct (group_by_td_spec l) as [Hnd Hcount].
  rewrite in_map_iff. split.
  - intros ([k n] & Hk & Hin). simpl in Hk. subst k.
    apply filter_In in Hin as [Hin Hn]. simpl in Hn.
    apply in_counts in Hin; auto. rewrite Hcount in Hin. lia.
  - intros Hlen. exists (td, count_of td (group_by_td l)). split; [reflexivity|].
    apply filter_In. split.
    + apply counts_in. rewrite Hcount. lia.
    + simpl. rewrite Hcount. lia.
Qed.

Lemma NoDup_map_fst_filter {A B} (p : A * B -> bool) (l : list (A * B)) :
  NoDup (map fst l) -> NoDup (map fst (List.filter p l)).
Proof using. apply NoDup_map_filter. Qed.

Lemma find_duplicates_membership (td : string) (s : db) (out : list string) (s' : db) :
  find_duplicate_td_numbers s = (Ret out, s') ->
  In td out <-> (2 <= length (matching td (rows s)))%nat.
Proof using.
  intros H. inversion H; subst. rewrite <- in_duplicates.
  split; intros Hin.
  - eapply Permutation_in; [apply sort_by_perm|exact Hin].
  - eapply Permutation_in; [symmetry; apply sort_by_perm|exact Hin].
Qed.

(** X2. [find_duplicate_td_numbers] lists an identifier exactly when
    two or more rows carry it, lists it once, in ascending order, and
    changes nothing. *)
Theorem duplicates_are_the_identifiers_in_use_twice (s : db) :
  exists out,
    find_duplicate_td_numbers s = (Ret out, s)
    /\ (forall td, In td out <-> (2 <= length (matching td (rows s)))%nat)
    /\ NoDup out
    /\ Sorted (fun a b => String.leb a b = true) out.
Proof using.
  eexists. split; [reflexivity|]. split; [|split].
  - intros td. eapply find_duplicates_membership. reflexivity.
  - rewrite sort_by_perm. apply NoDup_map_fst_filter, group_by_td_spec.
  - apply sort_by_sorted; auto.
    intros a b Hab. destruct (String.leb_total a b); congruence.
Qed.

Lemma matching_after_delete (td td' : string) (l : list row) :
  matching td' (List.filter (fun r => negb (String.eqb (td_number r) td)) l)
  = if String.eqb td' td then [] else matching td' l.
Proof using.
  unfold matching. induction l as [|r l IH]; simpl.
  - now destruct (String.eqb td' td).
  - destruct (String.eqb_spec (td_number r) td) as [Hr|Hr]; simpl.
    + rewrite IH. destruct (String.eqb_spec td' td) as [->|Hne]; [reflexivity|].
      destruct (String.eqb_spec (td_number r) td'); [congruence|reflexivity].
    + destruct (String.eqb_spec (td_number r) td') as [Hr'|Hr']; simpl; rewrite IH.
      * destruct (String.eqb_spec td' td); [congruence|reflexivity].
      * reflexivity.
Qed.

(** X3. Deleting an identifier takes it off the list of duplicates and
    changes the standing of no other identifier; adding a record makes
    its identifier a duplicate exactly when the identifier was in use,
    and changes the standing of no other. *)
Theorem duplicates_follow_deletes_and_adds (clk : clock) (s : db) :
  (forall td, exists out out',
     find_duplicate_td_numbers s = (Ret out, s)
     /\ find_duplicate_td_numbers (delete_record td s).2
        = (Ret out', (delete_record td s).2)
     /\ forall td', In td' out' <-> In td' out /\ td' <> td)
  /\ (forall record X s1,
        add_record clk record s = (Ret X, s1) ->
        exists out out',
          find_duplicate_td_numbers s = (Ret out, s)
          /\ find_duplicate_td_numbers s1 = (Ret out', s1)
          /\ forall td', In td' out' <->
                         In td' out
                         \/ (td' = X /\ exists r, In r (rows s) /\ td_number r = X)).
Proof.
  split.
  - intros td. do 2 eexists. split; [reflexivity|]. split; [reflexivity|].
    intros td'.
    rewrite (find_duplicates_membership td' _ _ _ eq_refl).
    rewrite (find_duplicates_membership td' _ _ _ eq_refl).
    simpl. rewrite matching_after_delete.
    destruct (String.eqb_spec td' td) as [->|Hne]; simpl; [|tauto].
    split; [lia|tauto].
  - intros record X s1 Hadd. do 2 eexists.
    split; [reflexivity|]. split; [reflexivity|]. intros td'.
    rewrite (find_duplicates_membership td' _ _ _ eq_refl).
    rewrite (find_duplicates_membership td' _ _ _ eq_refl).
    rewrite add_record_eq in Hadd.
    destruct (_compute_due (dict_get record "end_period")) as [due|]; [|discriminate].
    inversion Hadd; subst; clear Hadd. simpl.
    unfold matching. rewrite List.filter_app, length_app. simpl.
    destruct (String.eqb_spec (assigned_td record s) td') as [Heq|Hne]; simpl.
    + split.
      * intros Hlen.
        destruct (List.filter (fun r => String.eqb (td_number r) td') (rows s))
          as [|r0 [|r1 rest]] eqn:Ef; simpl in Hlen; try lia.
        -- right. split; [auto|]. exists r0.
           assert (Hin : In r0 (List.filter (fun r => String.eqb (td_number r) td') (rows s)))
             by (rewrite Ef; now left).
           apply filter_In in Hin as [Hin Htd].
           apply String.eqb_eq in Htd. split; [auto|congruence].
        -- left. simpl. lia.
      * intros [Hlen|[_ (r & Hin & Htd)]]; [lia|].
        assert (Hin' : In r (List.filter (fun r => String.eqb (td_number r) td') (rows s))).
        { apply filter_In. split; [auto|]. apply String.eqb_eq. congruence. }
        destruct (List.filter (fun r => String.eqb (td_number r) td') (rows s));
          simpl in *; [tauto|lia].
    + split; [intros; left; lia|].
      intros [Hlen|[Heq _]]; [lia|congruence].
Qed.

(** ** [link_references] *)

Lemma add_comment_unknown (clk : clock) (td comment : string) (s : db) :
  first_td td s = None -> add_comment clk td comment s = (Ret false, s).
Proof.
  intros Hnone. unfold add_comment, bind, find_by_td.
  unfold first_td in Hnone. now rewrite Hnone.
Qed.


(** ** Reads and what they write back *)

Lemma find_by_td_eq (clk : clock) (p : bool) (td : string) (s : db) :
  find_by_td clk p td s =
  match first_td td s with
  | None => (Ret None, s)
  | Some r =>
      if in_range r then (Ret (Some (view r)), heal_one clk p r s)
      else (Raise OverflowError, s)
  end.
Proof.
  unfold find_by_td, first_td.
  destruct (List.find _ _) as [r|]; [|reflexivity].
  unfold bind. rewrite row_to_record_eq. now destruct (in_range r).
Qed.


Lemma heal_one_false (clk : clock) (r : row) (s : db) : heal_one clk false r s = s.
Proof. reflexivity. Qed.



Lemma shown_due_healed (clk : clock) (due : string) (r : row) :
  shown_due (healed clk due r) = shown_due r.
Proof. reflexivity. Qed.

Lemma healed_settled (clk : clock) (r : row) : settled (healed clk (shown_due r) r).
Proof.
  unfold settled, needs_heal. rewrite shown_due_healed. simpl due_date.
  rewrite bool_decide_true by reflexivity. now rewrite andb_false_r.
Qed.

Lemma heal_one_settled (clk : clock) (r : row) (s : db) :
  settled r -> heal_one clk true r s = s.
Proof. unfold settled, heal_one. now intros ->. Qed.

Lemma heal_all_settled (clk : clock) (l : list row) (s : db) :
  (forall r, In r l -> settled r) -> heal_all clk true l s = s.
Proof.
  unfold heal_all. induction l as [|r l IH]; simpl; intros Hall; [reflexivity|].
  rewrite heal_one_settled by (apply Hall; now left).
  apply IH. intros x Hx. apply Hall. now right.
Qed.

Lemma settled_due (r : row) :
  settled r -> shown_due r <> "" -> due_date r = Some (shown_due r).
Proof.
  unfold settled, needs_heal. simpl. intros H Hne.
  destruct (shown_due r) as [|c t] eqn:E; [congruence|]. simpl in H.
  now apply negb_false_iff, bool_decide_eq_true in H.
Qed.


Lemma NoDup_map_same {A B} (f : A -> B) (l : list A) (a b : A) :
  NoDup (map f l) -> In a l -> In b l -> f a = f b -> a = b.
Proof using.
  induction l as [|x l IH]; simpl; intros Hnd Ha Hb Hab; [destruct Ha|].
  apply NoDup_cons in Hnd as [Hnot Hnd]. rewrite list_elem_of_In in Hnot.
  destruct Ha as [->|Ha], Hb as [->|Hb]; auto.
  - exfalso. apply Hnot. rewrite Hab. now apply in_map.
  - exfalso. apply Hnot. rewrite <- Hab. now apply in_map.
Qed.

Lemma write_due_rows_td (clk : clock) (td due : string) (l : list row) :
  map td_number (write_due_rows clk td due l) = map td_number l.
Proof.
  unfold write_due_rows. rewrite map_map. apply map_ext.
  intros r. now destruct (String.eqb (td_number r) td).
Qed.

Lemma heal_one_td (clk : clock) (p : bool) (r : row) (s : db) :
  map td_number (rows (heal_one clk p r s)) = map td_number (rows s).
Proof.
  unfold heal_one. destruct (needs_heal p r); [|reflexivity].
  apply write_due_rows_td.
Qed.

(** One pass of healing over rows with distinct identifiers leaves
    every processed row settled. *)
Lemma heal_all_unique (clk : clock) (l : list row) : forall s : db,
  NoDup (map td_number (rows s)) ->
  NoDup (map td_number l) ->
  (forall r, In r l -> In r (rows s)) ->
  (forall r, In r (rows s) -> settled r \/ In r l) ->
  forall r, In r (rows (heal_all clk true l s)) -> settled r.
Proof.
  unfold heal_all. induction l as [|r0 l IH]; intros s Hs Hl Hsub Hall; simpl.
  - intros r Hr. destruct (Hall r Hr) as [H|[]]. exact H.
  - simpl in Hl. apply NoDup_cons in Hl as [Hnot Hl]. rewrite list_elem_of_In in Hnot.
    assert (Hr0 : In r0 (rows s)) by (apply Hsub; now left).
    apply IH; auto.
    + now rewrite heal_one_td.
    + intros r Hr. unfold heal_one. destruct (needs_heal true r0); [|apply Hsub; now right].
      simpl. unfold write_due_rows. apply in_map_iff. exists r. split.
      * destruct (String.eqb_spec (td_number r) (td_number r0)) as [Heq|]; [|reflexivity].
        exfalso. apply Hnot. rewrite <- Heq. now apply in_map.
      * apply Hsub. now right.
    + intros r Hr. unfold heal_one in Hr.
      destruct (needs_heal true r0) eqn:Hneed.
      * simpl in Hr. unfold write_due_rows in Hr.
        apply in_map_iff in Hr as (x & Hx & Hin).
        destruct (String.eqb_spec (td_number x) (td_number r0)) as [Heq|Hne].
        -- assert (x = r0) by exact (NoDup_map_same td_number (rows s) x r0 Hs Hin Hr0 Heq).
           subst x r.
           left. apply healed_settled.
        -- subst r. destruct (Hall x Hin) as [H|[->|H]]; auto. congruence.
      * destruct (Hall r Hr) as [H|[<-|H]]; auto.
Qed.

Lemma in_range_end_period (r r' : row) :
  end_period r' = end_period r -> in_range r' = in_range r.
Proof. unfold in_range. now intros ->. Qed.

Lemma get_all_eq (clk : clock) (p : bool) (s : db) :
  (forall r, In r (rows s) -> in_range r = true) ->
  get_all clk p s
  = (Ret (map view (order_by_td (rows s))), heal_all clk p (order_by_td (rows s)) s).
Proof.
  intros Hrange. unfold get_all. rewrite for_each_rows.
  assert (Hall : forallb in_range (order_by_td (rows s)) = true).
  { apply forallb_forall. intros r Hr. apply Hrange. now apply in_order_by_td. }
  now rewrite Hall, ok_prefix_all.
Qed.

(** X7. When no two rows share an identifier and every derivation is
    in range, one [get_all] settles the table: a second one writes
    nothing, no row has been added or removed, and every stored row
    whose end_period gives a due date now stores that date. *)
Theorem healing_settles_in_one_pass (clk1 clk2 : clock) (s : db) :
  NoDup (map td_number (rows s)) ->
  (forall r, In r (rows s) -> in_range r = true) ->
  exists out s1 out',
    get_all clk1 true s = (Ret out, s1)
    /\ get_all clk2 true s1 = (Ret out', s1)
    /\ map row_id (rows s1) = map row_id (rows s)
    /\ (forall r, In r (rows s1) ->
          shown_due r <> "" -> due_date r = Some (shown_due r)).
Proof.
  intros Hnd Hrange.
  set (s1 := heal_all clk1 true (order_by_td (rows s)) s).
  assert (Hsettled : forall r, In r (rows s1) -> settled r).
  { apply heal_all_unique; auto.
    - unfold order_by_td. rewrite sort_by_perm. exact Hnd.
    - intros r. apply in_order_by_td.
    - intros r Hr. right. now apply in_order_by_td. }
  assert (Hrange1 : forall r, In r (rows s1) -> in_range r = true).
  { intros r' Hr'.
    destruct (same_shape_in s s1 r' (heal_all_shape clk1 true _ s) Hr')
      as (r & Hr & _ & Hend).
    rewrite (in_range_end_period r r' Hend). auto. }
  exists (map view (order_by_td (rows s))), s1, (map view (order_by_td (rows s1))).
  split; [now apply get_all_eq|]. split; [|split].
  - rewrite get_all_eq by exact Hrange1. f_equal.
    apply heal_all_settled. intros r Hr. apply Hsettled. now apply in_order_by_td.
  - apply kept_ids, heal_all_kept.
  - intros r Hr. apply settled_due. now apply Hsettled.
Qed.

(** ** [find_missing_fields] *)

Lemma record_get_text (r : row) (field : string) :
  field <> "id" -> field <> "version" ->
  exists v, record_get r field = of_text v.
Proof using.
  intros Hid Hversion. unfold record_get.
  repeat match goal with
         | |- context [String.eqb field ?k] =>
             destruct (String.eqb_spec field k); [subst; try congruence|]
         end;
    try (eexists; reflexivity).
  - now exists (Some (td_number r)).
  - now exists None.
Qed.

Lemma missing_of_text (r : row) (fields : list string) :
  ~ In "id" fields -> ~ In "version" fields ->
  missing_of r fields = Some (blank_fields fields r).
Proof using.
  induction fields as [|f fields IH]; simpl; intros Hid Hversion; [reflexivity|].
  destruct (record_get_text r f) as [v Hv];
    [intros ->; apply Hid; now left|intros ->; apply Hversion; now left|].
  rewrite IH; [|intros H; apply Hid; now right|intros H; apply Hversion; now right].
  unfold is_blank. rewrite Hv.
  destruct v as [t|]; simpl.
  - now destruct (Py.strip t).
  - reflexivity.
Qed.

Lemma missing_of_integer (r : row) (fields : list string) (f : string) :
  In f fields -> or_empty_strip (record_get r f) = None ->
  missing_of r fields = None.
Proof using.
  induction fields as [|g fields IH]; simpl; intros Hin Hnone; [destruct Hin|].
  destruct Hin as [->|Hin].
  - now rewrite Hnone.
  - destruct (or_empty_strip (record_get r g)); [|reflexivity]. simpl.
    now rewrite IH.
Qed.

Lemma missing_rows_text (fields : list string) (records : list row) :
  ~ In "id" fields -> ~ In "version" fields ->
  missing_rows fields records
  = Some (flat_map (fun r => match blank_fields fields r with
                             | [] => []
                             | _ :: _ => [(r, blank_fields fields r)]
                             end) records).
Proof using.
  intros Hid Hversion. induction records as [|r records IH]; simpl; [reflexivity|].
  rewrite missing_of_text, IH by assumption. simpl.
  now destruct (blank_fields fields r).
Qed.

Lemma in_map_view_sorted (record : row) (l : list row) :
  In record (map view (order_by_td l)) <-> In record (map view l).
Proof.
  rewrite !in_map_iff. split; intros (r & Hr & Hin); exists r; split; auto;
    now apply in_order_by_td.
Qed.

Lemma shown_due_blank (r : row) :
  in_range r = true ->
  Py.truthy (Some (Py.strip (shown_due r))) = false
  <-> _parse_date (end_period r) = None.
Proof.
  unfold in_range, shown_due, _compute_due.
  destruct (_parse_date (end_period r)) as [e|]; [|intros _; split; reflexivity].
  destruct (Date.add_days e DUE_OFFSET_DAYS) as [d|] eqn:Hadd; [|discriminate].
  intros _. split; [|discriminate]. intros Hblank. exfalso.
  destruct (add_days_spec _ _ _ Hadd) as [Hvalid _].
  pose proof (parse_isoformat d Hvalid) as Hparse.
  unfold _parse_date in Hparse. simpl _format_date in Hblank.
  rewrite Hblank in Hparse.
  destruct (Py.truthy (Some (Date.isoformat d))); discriminate.
Qed.

(** X8. For fields that are text columns or no columns at all,
    [find_missing_fields] returns, in identifier order, the records
    with a blank requested field, each with the list of its blank
    fields in the order requested, and no other record; [due_date] is
    listed for a record exactly when its end_period gives no date,
    whatever the table stores as due date. *)
Theorem find_missing_fields_lists_the_blank_fields
    (clk : clock) (fields : list string) (s : db) :
  (forall r, In r (rows s) -> in_range r = true) ->
  ~ In "id" fields -> ~ In "version" fields ->
  exists out s1,
    find_missing_fields clk fields s = (Ret (Some out), s1)
    /\ (forall record missing,
          In (record, missing) out <->
          In record (map view (rows s))
          /\ missing = blank_fields fields record /\ missing <> [])
    /\ map fst out
       = List.filter (fun record => negb (forallb (fun f => negb (is_blank record f)) fields))
           (map view (order_by_td (rows s)))
    /\ (In "due_date" fields ->
        forall r, In r (rows s) ->
          (exists missing, In (view r, missing) out /\ In "due_date" missing)
          <-> _parse_date (end_period r) = None).
Proof.
  intros Hrange Hid Hversion.
  assert (Hmember : forall record missing,
    In (record, missing)
       (flat_map (fun r => match blank_fields fields r with
                           | [] => []
                           | _ :: _ => [(r, blank_fields fields r)]
                           end) (map view (order_by_td (rows s))))
    <-> In record (map view (rows s))
        /\ missing = blank_fields fields record /\ missing <> []).
  { intros record missing. rewrite in_flat_map. split.
    - intros (r & Hr & Hin). apply (proj1 (in_map_view_sorted _ _)) in Hr.
      destruct (blank_fields fields r) as [|f m] eqn:Eb; [destruct Hin|].
      destruct Hin as [Heq|[]]. injection Heq as <- <-.
      split; [exact Hr|]. split; [now rewrite Eb|discriminate].
    - intros (Hr & -> & Hne). exists record. split; [now apply (proj2 (in_map_view_sorted _ _))|].
      destruct (blank_fields fields record); [congruence|now left]. }
  do 2 eexists. split; [|split; [exact Hmember|split]].
  - unfold find_missing_fields, bind. rewrite get_all_eq by exact Hrange.
    unfold ret. rewrite missing_rows_text by assumption. reflexivity.
  - clear Hmember.
    induction (map view (order_by_td (rows s))) as [|r l IH]; simpl; [reflexivity|].
    rewrite map_app, IH. unfold blank_fields at 1.
    assert (Hsame : forallb (fun f => negb (is_blank r f)) fields
                    = match List.filter (is_blank r) fields with
                      | [] => true
                      | _ :: _ => false
                      end).
    { clear. induction fields as [|f fields IH]; simpl; [reflexivity|].
      destruct (is_blank r f); simpl; auto. }
    rewrite Hsame. now destruct (List.filter (is_blank r) fields).
  - intros Hdue r Hr.
    assert (Hblank : is_blank (view r) "due_date"
                     = negb (Py.truthy (Some (Py.strip (shown_due r)))))
      by reflexivity.
    rewrite <- (shown_due_blank r (Hrange r Hr)). split.
    + intros (missing & Hin & Hd). apply Hmember in Hin as (_ & -> & _).
      apply filter_In in Hd as [_ Hd]. rewrite Hblank in Hd.
      now apply negb_true_iff in Hd.
    + intros Hd. exists (blank_fields fields (view r)).
      assert (Hin : In "due_date" (blank_fields fields (view r))).
      { apply filter_In. split; [exact Hdue|]. rewrite Hblank, Hd. reflexivity. }
      split; [|exact Hin]. apply Hmember. split; [now apply in_map|].
      split; [reflexivity|]. intros Hnil. rewrite Hnil in Hin. destruct Hin.
Qed.

(** X9. Asked about the integer column [version] or [id],
    [find_missing_fields] fails with [AttributeError] as soon as the
    table has a row whose value there is not zero, after the read has
    written back what it had to. *)
Theorem find_missing_fields_fails_on_integer_columns
    (clk : clock) (fields : list string) (s : db) :
  (forall r, In r (rows s) -> in_range r = true) ->
  rows s <> [] ->
  (In "version" fields /\ forall r, In r (rows s) -> version r <> 0)
  \/ (In "id" fields /\ forall r, In r (rows s) -> row_id r <> 0) ->
  find_missing_fields clk fields s = (Ret None, (get_all clk true s).2).
Proof.
  intros Hrange Hne Hint.
  unfold find_missing_fields, bind. rewrite get_all_eq by exact Hrange.
  unfold ret. cbn [snd]. f_equal. f_equal.
  destruct (order_by_td (rows s)) as [|r l] eqn:El.
  { exfalso. destruct (rows s) as [|r0 l0]; [congruence|].
    assert (Hin : In r0 (order_by_td (r0 :: l0))) by (apply in_order_by_td; now left).
    rewrite El in Hin. destruct Hin. }
  assert (Hr : In r (rows s)) by (apply in_order_by_td; rewrite El; now left).
  simpl.
  assert (Hnone : missing_of (view r) fields = None).
  { destruct Hint as [[Hin Hv]|[Hin Hv]].
    - apply (missing_of_integer _ _ "version" Hin). simpl.
      destruct (Z.eqb_spec (version r) 0) as [H0|]; [|reflexivity].
      now apply Hv in H0.
    - apply (missing_of_integer _ _ "id" Hin). simpl.
      destruct (Z.eqb_spec (row_id r) 0) as [H0|]; [|reflexivity].
      now apply Hv in H0. }
  now rewrite Hnone.
Qed.

(** ** [get_schedule_for_year] *)

Lemma filter_split_perm {A} (p : A -> bool) (l : list A) :
  Permutation (List.filter p l ++ List.filter (fun a => negb (p a)) l) l.
Proof using.
  induction l as [|a l IH]; simpl; [constructor|].
  destruct (p a); simpl.
  - now constructor.
  - rewrite <- Permutation_middle. now constructor.
Qed.

Lemma in_schedule_year (y : Z) (r : row) :
  in_schedule y r = if y <=? 2025 then in_schedule 2025 r else in_schedule 2026 r.
Proof.
  unfold in_schedule. destruct (Z.leb_spec y 2025) as [Hy|Hy].
  - destruct (due_of r); [|reflexivity].
    change (2025 <=? 2025) with true. simpl.
    destruct (year d <=? 2025); [reflexivity|]. simpl.
    destruct (Z.leb_spec 2026 y); [lia|reflexivity].
  - destruct (due_of r); [|reflexivity]. simpl.
    destruct (Z.leb_spec 2026 y); [reflexivity|lia].
Qed.

Lemma in_schedule_late (r : row) : in_schedule 2026 r = negb (in_schedule 2025 r).
Proof.
  unfold in_schedule. destruct (due_of r) as [d|]; [|reflexivity]. simpl.
  destruct (Z.leb_spec (year d) 2025), (Z.leb_spec 2026 (year d)); simpl; auto; lia.
Qed.

(** X10. [get_schedule_for_year] knows two schedules only: every year
    up to 2025 gives the first and every year from 2026 on the second.
    Each returned record is in exactly one of them: the second holds
    the records due in 2026 or later, the first all the others, those
    without a due date included. Both are sorted like the output of
    [filter_records]. *)
Theorem schedules_split_the_table (clk : clock) (y : Z) (s : db) :
  (forall r, In r (rows s) -> in_range r = true) ->
  exists early late s1,
    get_schedule_for_year clk 2025 s = (Ret early, s1)
    /\ get_schedule_for_year clk 2026 s = (Ret late, s1)
    /\ get_schedule_for_year clk y s = (Ret (if y <=? 2025 then early else late), s1)
    /\ Permutation (early ++ late) (map view (rows s))
    /\ StronglySorted before_or_tied early
    /\ StronglySorted before_or_tied late
    /\ (forall r, In r late <->
                  In r (map view (rows s))
                  /\ exists d, due_of r = Some d /\ 2026 <= year d).
Proof.
  intros Hrange.
  set (records := map view (order_by_td (rows s))).
  assert (Hrun : forall y0,
    get_schedule_for_year clk y0 s
    = (Ret (sort_records (List.filter (in_schedule y0) records)),
       heal_all clk true (order_by_td (rows s)) s)).
  { intros y0. unfold get_schedule_for_year, bind.
    rewrite get_all_eq by exact Hrange. reflexivity. }
  do 3 eexists. split; [apply Hrun|]. split; [apply Hrun|]. split; [|split; [|split; [|split]]].
  - rewrite Hrun. f_equal. f_equal.
    rewrite (List.filter_ext _ _ (in_schedule_year y)).
    destruct (y <=? 2025); reflexivity.
  - unfold sort_records. rewrite !sort_by_perm.
    rewrite (List.filter_ext _ _ in_schedule_late).
    rewrite filter_split_perm. unfold records.
    apply Permutation_map. unfold order_by_td. apply sort_by_perm.
  - apply sort_records_sorted.
  - apply sort_records_sorted.
  - intros r. unfold sort_records. rewrite sort_by_perm.
    rewrite filter_In. unfold records. rewrite in_map_view_sorted.
    unfold in_schedule. destruct (due_of r) as [d|]; simpl.
    + rewrite Z.leb_le. split; intros [Hin Hx]; (split; [exact Hin|]).
      * now exists d.
      * destruct Hx as (d' & Hd' & Hy). now inversion Hd'; subst.
    + split; intros [Hin Hx]; [discriminate|]. destruct Hx as (d & Hd & _). discriminate.
Qed.

(** ** [get_stats] *)

Lemma tallied_loop (today thirty : date) (records : list row) : forall st0 : stats,
  let st := foldl (tallied today thirty) st0 records in
  total_records st = total_records st0
  /\ by_status st
     = foldl (fun c r => tally (label (status r) "Unknown") c) (by_status st0) records
  /\ by_class st
     = foldl (fun c r => tally (label (class_ r) "Unknown") c) (by_class st0) records
  /\ by_writer st
     = foldl (fun c r => tally (label (writer r) "Unassigned") c) (by_writer st0) records
  /\ overdue st
     = overdue st0 + Z.of_nat (length (List.filter (is_overdue today) records))
  /\ due_soon st
     = due_soon st0 + Z.of_nat (length (List.filter (is_due_soon today thirty) records))
  /\ duplicate_td_numbers st = duplicate_td_numbers st0.
Proof.
  induction records as [|r records IH]; intros st0; simpl.
  - repeat split; lia.
  - destruct (IH (tallied today thirty st0 r)) as (H1 & H2 & H3 & H4 & H5 & H6 & H7).
    rewrite H1, H2, H3, H4, H5, H6, H7. simpl.
    unfold is_overdue, is_due_soon.
    repeat split;
      repeat match goal with
             | |- context [if ?c then _ else _] => destruct c
             end; simpl length; lia.
Qed.

Lemma filter_map_length {A B} (p : B -> bool) (g : A -> B) (l : list A) :
  length (List.filter p (map g l)) = length (List.filter (fun a => p (g a)) l).
Proof using.
  induction l as [|a l IH]; simpl; [reflexivity|].
  destruct (p (g a)); simpl; now rewrite IH.
Qed.

Lemma filter_perm_length {A} (p : A -> bool) (l l' : list A) :
  Permutation l l' -> length (List.filter p l) = length (List.filter p l').
Proof using.
  induction 1 as [|a l l' _ IH|a b l|l l' l'' _ IH1 _ IH2]; simpl.
  - reflexivity.
  - destruct (p a); simpl; now rewrite IH.
  - destruct (p a), (p b); reflexivity.
  - congruence.
Qed.

Lemma filter_views_length (p : row -> bool) (l : list row) :
  length (List.filter p (map view (order_by_td l)))
  = length (List.filter (fun r => p (view r)) l).
Proof.
  rewrite filter_map_length. apply filter_perm_length, sort_by_perm.
Qed.

Lemma disjoint_filters_length {A} (p q : A -> bool) (l : list A) :
  (forall a, p a && q a = false) ->
  (length (List.filter p l) + length (List.filter q l) <= length l)%nat.
Proof using.
  intros Hpq. induction l as [|a l IH]; simpl; [lia|].
  pose proof (Hpq a). destruct (p a), (q a); simpl; try discriminate; lia.
Qed.

Lemma overdue_not_due_soon (today thirty : date) (r : row) :
  is_overdue today r && is_due_soon today thirty r = false.
Proof.
  unfold is_overdue, is_due_soon. destruct (due_of r) as [d|]; [|reflexivity].
  unfold Date.leb. destruct (Date.ltb d today); reflexivity.
Qed.

Lemma heal_all_td (clk : clock) (p : bool) (l : list row) (s : db) :
  map td_number (rows (heal_all clk p l s)) = map td_number (rows s).
Proof.
  unfold heal_all. revert s. induction l as [|r l IH]; intros s; simpl; [reflexivity|].
  now rewrite IH, heal_one_td.
Qed.

Lemma matching_length_td (td : string) (l l' : list row) :
  map td_number l = map td_number l' ->
  length (matching td l) = length (matching td l').
Proof using.
  intros Htd. unfold matching.
  rewrite <- (filter_map_length (fun t => String.eqb t td) td_number l).
  rewrite <- (filter_map_length (fun t => String.eqb t td) td_number l').
  now rewrite Htd.
Qed.

(** X11. [get_stats] counts every record once in each breakdown: the
    count under a label is the number of rows with that label (a blank
    status or class counts as "Unknown", a blank writer as
    "Unassigned"), no label is listed twice, and each breakdown adds up
    to [total_records], the number of stored rows. A record is never
    both overdue and due soon, and the duplicates are the identifiers
    carried by two rows or more. *)
Theorem get_stats_counts_every_record_once (clk : clock) (s : db) :
  (forall r, In r (rows s) -> in_range r = true) ->
  (exists d, Date.add_days (today clk) 30 = Some d) ->
  exists st s1,
    get_stats clk s = (Ret st, s1)
    /\ total_records st = Z.of_nat (length (rows s))
    /\ (total_of (by_status st) = total_records st
        /\ total_of (by_class st) = total_records st
        /\ total_of (by_writer st) = total_records st)
    /\ (forall k,
          count_of k (by_status st)
          = Z.of_nat (length (List.filter
                                (fun r => String.eqb (label (status r) "Unknown") k)
                                (rows s)))
          /\ count_of k (by_class st)
             = Z.of_nat (length (List.filter
                                   (fun r => String.eqb (label (class_ r) "Unknown") k)
                                   (rows s)))
          /\ count_of k (by_writer st)
             = Z.of_nat (length (List.filter
                                   (fun r => String.eqb (label (writer r) "Unassigned") k)
                                   (rows s))))
    /\ (NoDup (map fst (by_status st)) /\ NoDup (map fst (by_class st))
        /\ NoDup (map fst (by_writer st)))
    /\ overdue st
       = Z.of_nat (length (List.filter (fun r => is_overdue (today clk) (view r)) (rows s)))
    /\ 0 <= due_soon st
    /\ overdue st + due_soon st <= total_records st
    /\ (forall td, In td (duplicate_td_numbers st)
                   <-> (2 <= length (matching td (rows s)))%nat).
Proof.
  intros Hrange [thirty Hthirty].
  set (records := map view (order_by_td (rows s))).
  set (s1 := heal_all clk true (order_by_td (rows s)) s).
  destruct (find_duplicate_td_numbers s1) as [dups s2] eqn:Hdups.
  assert (Hs2 : dups = Ret (match dups with Ret l => l | Raise _ => [] end) /\ s2 = s1).
  { unfold find_duplicate_td_numbers in Hdups. inversion Hdups; subst. now split. }
  destruct Hs2 as [Hd ->]. rewrite Hd in Hdups.
  set (found := match dups with Ret l => l | Raise _ => [] end) in *.
  set (st := foldl (tallied (today clk) thirty)
               (mkstats (Z.of_nat (length records)) [] [] [] 0 0 []) records).
  assert (Hrun : get_stats clk s = (Ret (with_duplicates st found), s1)).
  { unfold get_stats, bind. rewrite get_all_eq by exact Hrange.
    rewrite Hthirty. unfold ret. fold records. fold s1. fold st.
    now rewrite Hdups. }
  destruct (tallied_loop (today clk) thirty records
              (mkstats (Z.of_nat (length records)) [] [] [] 0 0 []))
    as (Htotal & Hstatus & Hclass & Hwriter & Hover & Hsoon & _).
  fold st in Htotal, Hstatus, Hclass, Hwriter, Hover, Hsoon. simpl in *.
  assert (Hlen : length records = length (rows s)).
  { unfold records. rewrite length_map. apply Permutation_length, sort_by_perm. }
  destruct (tally_loop (fun r => label (status r) "Unknown") records [])
    as (Hs_nd & _ & Hs_count & Hs_total).
  destruct (tally_loop (fun r => label (class_ r) "Unknown") records [])
    as (Hc_nd & _ & Hc_count & Hc_total).
  destruct (tally_loop (fun r => label (writer r) "Unassigned") records [])
    as (Hw_nd & _ & Hw_count & Hw_total).
  cbv zeta in *.
  exists (with_duplicates st found), s1. split; [exact Hrun|]. simpl.
  split; [rewrite Htotal; now rewrite Hlen|].
  split; [rewrite Hstatus, Hclass, Hwriter, Hs_total, Hc_total, Hw_total, Htotal;
          unfold total_of; simpl; lia|].
  split.
  { intros k. rewrite Hstatus, Hclass, Hwriter, Hs_count, Hc_count, Hw_count. simpl.
    unfold records. rewrite !filter_views_length. repeat split. }
  split.
  { rewrite Hstatus, Hclass, Hwriter.
    repeat split; [apply Hs_nd|apply Hc_nd|apply Hw_nd]; constructor. }
  split; [rewrite Hover; unfold records; now rewrite filter_views_length|].
  split; [lia|].
  split.
  { rewrite Hover, Hsoon, Htotal.
    pose proof (disjoint_filters_length (is_overdue (today clk))
                  (is_due_soon (today clk) thirty) records
                  (overdue_not_due_soon (today clk) thirty)).
    lia. }
  intros td. rewrite (find_duplicates_membership td _ _ _ Hdups).
  unfold s1. now rewrite (matching_length_td td _ _ (heal_all_td clk true _ s)).
Qed.

(** ** [find_by_query] *)

Lemma like_percent (p t : string) :
  like (String "%" p) t
  = like p t || match t with
                | EmptyString => false
                | String _ t' => like (String "%" p) t'
                end.
Proof using. destruct t; reflexivity. Qed.

Lemma like_any (t : string) : like "%" t = true.
Proof using.
  induction t as [|c t IH]; [reflexivity|].
  rewrite like_percent. now rewrite IH, orb_true_r.
Qed.









(** ** [_parse_date] and [_format_date] *)

Lemma rstrip_idem (s : string) : Py.rstrip (Py.rstrip s) = Py.rstrip s.
Proof using.
  induction s as [|c s IH]; [reflexivity|]. cbn [Py.rstrip].
  destruct (Py.rstrip s) as [|d t] eqn:E.
  - destruct (Py.is_space c) eqn:Hc; [reflexivity|]. cbn [Py.rstrip]. now rewrite Hc.
  - change (Py.rstrip (String c (String d t)))
      with (match Py.rstrip (String d t) with
            | "" => if Py.is_space c then "" else String c ""
            | String a u => String c (String a u)
            end).
    now rewrite IH.
Qed.

Lemma rstrip_keeps_head (c : ascii) (t : string) :
  Py.is_space c = false -> exists t', Py.rstrip (String c t) = String c t'.
Proof using.
  intros Hc. cbn [Py.rstrip]. destruct (Py.rstrip t); [rewrite Hc|]; eauto.
Qed.

Lemma lstrip_head (s : string) :
  Py.lstrip s = "" \/ exists c t, Py.lstrip s = String c t /\ Py.is_space c = false.
Proof using.
  induction s as [|c s IH]; simpl; [now left|].
  destruct (Py.is_space c) eqn:Hc; [exact IH|]. right. eauto.
Qed.

Lemma strip_idem (s : string) : Py.strip (Py.strip s) = Py.strip s.
Proof using.
  unfold Py.strip. destruct (lstrip_head s) as [->|(c & t & -> & Hc)]; [reflexivity|].
  destruct (rstrip_keeps_head c t Hc) as [t' Ht]. rewrite Ht.
  cbn [Py.lstrip]. rewrite Hc, <- Ht. apply rstrip_idem.
Qed.

(** X20. [_parse_date] reads back every date that [_format_date]
    writes, and reads the empty text written for no date as no date.
    White space around the text does not matter, and a text of white
    space only is no date. *)
Theorem parse_date_reads_what_format_date_writes :
  (forall d, valid_date d -> _parse_date (Some (_format_date (Some d))) = Some d)
  /\ _parse_date (Some (_format_date None)) = None
  /\ (forall text, _parse_date (Some text) = _parse_date (Some (Py.strip text)))
  /\ (forall text, Py.strip text = "" -> _parse_date (Some text) = None).
Proof.
  split; [exact parse_isoformat|]. split; [reflexivity|].
  assert (Hstrip : forall text,
            _parse_date (Some text) = _parse_date (Some (Py.strip text))).
  { intros text. unfold _parse_date. rewrite strip_idem.
    destruct text as [|c t]; [reflexivity|].
    cbn [Py.truthy negb].
    destruct (Py.strip (String c t)) as [|c' t']; reflexivity. }
  split; [exact Hstrip|].
  intros text Hblank. rewrite Hstrip, Hblank. reflexivity.
Qed.

(** ** [update_record] and the due date *)



(** ** After [delete_record] *)

(** X23. Once [delete_record] has run, the identifier is gone for
    every operation: the reads find nothing, [update_record],
    [add_comment], [link_references] and a second [delete_record]
    answer false, and none of them changes the store. *)
Theorem a_deleted_identifier_is_gone (clk : clock) (td : string) (s : db) :
  let s' := (delete_record td s).2 in
  first_td td s' = None
  /\ find_by_td clk true td s' = (Ret None, s')
  /\ find_all_by_td clk true td s' = (Ret [], s')
  /\ (forall updates,
        known_columns (allowed_of updates) = true ->
        update_record clk td updates s' = (Ret false, s'))
  /\ (forall comment, add_comment clk td comment s' = (Ret false, s'))
  /\ (forall mc_url sp_url, link_references clk td mc_url sp_url s' = (Ret false, s'))
  /\ delete_record td s' = (Ret false, s').
Proof.
  set (s' := (delete_record td s).2).
  assert (Hnone : matching td (rows s') = []).
  { unfold s'. cbn [delete_record snd rows]. rewrite matching_after_delete.
    now rewrite String.eqb_refl. }
  assert (Hfirst : first_td td s' = None) by (apply find_none_matching, Hnone).
  cbv zeta. split; [exact Hfirst|]. split; [|split; [|split; [|split; [|split]]]].
  - now rewrite find_by_td_eq, Hfirst.
  - unfold find_all_by_td. fold (matching td (rows s')). now rewrite Hnone.
  - intros updates Hknown. rewrite update_record_eq.
    destruct (bool_decide (updates = ∅) || bool_decide (allowed_of updates = ∅));
      [reflexivity|].
    rewrite Hknown. cbn [negb]. cbv zeta. rewrite Hfirst.
    rewrite update_rows_none by (apply first_td_none, Hfirst).
    now rewrite db_eta.
  - intros comment. now apply add_comment_unknown.
  - intros mc_url sp_url. unfold link_references.
    destruct (link_parts mc_url sp_url); [reflexivity|].
    now apply add_comment_unknown.
  - unfold delete_record. rewrite Hnone, (others_all td _ Hnone). cbn [length].
    now rewrite db_eta.
Qed.

(** ** The handler [clone_report] *)



End Store.

(** ** Facts about the bulk operations *)








(** ** Text without white space, digits *)

Lemma all_chars_impl (p q : ascii -> bool) (s : string) :
  (forall c, p c = true -> q c = true) -> all_chars p s = true -> all_chars q s = true.
Proof.
  intros Hpq. induction s as [|c s IH]; simpl; [reflexivity|].
  intros H. apply andb_true_iff in H as [Hc Hs].
  now rewrite (Hpq c Hc), IH.
Qed.

Lemma all_chars_app (p : ascii -> bool) (s t : string) :
  all_chars p (s +:+ t) = all_chars p s && all_chars p t.
Proof.
  induction s as [|c s IH]; [reflexivity|].
  change (String c s +:+ t) with (String c (s +:+ t)). simpl.
  now rewrite IH, andb_assoc.
Qed.

Lemma lstrip_nospace (s : string) :
  all_chars (fun c => negb (Py.is_space c)) s = true -> Py.lstrip s = s.
Proof.
  destruct s as [|c s]; simpl; [reflexivity|].
  intros H. apply andb_true_iff in H as [Hc _].
  apply negb_true_iff in Hc. now rewrite Hc.
Qed.

Lemma rstrip_nospace (s : string) :
  all_chars (fun c => negb (Py.is_space c)) s = true -> Py.rstrip s = s.
Proof.
  induction s as [|c s IH]; simpl; [reflexivity|].
  intros H. apply andb_true_iff in H as [Hc Hs].
  apply negb_true_iff in Hc. rewrite (IH Hs), Hc. now destruct s.
Qed.

Lemma strip_nospace (s : string) :
  all_chars (fun c => negb (Py.is_space c)) s = true -> Py.strip s = s.
Proof.
  intros H. unfold Py.strip. rewrite (lstrip_nospace s H). now apply rstrip_nospace.
Qed.

Lemma lower_fixed (s : string) :
  all_chars (fun c => Ascii.eqb (Py.lower_char c) c) s = true -> Py.lower s = s.
Proof.
  induction s as [|c s IH]; simpl; [reflexivity|].
  intros H. apply andb_true_iff in H as [Hc Hs].
  apply Ascii.eqb_eq in Hc. now rewrite Hc, IH.
Qed.


Lemma keep_chars_all (p : ascii -> bool) (s : string) :
  all_chars p (keep_chars p s) = true.
Proof.
  induction s as [|c s IH]; simpl; [reflexivity|].
  destruct (p c) eqn:Hc; simpl; [now rewrite Hc|exact IH].
Qed.

Lemma keep_chars_fixed (p : ascii -> bool) (s : string) :
  all_chars p s = true -> keep_chars p s = s.
Proof.
  induction s as [|c s IH]; simpl; [reflexivity|].
  intros H. apply andb_true_iff in H as [Hc Hs]. now rewrite Hc, IH.
Qed.

Lemma lower_alnum_plain (c : ascii) :
  is_lower_alnum c = true ->
  negb (Py.is_space c) = true /\ Ascii.eqb (Py.lower_char c) c = true.
Proof.
  destruct c as [[] [] [] [] [] [] [] []]; vm_compute; intros H;
    try discriminate H; split; reflexivity.
Qed.

Lemma digit_plain (c : ascii) :
  Py.is_digit c = true ->
  negb (Py.is_space c) = true /\ Ascii.eqb (Py.lower_char c) c = true
  /\ 0 <= Py.digit_val c.
Proof.
  destruct c as [[] [] [] [] [] [] [] []]; vm_compute; intros H;
    try discriminate H; repeat split; discriminate.
Qed.

Lemma lower_char_plain (c : ascii) :
  Py.is_space (Py.lower_char c) = Py.is_space c
  /\ Py.lower_char (Py.lower_char c) = Py.lower_char c
  /\ Py.is_digit (Py.lower_char c) = Py.is_digit c.
Proof. destruct c as [[] [] [] [] [] [] [] []]; vm_compute; repeat split. Qed.

Lemma lower_lower (s : string) : Py.lower (Py.lower s) = Py.lower s.
Proof.
  induction s as [|c s IH]; simpl; [reflexivity|].
  destruct (lower_char_plain c) as (_ & -> & _). now rewrite IH.
Qed.

Lemma lstrip_lower (s : string) : Py.lstrip (Py.lower s) = Py.lower (Py.lstrip s).
Proof.
  induction s as [|c s IH]; simpl; [reflexivity|].
  destruct (lower_char_plain c) as (-> & _ & _).
  now destruct (Py.is_space c).
Qed.

Lemma rstrip_lower (s : string) : Py.rstrip (Py.lower s) = Py.lower (Py.rstrip s).
Proof.
  induction s as [|c s IH]; simpl; [reflexivity|].
  rewrite IH. destruct (lower_char_plain c) as (-> & _ & _).
  destruct (Py.rstrip s); simpl; [|reflexivity].
  now destruct (Py.is_space c).
Qed.

Lemma strip_lower (s : string) : Py.strip (Py.lower s) = Py.lower (Py.strip s).
Proof. unfold Py.strip. now rewrite lstrip_lower, rstrip_lower. Qed.

(** ** [norm] *)

(** X13. [norm] leaves lower-case letters and digits only, ignores
    letter case, and is idempotent: the normal form of a normal form is
    itself. *)
Theorem norm_gives_a_normal_form (s : option string) :
  all_chars is_lower_alnum (norm s) = true
  /\ norm (Some (norm s)) = norm s
  /\ norm (Some (Py.lower (Py.or_empty s))) = norm s.
Proof.
  assert (Hall : all_chars is_lower_alnum (norm s) = true) by apply keep_chars_all.
  split; [exact Hall|]. split.
  - unfold norm at 1. simpl Py.or_empty.
    rewrite strip_nospace, lower_fixed, keep_chars_fixed; auto.
    + eapply all_chars_impl; [|exact Hall]. intros c Hc. now apply lower_alnum_plain.
    + eapply all_chars_impl; [|exact Hall]. intros c Hc. now apply lower_alnum_plain.
  - unfold norm. simpl Py.or_empty. now rewrite strip_lower, lower_lower.
Qed.

(** ** [int] on the digits that [format] writes *)

Lemma int_digits_acc (d : Decimal.uint) : forall acc : positive,
  Py.int_digits (NilEmpty.string_of_uint d) (Z.pos acc) true
  = Some (Z.pos (Pos.of_uint_acc d acc)).
Proof.
  induction d as [|d IH|d IH|d IH|d IH|d IH|d IH|d IH|d IH|d IH|d IH];
    intros acc; [reflexivity|..];
    cbn [NilEmpty.string_of_uint Py.int_digits Pos.of_uint_acc];
    match goal with
    | |- context [Py.is_digit ?c] =>
        let v := eval vm_compute in (Py.is_digit c) in
        change (Py.is_digit c) with v;
        let w := eval vm_compute in (Py.digit_val c) in
        change (Py.digit_val c) with w
    end;
    cbv iota; rewrite <- IH; f_equal; lia.
Qed.

Lemma int_digits_uint (d : Decimal.uint) : forall prev : bool,
  d <> Decimal.Nil \/ prev = true ->
  Py.int_digits (NilEmpty.string_of_uint d) 0 prev = Some (Z.of_N (Pos.of_uint d)).
Proof.
  induction d as [|d IH|d IH|d IH|d IH|d IH|d IH|d IH|d IH|d IH|d IH];
    intros prev Hd.
  - destruct Hd as [Hd| ->]; [congruence|reflexivity].
  - cbn [NilEmpty.string_of_uint Py.int_digits Pos.of_uint].
    change (Py.is_digit "0") with true. cbv iota.
    change (10 * 0 + Py.digit_val "0") with 0. apply IH. now right.
  - exact (int_digits_acc d 1).
  - exact (int_digits_acc d 2).
  - exact (int_digits_acc d 3).
  - exact (int_digits_acc d 4).
  - exact (int_digits_acc d 5).
  - exact (int_digits_acc d 6).
  - exact (int_digits_acc d 7).
  - exact (int_digits_acc d 8).
  - exact (int_digits_acc d 9).
Qed.

Lemma uint_digits (d : Decimal.uint) :
  all_chars Py.is_digit (NilEmpty.string_of_uint d) = true.
Proof. induction d; simpl; auto. Qed.

Lemma dec_uint (n : Z) :
  0 <= n ->
  exists d, d <> Decimal.Nil /\ Py.dec n = NilEmpty.string_of_uint d
            /\ Z.of_N (Pos.of_uint d) = n.
Proof.
  intros Hn. exists (N.to_uint (Z.to_N n)).
  assert (Hnil : N.to_uint (Z.to_N n) <> Decimal.Nil).
  { destruct (Z.to_N n) as [|p]; [discriminate|].
    apply DecimalPos.Unsigned.to_uint_nonnil. }
  split; [exact Hnil|]. split.
  - unfold Py.dec, NilZero.string_of_uint.
    destruct (N.to_uint (Z.to_N n)); [congruence|reflexivity..].
  - change (Pos.of_uint (N.to_uint (Z.to_N n))) with (N.of_uint (N.to_uint (Z.to_N n))).
    rewrite DecimalN.Unsigned.of_to. lia.
Qed.

Lemma dec_digits (n : Z) :
  0 <= n -> all_chars Py.is_digit (Py.dec n) = true /\ Py.dec n <> "".
Proof.
  intros Hn. destruct (dec_uint n Hn) as (d & Hd & -> & _).
  split; [apply uint_digits|]. destruct d; simpl; congruence.
Qed.

Lemma zeros_digits (k : nat) : all_chars Py.is_digit (Py.zeros k) = true.
Proof. induction k; simpl; auto. Qed.

Lemma int_digits_zeros (k : nat) (t : string) (prev : bool) :
  Py.int_digits (Py.zeros k +:+ t) 0 prev
  = Py.int_digits t 0 (match k with O => prev | S _ => true end).
Proof.
  revert prev. induction k as [|k IH]; intros prev; [reflexivity|].
  change (Py.zeros (S k) +:+ t) with (String "0" (Py.zeros k +:+ t)).
  cbn [Py.int_digits]. change (Py.is_digit "0") with true. cbv iota.
  change (10 * 0 + Py.digit_val "0") with 0. rewrite IH. now destruct k.
Qed.

Lemma int_digit_string (ds : string) :
  all_chars Py.is_digit ds = true -> Py.int ds = Py.int_digits ds 0 false.
Proof.
  intros Hds. unfold Py.int. rewrite strip_nospace.
  - destruct ds as [|c t]; [reflexivity|]. simpl in Hds.
    apply andb_true_iff in Hds as [Hc _].
    destruct c as [[] [] [] [] [] [] [] []]; try reflexivity; discriminate Hc.
  - eapply all_chars_impl; [|exact Hds]. intros c Hc. now apply digit_plain.
Qed.



Lemma zfill_digits (w : nat) (n : Z) :
  0 <= n ->
  all_chars Py.is_digit (Py.zfill w n) = true /\ Py.zfill w n <> ""
  /\ Py.int (Py.zfill w n) = Some n.
Proof.
  intros Hn. unfold Py.zfill. destruct (Z.ltb_spec n 0); [lia|].
  destruct (dec_digits n Hn) as [Hd Hne].
  assert (Hall : all_chars Py.is_digit
                   (Py.zeros (w - String.length (Py.dec n)) +:+ Py.dec n) = true)
    by (now rewrite all_chars_app, zeros_digits, Hd).
  split; [exact Hall|]. split.
  - destruct (Py.zeros (w - String.length (Py.dec n))); [exact Hne|discriminate].
  - rewrite int_digit_string by exact Hall. rewrite int_digits_zeros.
    destruct (dec_uint n Hn) as (d & Hnil & -> & <-).
    apply int_digits_uint.
    destruct (w - String.length (NilEmpty.string_of_uint d))%nat; auto.
Qed.

(** ** [tool_normalize_id] *)









(** ** [tool_validate_row] *)

(** X15. [tool_validate_row] reads the fields of a row by the exact
    headers of the workbook: it reports a missing writer exactly when
    [Writer] is absent or empty and a missing due date exactly when
    [Due Date] is, and never more than four issues. A record of
    [PSURDatabaseStore] has the column names as keys and none of these
    headers, so for every such record it returns the two missing-field
    issues and no other, whatever the row holds. *)
Theorem validate_row_reads_exact_headers_only :
  (forall get issues,
     tool_validate_row get = Some issues ->
     (In ISSUE_WRITER issues <-> py_truthy (get "Writer") = false)
     /\ (In ISSUE_DUE_DATE issues <-> py_truthy (get "Due Date") = false)
     /\ (length issues <= 4)%nat)
  /\ (forall r : row,
        tool_validate_row (record_get r) = Some [ISSUE_DUE_DATE; ISSUE_WRITER]).
Proof.
  split; [|reflexivity].
  intros get issues. unfold tool_validate_row.
  destruct (or_empty_strip (get "Class")) as [klass|]; [|discriminate].
  destruct (or_empty_strip (get "Frequency")) as [freq|]; [|discriminate].
  cbn [fmap option_fmap option_map mbind option_bind].
  intros [= <-].
  destruct ((Py.contains "iii" (Py.lower klass) || Py.contains "iib" (Py.lower klass))
            && (negb (Py.contains "ann" (Py.lower freq))
                && negb (Py.contains "1" (Py.lower freq))));
    destruct ((Py.contains "iia" (Py.lower klass) || Py.contains "ii a" (Py.lower klass))
              && (negb (Py.contains "bienn" (Py.lower freq))
                  && negb (Py.contains "2" (Py.lower freq))));
    destruct (py_truthy (get "Due Date"));
    destruct (py_truthy (get "Writer"));
    unfold ISSUE_WRITER, ISSUE_DUE_DATE, ISSUE_ANNUAL, ISSUE_BIENNIAL;
    simpl; repeat split; try lia; try discriminate; try tauto;
    intros H; repeat destruct H as [H|H]; try discriminate H; try destruct H.
Qed.

(** ** [list_reports] *)

Lemma py_slice_nonneg {A} (lo n : Z) (l : list A) :
  0 <= lo -> 0 <= n ->
  py_slice lo (lo + n) l = take (Z.to_nat n) (drop (Z.to_nat lo) l).
Proof.
  intros Hlo Hn. unfold py_slice, slice_index.
  destruct (Z.ltb_spec lo 0); [lia|]. destruct (Z.ltb_spec (lo + n) 0); [lia|].
  destruct (Z_lt_le_dec lo (Z.of_nat (length l))) as [Hin|Hout].
  - rewrite (Z.min_l lo) by lia.
    destruct (Z_le_gt_dec (lo + n) (Z.of_nat (length l))) as [Hfit|Hover].
    + rewrite Z.min_l by lia. f_equal. lia.
    + rewrite Z.min_r by lia.
      rewrite !take_ge; [reflexivity|rewrite length_drop; lia..].
  - rewrite !drop_ge by lia. now rewrite !take_nil.
Qed.

(** X16. The handler [list_reports] returns the slice
    [items[offset:offset+limit]] of what [filter_records] returns: for
    an offset and a limit that are not negative, [limit] items after
    the first [offset], fewer at the end of the list; [total] is the
    length of the whole list; consecutive pages put end to end are the
    larger page; with no [offset] and no [limit] it returns the first
    hundred. *)
Theorem list_reports_pages_tile_the_listing
    {S R F : Type} (store : StoreAPI S R F) (filters : F) (s s' : S) (items : list R) :
  store_filter_records filters s = (Ret items, s') ->
  (forall offset limit, 0 <= offset -> 0 <= limit ->
     let page := take (Z.to_nat limit) (drop (Z.to_nat offset) items) in
     tool_list_reports store (Some offset) (Some limit) filters s
     = (Page page (Z.of_nat (length page)) (Z.of_nat (length items)), s')
     /\ Z.of_nat (length page)
        = Z.min limit (Z.max 0 (Z.of_nat (length items) - offset)))
  /\ (forall offset a b, 0 <= offset -> 0 <= a -> 0 <= b ->
        (py_slice offset (offset + a) items
         ++ py_slice (offset + a) (offset + a + b) items)%list
        = py_slice offset (offset + (a + b)) items)
  /\ tool_list_reports store None None filters s
     = (Page (take 100 items) (Z.of_nat (length (take 100 items)))
          (Z.of_nat (length items)), s').
Proof.
  intros Hitems. split; [|split].
  - intros offset limit Ho Hl page. split.
    + unfold tool_list_reports. rewrite Hitems. cbn [default from_option id].
      now rewrite py_slice_nonneg.
    + unfold page. rewrite length_take, length_drop. lia.
  - intros offset a b Ho Ha Hb.
    rewrite !py_slice_nonneg by lia.
    replace (Z.to_nat (offset + a)) with (Z.to_nat offset + Z.to_nat a)%nat by lia.
    rewrite <- drop_drop, take_take_drop. f_equal. lia.
  - unfold tool_list_reports. rewrite Hitems. cbn [default from_option id].
    change (0 + 100) with (0 + 100). rewrite (py_slice_nonneg 0 100) by lia.
    reflexivity.
Qed.

(** ** The key mapping of [update_schedule_row] *)

Lemma first_header_canon (key canon : string) :
  first_header key EXACT_HEADERS = Some canon ->
  first_header canon EXACT_HEADERS = Some canon.
Proof.
  unfold EXACT_HEADERS. cbn [first_header].
  repeat match goal with
         | |- (if ?c then _ else _) = _ -> _ =>
             destruct c; [intros [= <-]; reflexivity|]
         end.
  discriminate.
Qed.

(** X17. The key mapping of [update_schedule_row] is idempotent and
    sends every exact header of the workbook, in any letter case, to
    its canonical name. Each canonical name is a column of the table
    that [update_record] may set, except [row_id], the name given to
    [TD Number]: it is no column, and it is not among the keys that
    [update_record] drops. *)
Theorem canonical_key_maps_headers_to_columns :
  (forall key, canonical_key (canonical_key key) = canonical_key key)
  /\ (forall canon exact key,
        In (canon, exact) EXACT_HEADERS ->
        Py.lower key = Py.lower exact \/ key = canon ->
        canonical_key key = canon)
  /\ (forall canon exact,
        In (canon, exact) EXACT_HEADERS ->
        (canon = "row_id" /\ exact = "TD Number")
        \/ (In canon COLUMN_LIST /\ ~ In canon IMMUTABLE))
  /\ ~ In "row_id" COLUMN_LIST /\ ~ In "row_id" IMMUTABLE.
Proof.
  split; [|split; [|split; [|split]]].
  - intros key. unfold canonical_key at 2 3.
    destruct (first_header key EXACT_HEADERS) as [canon|] eqn:E; simpl.
    + unfold canonical_key. now rewrite (first_header_canon key canon E).
    + unfold canonical_key. now rewrite E.
  - intros canon exact key Hin Hkey. unfold canonical_key.
    simpl in Hin.
    repeat (destruct Hin as [Hin|Hin];
            [injection Hin as <- <-;
             destruct Hkey as [Hkey| ->]; [|reflexivity];
             unfold EXACT_HEADERS; cbn [first_header]; rewrite Hkey;
             repeat match goal with
                    | |- context [String.eqb key ?c] =>
                        destruct (String.eqb_spec key c) as [->|];
                        [vm_compute in Hkey; discriminate Hkey|]
                    end;
             reflexivity|]).
    destruct Hin.
  - intros canon exact Hin. simpl in Hin.
    repeat (destruct Hin as [Hin|Hin];
            [injection Hin as <- <-;
             first [left; split; reflexivity
                   |right; split; [simpl; tauto|];
                    intros H; simpl in H;
                    repeat destruct H as [H|H]; try discriminate H; destruct H]|]).
    destruct Hin.
  - intros H; simpl in H. repeat destruct H as [H|H]; try discriminate H; destruct H.
  - intros H; simpl in H. repeat destruct H as [H|H]; try discriminate H; destruct H.
Qed.

(** ** [ConvexStore] *)

Lemma clean_lookup (d : pydict) (k : string) :
  ConvexStore._clean d !! k = if Py.startswith "_" k then None else d !! k.
Proof.
  unfold ConvexStore._clean. apply option_eq. intros v.
  rewrite map_lookup_filter_Some. cbn [fst].
  destruct (Py.startswith "_" k); cbn [negb]; split.
  - intros [_ H]. discriminate H.
  - discriminate.
  - tauto.
  - auto.
Qed.

(** X18. [_clean_record] removes every key that starts with an
    underscore and keeps every other key with its value; cleaning
    twice changes nothing more. No record that
    [ConvexStore.filter_records] returns has an underscore key, and
    [ConvexStore.update_record] sends the same update whether or not
    such keys were in the map. *)
Theorem convex_records_carry_no_underscore_key
    {W : Type} (remote : deployment W) (clk : clock) :
  (forall d k,
     ConvexStore._clean d !! k = if Py.startswith "_" k then None else d !! k)
  /\ (forall d, ConvexStore._clean (ConvexStore._clean d) = ConvexStore._clean d)
  /\ (forall f w out w',
        ConvexStore.filter_records remote clk f w = (Ret out, w') ->
        forall td d k, In (td, d) out -> Py.startswith "_" k = true -> d !! k = None)
  /\ (forall td updates w,
        ConvexStore.update_record remote td (ConvexStore._clean updates) w
        = ConvexStore.update_record remote td updates w).
Proof.
  assert (Hidem : forall d, ConvexStore._clean (ConvexStore._clean d) = ConvexStore._clean d).
  { intros d. apply map_eq. intros k. rewrite !clean_lookup.
    now destruct (Py.startswith "_" k). }
  split; [exact clean_lookup|]. split; [exact Hidem|]. split.
  - intros f w out w' Hrun td d k Hin Hk.
    unfold ConvexStore.filter_records, bind in Hrun.
    destruct (match f_within_days f with
              | Some n =>
                  if n =? 0 then ret None
                  else match Date.add_days (today clk) n with
                       | Some d0 => ret (Some (Date.isoformat d0))
                       | None => raise OverflowError
                       end
              | None => ret None
              end w) as [[cutoff|e] w0]; [|discriminate].
    destruct (psur_filter remote _ w0) as [results w1].
    injection Hrun as <- _.
    apply in_map_iff in Hin as ([td0 d0] & Heq & _). simpl in Heq.
    injection Heq as _ <-. rewrite clean_lookup. now rewrite Hk.
  - intros td updates w. unfold ConvexStore.update_record. now rewrite Hidem.
Qed.

(** X19. [ConvexStore.filter_records] treats a window of zero days
    like no window, and an empty writer, classification or status like
    none given: the query it sends, and so its answer, is the same. *)
Theorem convex_filter_drops_falsy_criteria
    {W : Type} (remote : deployment W) (clk : clock) (f : filters) (w : W) :
  (f_within_days f = Some 0 ->
   ConvexStore.filter_records remote clk f w
   = ConvexStore.filter_records remote clk
       (mkfilters (f_writer f) (f_classification f) (f_status f) None
          (f_overdue_only f)) w)
  /\ ConvexStore.filter_records remote clk f w
     = ConvexStore.filter_records remote clk
         (mkfilters (if Py.truthy (f_writer f) then f_writer f else None)
            (if Py.truthy (f_classification f) then f_classification f else None)
            (if Py.truthy (f_status f) then f_status f else None)
            (f_within_days f) (f_overdue_only f)) w.
Proof.
  split.
  - intros Hzero. unfold ConvexStore.filter_records. simpl. now rewrite Hzero.
  - unfold ConvexStore.filter_records. simpl.
    destruct (f_writer f) as [[|? ?]|], (f_classification f) as [[|? ?]|],
      (f_status f) as [[|? ?]|]; reflexivity.
Qed.

(** ** The identifiers [add_record] makes up *)

Lemma string_ltb_trans (a b c : string) :
  String.ltb a b = true -> String.ltb b c = true -> String.ltb a c = true.
Proof.
  unfold String.ltb. revert b c.
  induction a as [|x a IH]; intros [|y b] [|z c]; simpl; try congruence.
  unfold Ascii.compare.
  destruct (N.compare_spec (N_of_ascii x) (N_of_ascii y)) as [Exy|Exy|Exy];
    destruct (N.compare_spec (N_of_ascii y) (N_of_ascii z)) as [Eyz|Eyz|Eyz];
    destruct (N.compare_spec (N_of_ascii x) (N_of_ascii z)) as [Exz|Exz|Exz];
    try congruence; try lia.
  apply IH.
Qed.

Lemma string_compare_refl (a : string) : String.compare a a = Eq.
Proof.
  induction a as [|x a IH]; simpl; [reflexivity|].
  unfold Ascii.compare. now rewrite N.compare_refl.
Qed.

Lemma id_steps_ok_spec (k : nat) (lo hi r : Z) :
  id_steps_ok k lo hi = true ->
  lo <= r < lo + 2 ^ Z.of_nat k -> r < hi -> id_step_ok r = true.
Proof.
  revert lo. induction k as [|k IH]; intros lo H Hr Hhi.
  - cbn [id_steps_ok] in H. change (2 ^ Z.of_nat 0) with 1 in Hr.
    assert (r = lo) as -> by lia.
    apply orb_true_iff in H. destruct H as [H|H]; [|exact H].
    apply Z.leb_le in H. lia.
  - cbn [id_steps_ok] in H. apply andb_true_iff in H. destruct H as [H1 H2].
    assert (Hp : 2 ^ Z.of_nat (S k) = 2 * 2 ^ Z.of_nat k)
      by (rewrite Nat2Z.inj_succ, Z.pow_succ_r; lia).
    destruct (Z_lt_le_dec r (lo + 2 ^ Z.of_nat k)).
    + apply (IH lo); auto; lia.
    + apply (IH (lo + 2 ^ Z.of_nat k)); auto; lia.
Qed.

Lemma all_id_steps_ok : id_steps_ok 10 0 999 = true.
Proof. vm_compute. reflexivity. Qed.

Lemma id_text_increasing (j k : Z) :
  0 <= j -> j < k -> k <= 999 -> String.ltb (id_text j) (id_text k) = true.
Proof.
  intros Hj Hjk Hk.
  replace k with (j + 1 + Z.of_nat (Z.to_nat (k - j - 1))) in * by lia.
  induction (Z.to_nat (k - j - 1)) as [|n IH].
  - replace (j + 1 + Z.of_nat 0) with (j + 1) by lia.
    apply (id_steps_ok_spec 10 0 999 j all_id_steps_ok);
      [change (2 ^ Z.of_nat 10) with 1024|]; lia.
  - apply (string_ltb_trans _ (id_text (j + 1 + Z.of_nat n))).
    + apply IH; lia.
    + replace (j + 1 + Z.of_nat (S n)) with (j + 1 + Z.of_nat n + 1) by lia.
      apply (id_steps_ok_spec 10 0 999 _ all_id_steps_ok);
        [change (2 ^ Z.of_nat 10) with 1024|]; lia.
Qed.

Lemma id_text_inj (j k : Z) : 0 <= j -> 0 <= k -> id_text j = id_text k -> j = k.
Proof.
  intros Hj Hk H. unfold id_text in H.
  change ("TD" +:+ Py.zfill 3 j) with (String "T" (String "D" (Py.zfill 3 j))) in H.
  change ("TD" +:+ Py.zfill 3 k) with (String "T" (String "D" (Py.zfill 3 k))) in H.
  injection H as H.
  destruct (zfill_digits 3 j Hj) as (_ & _ & Hint).
  destruct (zfill_digits 3 k Hk) as (_ & _ & Hint').
  rewrite H in Hint. congruence.
Qed.

Lemma id_text_like (k : Z) : like "TD%" (id_text k) = true.
Proof.
  unfold id_text.
  change ("TD" +:+ Py.zfill 3 k) with (String "T" (String "D" (Py.zfill 3 k))).
  change (like "TD%" (String "T" (String "D" (Py.zfill 3 k))))
    with (like "%" (Py.zfill 3 k)).
  apply like_any.
Qed.

Lemma string_ltb_leb (a b : string) : String.ltb a b = negb (String.leb b a).
Proof.
  unfold String.ltb, String.leb. rewrite (String.compare_antisym a b).
  now destruct (String.compare b a).
Qed.

Lemma max_string_spec (l : list string) :
  match max_string l with
  | None => l = []
  | Some x => In x l /\ forall y, In y l -> String.ltb x y = false
  end.
Proof.
  induction l as [|a l IH]; simpl; [reflexivity|].
  destruct (max_string l) as [m|].
  - destruct IH as [Hin Hmax]. destruct (String.ltb a m) eqn:Ham.
    + split; [now right|]. intros y [<-|Hy]; [|now apply Hmax].
      rewrite string_ltb_leb in Ham |- *. apply negb_true_iff in Ham.
      destruct (String.leb_total a m) as [H|H]; [|congruence].
      now rewrite H.
    + split; [now left|]. intros y [<-|Hy].
      * unfold String.ltb. now rewrite string_compare_refl.
      * pose proof (Hmax y Hy) as Hmy.
        rewrite string_ltb_leb in Ham, Hmy |- *.
        apply negb_false_iff in Ham. apply negb_false_iff in Hmy.
        now rewrite (string_leb_trans y m a Hmy Ham).
  - subst l. split; [now left|]. intros y [<-|[]].
    unfold String.ltb. now rewrite string_compare_refl.
Qed.

(** X21. As long as every stored identifier that starts with TD is TD
    and a number below 999 padded to three digits, [add_record] gives a
    record without identifier the next one: TD and the largest stored
    number plus one, or TD001 when there is none. No stored row has
    that identifier. *)
Theorem auto_identifier_is_fresh_below_a_thousand
    (iso : string -> option date) (clk : clock) (record : pydict)
    (due : option date) (s : db) :
  Py.truthy (dict_get record "td_number") = false ->
  _compute_due iso (dict_get record "end_period") = Ret due ->
  (forall r, In r (rows s) -> like "TD%" (td_number r) = true ->
     exists k, 0 <= k < 999 /\ td_number r = id_text k) ->
  exists n s',
    add_record iso clk record s = (Ret (id_text n), s')
    /\ 1 <= n <= 999
    /\ (forall r, In r (rows s) -> td_number r <> id_text n)
    /\ (forall r k, In r (rows s) -> 0 <= k -> td_number r = id_text k -> k < n)
    /\ (n = 1 \/ exists r, In r (rows s) /\ td_number r = id_text (n - 1))
    /\ exists r, rows s' = (rows s ++ [r])%list /\ td_number r = id_text n.
Proof.
  intros Hno Hdue Hcanon.
  assert (Hnext : exists n,
    next_td s = id_text n /\ 1 <= n <= 999
    /\ (forall r k, In r (rows s) -> 0 <= k -> td_number r = id_text k -> k < n)
    /\ (n = 1 \/ exists r, In r (rows s) /\ td_number r = id_text (n - 1))).
  { unfold next_td, last_td.
    pose proof (max_string_spec (List.filter (like "TD%") (map td_number (rows s)))) as Hmax.
    destruct (max_string _) as [t|].
    - destruct Hmax as [Hin Hmax]. apply filter_In in Hin as [Hin Hlike].
      apply in_map_iff in Hin as (r0 & Ht & Hr0). subst t.
      destruct (Hcanon r0 Hr0 Hlike) as (k0 & Hk0 & Htd0).
      rewrite Htd0. unfold id_text at 1.
      change (Py.drop 2 ("TD" +:+ Py.zfill 3 k0)) with (Py.zfill 3 k0).
      destruct (zfill_digits 3 k0 ltac:(lia)) as (_ & _ & ->).
      exists (k0 + 1). split; [reflexivity|]. split; [lia|]. split.
      + intros r k Hr Hk Htd.
        assert (Hlike_r : like "TD%" (td_number r) = true)
          by (rewrite Htd; apply id_text_like).
        destruct (Hcanon r Hr Hlike_r) as (k' & Hk' & Htd').
        assert (k = k') by (apply id_text_inj; [lia..|congruence]). subst k'.
        destruct (Z_lt_le_dec k0 k) as [Hlt|]; [|lia]. exfalso.
        assert (Hy : In (td_number r)
                       (List.filter (like "TD%") (map td_number (rows s)))).
        { apply filter_In. split; [now apply in_map|exact Hlike_r]. }
        pose proof (Hmax _ Hy) as Hnot. rewrite Htd0, Htd in Hnot.
        rewrite id_text_increasing in Hnot; [discriminate|lia..].
      + right. exists r0. split; [exact Hr0|].
        now replace (k0 + 1 - 1) with k0 by lia.
    - exists 1. split; [reflexivity|]. split; [lia|]. split; [|now left].
      intros r k Hr Hk Htd. exfalso.
      assert (Hy : In (td_number r)
                     (List.filter (like "TD%") (map td_number (rows s)))).
      { apply filter_In. split; [now apply in_map|].
        rewrite Htd. apply id_text_like. }
      rewrite Hmax in Hy. destruct Hy. }
  destruct Hnext as (n & Hnext & Hn & Hbelow & Hprev).
  exists n. eexists. split.
  { rewrite add_record_eq, Hdue. unfold assigned_td. now rewrite Hno, Hnext. }
  split; [exact Hn|]. split; [|split; [exact Hbelow|split; [exact Hprev|]]].
  - intros r Hr Htd. pose proof (Hbelow r n Hr ltac:(lia) Htd). lia.
  - eexists. split; [reflexivity|]. reflexivity.
Qed.

(** ** The conversation dialog *)

(** X25. [add_dialog_entry] puts the new entry last and drops at most
    the oldest one: the dialog grows by one entry while it has fewer
    than a hundred and keeps its length after that, so a dialog of at
    most a hundred entries stays so. The entry [tool_entry] logs is
    appended with nothing dropped, and [clear_dialog] empties the
    dialog. *)
Theorem dialog_keeps_the_newest_entries {E : Type} (entry : E) (history : list E) :
  length (add_dialog_entry entry history)
  = (if (length history <? 100)%nat then S (length history) else length history)
  /\ last (add_dialog_entry entry history) = Some entry
  /\ (exists dropped,
        (dropped ++ add_dialog_entry entry history = history ++ [entry])%list
        /\ (length dropped <= 1)%nat)
  /\ ((length history <= 100)%nat ->
      (length (add_dialog_entry entry history) <= 100)%nat)
  /\ length (log_tool_call entry history) = S (length history)
  /\ clear_dialog (add_dialog_entry entry history) = [].
Proof.
  unfold add_dialog_entry, log_tool_call, clear_dialog, MAX_DIALOG.
  rewrite length_app. cbn [length].
  destruct (Nat.ltb_spec 100 (length history + 1)) as [Hfull|Hroom].
  - destruct history as [|a h]; [simpl in Hfull; lia|].
    cbn [app tail length] in *.
    destruct (Nat.ltb_spec (S (length h)) 100); [lia|].
    repeat split.
    + rewrite length_app. simpl. lia.
    + apply last_snoc.
    + exists [a]. split; [reflexivity|simpl; lia].
    + intros. rewrite length_app. simpl. lia.
    + lia.
  - destruct (Nat.ltb_spec (length history) 100); [|lia].
    repeat split.
    + rewrite length_app. simpl. lia.
    + apply last_snoc.
    + exists []. split; [reflexivity|simpl; lia].
    + intros. rewrite length_app. simpl. lia.
    + lia.
Qed.

(** ** The other two formats of [_parse_date] *)

Lemma slash_not_digit (c : ascii) : Py.is_digit c = true -> Ascii.eqb "/" c = false.
Proof.
  destruct c as [[] [] [] [] [] [] [] []]; vm_compute; intros H;
    try discriminate H; reflexivity.
Qed.

Lemma lit_mismatch (c c' : ascii) (rest : string) (ymd : Z * Z * Z) (fmt : list directive) :
  Ascii.eqb c c' = false -> Strptime.matches (Lit c :: fmt) ymd (String c' rest) = [].
Proof. intros H. cbn [Strptime.matches]. now rewrite H. Qed.

Lemma month_then_nothing {B : Type} (k : Z -> string -> list B) (a b c : ascii) (rest : string) :
  (forall v, k v (String c rest) = []) ->
  (forall v, k v (String b (String c rest)) = []) ->
  ('(v, r) ← Strptime.re_m (String a (String b (String c rest))); k v r) = [].
Proof.
  intros H1 H2. unfold Strptime.re_m.
  destruct (Ascii.eqb a "1" && Strptime.in_range 0 2 b);
    destruct (Ascii.eqb a "0" && Strptime.in_range 1 9 b);
    destruct (Strptime.in_range 1 9 a); simpl; rewrite ?H1, ?H2; reflexivity.
Qed.

(** A text that starts with three digits is not in the format
    [%m/%d/%Y]. *)
Lemma year_first_not_us (a b c : ascii) (rest : string) (ymd : Z * Z * Z) :
  Py.is_digit b = true -> Py.is_digit c = true ->
  Strptime.matches fmt_m_d_Y ymd (String a (String b (String c rest))) = [].
Proof.
  intros Hb Hc.
  exact (month_then_nothing
           (fun v r => Strptime.matches [Lit "/"; Dd; Lit "/"; DY] (ymd.1.1, v, ymd.2) r)
           a b c rest
           (fun v => lit_mismatch "/" c rest _ _ (slash_not_digit c Hc))
           (fun v => lit_mismatch "/" b (String c rest) _ _ (slash_not_digit b Hb))).
Qed.

Lemma text_truthy_strip (text : string) :
  all_chars (fun c => negb (Py.is_space c)) text = true -> text <> "" ->
  Py.truthy (Some text) = true /\ Py.strip text = text.
Proof.
  intros Hall Hne. split; [|now apply strip_nospace].
  destruct text; [congruence|reflexivity].
Qed.

Lemma digits_nospace (s : string) :
  all_chars Py.is_digit s = true -> all_chars (fun c => negb (Py.is_space c)) s = true.
Proof. apply all_chars_impl. intros c Hc. now apply digit_plain. Qed.

(** X26. [_parse_date] reads the two spellings with slashes: for every
    date, month/day/year and year/month/day, written with two digits
    for month and day and four for the year, parse to that date. *)
Theorem parse_date_reads_the_slash_formats (iso : string -> option date) (d : date) :
  valid_date d ->
  _parse_date iso
    (Some (Py.zfill 2 (month d) +:+ "/" +:+ Py.zfill 2 (day d) +:+ "/"
           +:+ Py.zfill 4 (year d))) = Some d
  /\ _parse_date iso
       (Some (Py.zfill 4 (year d) +:+ "/" +:+ Py.zfill 2 (month d) +:+ "/"
              +:+ Py.zfill 2 (day d))) = Some d.
Proof.
  destruct d as [y m dd]. unfold valid_date. cbn [year month day].
  intros (Hy & Hm & Hd).
  pose proof (days_in_month_le y m) as Hle.
  destruct (year_text y Hy) as (a & b & c & e & Hz & Ha & Hb & Hc & He & Hv).
  destruct (zfill_digits 2 m ltac:(lia)) as (Hm_digits & Hm_ne & _).
  destruct (zfill_digits 2 dd ltac:(lia)) as (Hd_digits & Hd_ne & _).
  destruct (zfill_digits 4 y ltac:(lia)) as (Hy_digits & Hy_ne & _).
  assert (Hmake : Date.make y m dd = Some (mkdate y m dd))
    by (apply make_valid; lia).
  split.
  - set (text := Py.zfill 2 m +:+ "/" +:+ Py.zfill 2 dd +:+ "/" +:+ Py.zfill 4 y).
    assert (Hplain : all_chars (fun c => negb (Py.is_space c)) text = true).
    { unfold text. rewrite !all_chars_app.
      rewrite (digits_nospace _ Hm_digits), (digits_nospace _ Hd_digits),
        (digits_nospace _ Hy_digits). reflexivity. }
    assert (Hne : text <> "").
    { unfold text. destruct (Py.zfill 2 m); [congruence|discriminate]. }
    destruct (text_truthy_strip text Hplain Hne) as [Htruthy Hstrip].
    assert (Hiso : Strptime.strptime text fmt_Y_m_d = None).
    { unfold Strptime.strptime, text.
      change (Py.zfill 2 m +:+ "/" +:+ Py.zfill 2 dd +:+ "/" +:+ Py.zfill 4 y)
        with (Py.zfill 2 m +:+ String "/" (Py.zfill 2 dd +:+ "/" +:+ Py.zfill 4 y)).
      now rewrite month_first_not_iso. }
    assert (Hus : Strptime.strptime text fmt_m_d_Y = Some (mkdate y m dd)).
    { unfold Strptime.strptime, text, fmt_m_d_Y.
      change (Py.zfill 2 m +:+ "/" +:+ Py.zfill 2 dd +:+ "/" +:+ Py.zfill 4 y)
        with (Py.zfill 2 m +:+ String "/" (Py.zfill 2 dd +:+ String "/" (Py.zfill 4 y))).
      rewrite (stage_m_slash m _ _ _ Hm). cbn [fst snd].
      rewrite (stage_d_slash dd _ _ _ ltac:(lia)). cbn [fst snd].
      rewrite Hz, (stage_Y a b c e _ _ _ Ha Hb Hc He). cbn [fst snd Strptime.matches].
      now rewrite Hv. }
    unfold _parse_date. rewrite Htruthy, Hstrip, Htruthy. cbn [negb].
    now rewrite Hiso, Hus.
  - set (text := Py.zfill 4 y +:+ "/" +:+ Py.zfill 2 m +:+ "/" +:+ Py.zfill 2 dd).
    assert (Hplain : all_chars (fun c => negb (Py.is_space c)) text = true).
    { unfold text. rewrite !all_chars_app.
      rewrite (digits_nospace _ Hm_digits), (digits_nospace _ Hd_digits),
        (digits_nospace _ Hy_digits). reflexivity. }
    assert (Hne : text <> "").
    { unfold text. destruct (Py.zfill 4 y); [congruence|discriminate]. }
    destruct (text_truthy_strip text Hplain Hne) as [Htruthy Hstrip].
    assert (Hshape : text
                     = String a (String b (String c (String e
                         (String "/" (Py.zfill 2 m +:+ String "/" (Py.zfill 2 dd))))))).
    { unfold text. rewrite Hz. reflexivity. }
    assert (Hiso : Strptime.strptime text fmt_Y_m_d = None).
    { unfold Strptime.strptime, fmt_Y_m_d. rewrite Hshape.
      rewrite (stage_Y a b c e _ _ _ Ha Hb Hc He). reflexivity. }
    assert (Hus : Strptime.strptime text fmt_m_d_Y = None).
    { unfold Strptime.strptime. rewrite Hshape.
      now rewrite (year_first_not_us a b c _ _ Hb Hc). }
    assert (Hys : Strptime.strptime text fmt_Ys_m_d = Some (mkdate y m dd)).
    { unfold Strptime.strptime, fmt_Ys_m_d. rewrite Hshape.
      rewrite (stage_Y a b c e _ _ _ Ha Hb Hc He), stage_lit,
        (stage_m_slash m _ _ _ Hm). cbn [fst snd].
      destruct (stage_d dd (1000 * Py.digit_val a + 100 * Py.digit_val b
                            + 10 * Py.digit_val c + Py.digit_val e, m, 1) ltac:(lia))
        as [more ->].
      cbn [fst snd]. now rewrite Hv. }
    unfold _parse_date. rewrite Htruthy, Hstrip, Htruthy. cbn [negb].
    now rewrite Hiso, Hus, Hys.
Qed.

(** ** Concrete runs *)

Example string_primitives :
  Py.lower "Released III" = "released iii"
  /\ Py.strip "  2025-01-01 " = "2025-01-01"
  /\ Py.zfill 3 1 = "001" /\ Py.zfill 3 1000 = "1000" /\ Py.zfill 3 (-4) = "-04"
  /\ Py.int "007" = Some 7 /\ Py.int "1_0" = Some 10 /\ Py.int "X" = None
  /\ Py.contains "ali" "alice" = true /\ like "TD%" "td12" = true.
Proof. repeat split; reflexivity. Qed.

Example calendar_arithmetic :
  Date._ord2ymd (Date._ymd2ord 2025 1 1 + 30) = mkdate 2025 1 31
  /\ Date._ymd2ord 9999 12 31 = Date._MAXORDINAL
  /\ Date._ord2ymd 1 = mkdate 1 1 1
  /\ Date._ord2ymd (Date._ymd2ord 2024 2 29) = mkdate 2024 2 29
  /\ Date.isoformat (mkdate 2025 1 31) = "2025-01-31".
Proof. repeat split; reflexivity. Qed.

(** Dates the three strptime formats read do not depend on the
    interpreter's [fromisoformat]. *)
Example parse_examples (iso : string -> option date) :
  _parse_date iso (Some "2025-01-01") = Some (mkdate 2025 1 1)
  /\ _parse_date iso (Some " 1/5/2025 ") = Some (mkdate 2025 1 5)
  /\ _parse_date iso (Some "2025/12/31") = Some (mkdate 2025 12 31)
  /\ _parse_date iso (Some "") = None
  /\ _parse_date iso None = None
  /\ _parse_date iso (Some "2025-02-30") = iso "2025-02-30"
  /\ _compute_due iso (Some "2025-01-01") = Ret (Some (mkdate 2025 1 31))
  /\ _compute_due iso (Some "9999-12-31") = Raise OverflowError
  /\ _compute_due iso (Some "9999-12-01") = Ret (Some Date.max).
Proof. repeat split; reflexivity. Qed.

(** Scenario 1 of the spec: the first record created without an
    identifier is TD001, due thirty days after its period end. *)
Example first_auto_identifier :
  exists s',
    add_record iso_date_only noon {[ "end_period" := Some "2025-01-01" ]} empty_db
    = (Ret "TD001", s')
    /\ map (fun r => (td_number r, due_date r)) (rows s')
       = [("TD001", Some "2025-01-31")].
Proof. eexists. split; vm_compute; reflexivity. Qed.

(** Scenario 3 of the spec: [overdue_only] keeps the record due
    yesterday and drops the one due tomorrow. *)
Example overdue_only_scenario :
  map td_number
    match (filter_records iso_date_only noon (mkfilters None None None None true)
             around_today).1 with
    | Ret out => out
    | Raise _ => []
    end
  = ["TD001"].
Proof. vm_compute. reflexivity. Qed.

(** Scenario 4 of the spec: the version given in the map is ignored,
    the status is applied and the stored version goes up by one. *)
Example update_ignores_version_scenario :
  exists s',
    update_record iso_date_only noon "TD001"
      {[ "status" := Some "Released"; "version" := Some "99" ]} one_row
    = (Ret true, s')
    /\ map (fun r => (status r, version r)) (rows one_row) = [(Some "Assigned", 1)]
    /\ map (fun r => (status r, version r)) (rows s') = [(Some "Released", 2)].
Proof. eexists. split; [vm_compute; reflexivity|]. split; reflexivity. Qed.

(** Scenario 5 of the spec: a bulk status update over the three records
    of class III counts three and all three read back as released. *)
Example bulk_update_status_scenario :
  exists s',
    bulk_update_status iso_date_only noon (mkfilters None (Some "III") None None false)
      "Released" four_classed
    = (Ret 3, s')
    /\ map (fun r => (td_number r, status r)) (rows s')
       = [("TD001", Some "Released"); ("TD002", Some "Assigned");
          ("TD003", Some "Released"); ("TD004", Some "Released")].
Proof. eexists. split; [vm_compute; reflexivity|]. reflexivity. Qed.







(** C4, at the failing input: with TD999 and TD1000 stored, the
    greatest integer suffix is 1000, yet the next identifier handed out
    is TD1000 again, since the identifier that sorts last as text is
    TD999. *)
Theorem next_identifier_after_a_thousand :
  map td_number (rows thousand) = ["TD999"; "TD1000"]
  /\ last_td thousand = Some "TD999"
  /\ exists s',
       add_record iso_date_only noon ∅ thousand = (Ret "TD1000", s')
       /\ map td_number (rows s') = ["TD999"; "TD1000"; "TD1000"].
Proof.
  split; [reflexivity|]. split; [reflexivity|].
  eexists. split; vm_compute; reflexivity.
Qed.

Lemma duplicate_identifiers_witness :
  first_td "X1" empty_db = None
  /\ exists row1 row2 s2,
       row_id row1 < row_id row2
       /\ map writer [row1; row2] = [Some "Alice"; Some "Bob"]
       /\ find_all_by_td iso_date_only later true "X1" s2 = (Ret [row1; row2], s2)
       /\ delete_record "X1" s2 = (Ret true, mkdb [] 2).
Proof.
  split; [reflexivity|].
  assert (H0 : "X1" <> "") by discriminate.
  assert (H1 : dict_get ({[ "td_number" := Some "X1"; "writer" := Some "Alice" ]} : pydict)
                 "td_number" = Some "X1") by (vm_compute; reflexivity).
  assert (H2 : dict_get ({[ "td_number" := Some "X1"; "writer" := Some "Bob" ]} : pydict)
                 "td_number" = Some "X1") by (vm_compute; reflexivity).
  assert (H3 : _compute_due iso_date_only
                 (dict_get ({[ "td_number" := Some "X1"; "writer" := Some "Alice" ]} : pydict)
                    "end_period") = Ret None) by (vm_compute; reflexivity).
  assert (H4 : _compute_due iso_date_only
                 (dict_get ({[ "td_number" := Some "X1"; "writer" := Some "Bob" ]} : pydict)
                    "end_period") = Ret None) by (vm_compute; reflexivity).
  destruct (duplicate_identifiers_are_tolerated iso_date_only noon noon later "X1"
              _ _ None None empty_db H0 H1 H2 H3 H4 eq_refl)
    as (_ & _ & Hid & Hfind & Hdel & _).
  eexists _, _, _. split; [exact Hid|]. split; [|split; [exact Hfind|exact Hdel]].
  vm_compute. reflexivity.
Defined.

(** C6 as stated fails: the record without a due date comes first,
    before a record with a concrete due date (9999-12-31). *)
Lemma none_last_counterexample :
  exists a b s',
    filter_records iso_date_only noon no_filter edge_of_calendar = (Ret [a; b], s')
    /\ due_of iso_date_only a = None
    /\ due_of iso_date_only b = Some (mkdate 9999 12 31).
Proof.
  eexists _, _, _. split; [vm_compute; reflexivity|].
  split; vm_compute; reflexivity.
Qed.

Lemma filter_records_output_is_sorted_witness :
  exists out s',
    filter_records iso_date_only noon no_filter around_today = (Ret out, s')
    /\ map td_number out = ["TD001"; "TD002"]
    /\ StronglySorted (before_or_tied iso_date_only) out.
Proof.
  eexists _, _. split; [vm_compute; reflexivity|]. split; [reflexivity|].
  eapply (proj2 (filter_records_output_is_sorted iso_date_only noon no_filter
                   around_today)).
  vm_compute. reflexivity.
Defined.

Lemma filter_records_selects_exactly_witness :
  exists out s',
    filter_records iso_date_only noon (mkfilters (Some "BO") None None (Some 30) false)
      around_today = (Ret out, s')
    /\ map td_number out = ["TD002"]
    /\ forall r,
         In r out <->
         In r (map (view iso_date_only) (rows around_today))
         /\ selected iso_date_only (mkfilters (Some "BO") None None (Some 30) false)
              (today noon) r.
Proof.
  eexists _, _. split; [vm_compute; reflexivity|]. split; [reflexivity|].
  eapply (proj2 (filter_records_selects_exactly iso_date_only noon
                   (mkfilters (Some "BO") None None (Some 30) false) around_today)).
  vm_compute. reflexivity.
Defined.




(** ** Runs of the other operations *)

(** Deleting X1 from the table that holds it twice leaves no row. *)
Lemma count_records_witness :
  exists n n',
    count_records two_x1 = (Ret n, two_x1)
    /\ count_records (after iso_date_only noon (Delete_record "X1") two_x1)
       = (Ret n', after iso_date_only noon (Delete_record "X1") two_x1)
    /\ 0 <= n
    /\ n' = n - Z.of_nat (length (matching "X1" (rows two_x1))).
Proof.
  exact (count_records_follows_the_table iso_date_only noon (Delete_record "X1") two_x1).
Defined.

Lemma duplicates_listed_witness :
  exists out,
    find_duplicate_td_numbers two_x1 = (Ret out, two_x1)
    /\ (In "X1" out <-> (2 <= length (matching "X1" (rows two_x1)))%nat)
    /\ NoDup out.
Proof.
  destruct (duplicates_are_the_identifiers_in_use_twice two_x1) as (out & H & Hm & Hnd & _).
  exists out. split; [exact H|]. split; [apply Hm|exact Hnd].
Defined.

(** A second record under TD001 makes TD001 a duplicate. *)
Lemma duplicates_follow_witness :
  exists s1 out',
    add_record iso_date_only noon {[ "td_number" := Some "TD001" ]} one_row
    = (Ret "TD001", s1)
    /\ find_duplicate_td_numbers s1 = (Ret out', s1)
    /\ In "TD001" out'.
Proof.
  set (s1 := (add_record iso_date_only noon {[ "td_number" := Some "TD001" ]} one_row).2).
  assert (Hadd : add_record iso_date_only noon {[ "td_number" := Some "TD001" ]} one_row
                 = (Ret "TD001", s1)) by (vm_compute; reflexivity).
  destruct (proj2 (duplicates_follow_deletes_and_adds iso_date_only noon one_row)
              _ _ _ Hadd) as (out & out' & _ & H2 & Hm).
  exists s1, out'. split; [exact Hadd|]. split; [exact H2|].
  apply Hm. right. split; [reflexivity|].
  eexists. split; [left; reflexivity|reflexivity].
Defined.




Lemma healing_settles_witness :
  exists out s1 out',
    get_all iso_date_only noon true one_row = (Ret out, s1)
    /\ get_all iso_date_only later true s1 = (Ret out', s1).
Proof.
  destruct (healing_settles_in_one_pass iso_date_only noon later one_row)
    as (out & s1 & out' & H1 & H2 & _).
  - apply NoDup_singleton.
  - intros r [<-|[]]. vm_compute. reflexivity.
  - exists out, s1, out'. split; [exact H1|exact H2].
Defined.

Lemma find_missing_fields_witness :
  exists out s1,
    find_missing_fields iso_date_only noon ["writer"; "due_date"] thousand
    = (Ret (Some out), s1)
    /\ forall record missing,
         In (record, missing) out <->
         In record (map (view iso_date_only) (rows thousand))
         /\ missing = blank_fields ["writer"; "due_date"] record /\ missing <> [].
Proof.
  destruct (find_missing_fields_lists_the_blank_fields iso_date_only noon
              ["writer"; "due_date"] thousand)
    as (out & s1 & Hrun & Hm & _).
  - intros r [<-|[<-|[]]]; reflexivity.
  - intros [H|[H|[]]]; discriminate H.
  - intros [H|[H|[]]]; discriminate H.
  - exists out, s1. split; [exact Hrun|exact Hm].
Defined.

Lemma find_missing_fields_integer_witness :
  find_missing_fields iso_date_only noon ["version"] one_row
  = (Ret None, (get_all iso_date_only noon true one_row).2).
Proof.
  apply (find_missing_fields_fails_on_integer_columns iso_date_only noon ["version"] one_row).
  - intros r [<-|[]]. vm_compute. reflexivity.
  - discriminate.
  - left. split; [now left|]. intros r [<-|[]]. discriminate.
Defined.

Lemma schedules_witness :
  exists early late s1,
    get_schedule_for_year iso_date_only noon 2025 around_today = (Ret early, s1)
    /\ get_schedule_for_year iso_date_only noon 2026 around_today = (Ret late, s1)
    /\ get_schedule_for_year iso_date_only noon 2030 around_today = (Ret late, s1)
    /\ Permutation (early ++ late) (map (view iso_date_only) (rows around_today)).
Proof.
  destruct (schedules_split_the_table iso_date_only noon 2030 around_today)
    as (early & late & s1 & H1 & H2 & H3 & H4 & _).
  - intros r [<-|[<-|[]]]; vm_compute; reflexivity.
  - exists early, late, s1. split; [exact H1|]. split; [exact H2|].
    split; [exact H3|exact H4].
Defined.

Lemma get_stats_witness :
  exists st s1,
    get_stats iso_date_only noon four_classed = (Ret st, s1)
    /\ total_records st = 4
    /\ total_of (by_class st) = total_records st
    /\ overdue st + due_soon st <= total_records st.
Proof.
  destruct (get_stats_counts_every_record_once iso_date_only noon four_classed)
    as (st & s1 & Hrun & Htotal & (_ & Hclass & _) & _ & _ & _ & _ & Hsum & _).
  - intros r [<-|[<-|[<-|[<-|[]]]]]; vm_compute; reflexivity.
  - eexists. vm_compute. reflexivity.
  - exists st, s1. split; [exact Hrun|]. split; [exact Htotal|].
    split; [exact Hclass|exact Hsum].
Defined.


Lemma norm_witness :
  norm (Some (norm (Some " TD-045 "))) = norm (Some " TD-045 ").
Proof. exact (proj1 (proj2 (norm_gives_a_normal_form (Some " TD-045 ")))). Defined.


Lemma validate_row_witness :
  In ISSUE_WRITER [ISSUE_DUE_DATE]
  <-> py_truthy ((fun key => if String.eqb key "Writer" then PyStr "Jeff" else PyNone)
                   "Writer") = false.
Proof.
  exact (proj1 (proj1 validate_row_reads_exact_headers_only
                  (fun key => if String.eqb key "Writer" then PyStr "Jeff" else PyNone)
                  [ISSUE_DUE_DATE] eq_refl)).
Defined.

Lemma list_reports_witness :
  exists items s',
    filter_records iso_date_only noon no_filter four_classed = (Ret items, s')
    /\ tool_list_reports (sqlite_store iso_date_only noon) (Some 1) (Some 2) no_filter
         four_classed
       = (Page (take 2 (drop 1 items)) 2 4, s').
Proof.
  set (items := match (filter_records iso_date_only noon no_filter four_classed).1 with
                | Ret l => l
                | Raise _ => []
                end).
  set (s' := (filter_records iso_date_only noon no_filter four_classed).2).
  assert (Hrun : filter_records iso_date_only noon no_filter four_classed
                 = (Ret items, s')) by (vm_compute; reflexivity).
  exists items, s'. split; [exact Hrun|].
  destruct (proj1 (list_reports_pages_tile_the_listing
                     (sqlite_store iso_date_only noon) no_filter four_classed s' items Hrun)
              1 2 ltac:(lia) ltac:(lia)) as [Hpage _].
  rewrite Hpage. vm_compute. reflexivity.
Defined.

Lemma canonical_key_witness : canonical_key "CLASS" = "class".
Proof.
  apply (proj1 (proj2 canonical_key_maps_headers_to_columns) "class" "Class" "CLASS").
  - simpl. tauto.
  - left. reflexivity.
Defined.

Lemma convex_clean_witness :
  ConvexStore._clean (∅ : pydict) !! "_id" = None.
Proof.
  exact (proj1 (proj2 (proj2 (convex_records_carry_no_underscore_key refusing_remote noon)))
           no_filter [] _ [] eq_refl "TD001" (ConvexStore._clean ∅) "_id"
           (or_introl eq_refl) eq_refl).
Defined.

Lemma convex_filter_witness :
  ConvexStore.filter_records refusing_remote noon
    (mkfilters None None None (Some 0) false) []
  = ConvexStore.filter_records refusing_remote noon
      (mkfilters None None None None false) [].
Proof.
  exact (proj1 (convex_filter_drops_falsy_criteria refusing_remote noon
                  (mkfilters None None None (Some 0) false) []) eq_refl).
Defined.

Lemma parse_date_witness :
  _parse_date iso_date_only (Some (_format_date (Some (mkdate 2024 2 29))))
  = Some (mkdate 2024 2 29).
Proof.
  apply (proj1 (parse_date_reads_what_format_date_writes iso_date_only)).
  repeat split; vm_compute; discriminate.
Defined.

Lemma auto_identifier_witness :
  exists n s',
    add_record iso_date_only noon ∅ one_row = (Ret (id_text n), s')
    /\ 1 <= n <= 999
    /\ forall r, In r (rows one_row) -> td_number r <> id_text n.
Proof.
  destruct (auto_identifier_is_fresh_below_a_thousand iso_date_only noon ∅ None one_row)
    as (n & s' & Hrun & Hn & Hfresh & _).
  - reflexivity.
  - reflexivity.
  - intros r [<-|[]] _. exists 1. split; [lia|reflexivity].
  - exists n, s'. split; [exact Hrun|]. split; [exact Hn|exact Hfresh].
Defined.


Lemma deleted_identifier_witness :
  first_td "X1" (delete_record "X1" two_x1).2 = None.
Proof.
  exact (proj1 (a_deleted_identifier_is_gone iso_date_only noon "X1" two_x1)).
Defined.


Lemma dialog_witness :
  (length (add_dialog_entry "new" (replicate 100 "old")) <= 100)%nat.
Proof.
  apply (proj1 (proj2 (proj2 (proj2
           (dialog_keeps_the_newest_entries "new" (replicate 100 "old")))))).
  rewrite length_replicate. lia.
Defined.

Lemma parse_date_slash_witness :
  _parse_date iso_date_only (Some "02/29/2024") = Some (mkdate 2024 2 29)
  /\ _parse_date iso_date_only (Some "2024/02/29") = Some (mkdate 2024 2 29).
Proof.
  apply (parse_date_reads_the_slash_formats iso_date_only (mkdate 2024 2 29)).
  repeat split; vm_compute; discriminate.
Defined.
